(** * Fault scoring, dispatcher and dashboards of the turbine app

    A shallow embedding of [src/services/api.ts] (the rule-based scoring
    function [mockPrediction], the remote-first dispatcher
    [turbineApi.predict] and the other calls of [turbineApi]), of
    [src/components/RealTimeDashboard.tsx] (the sampling cycle, the
    bounded prediction history, its CSV export and the start/stop
    handlers of the sampling loop), of [handlePredict] in
    [src/pages/Dashboard.tsx], of the impact levels of
    [src/components/ExplainableAI.tsx] and of the sample data and the
    upload of [src/components/DataUploader.tsx], followed by the
    properties the specification states about them and by further
    properties of the code.

    JavaScript numbers are IEEE 754 binary64 values.  They are modelled by
    the executable specification of the Standard Library
    ([Floats.SpecFloat], precision 53, maximal exponent 1024), so that sums
    such as [0.2 + 0.1] are rounded here exactly as they are at run time. *)

From Stdlib Require Import ZArith NArith List Bool String Ascii Lia Decimal DecimalString.
From Stdlib Require Import Floats.SpecFloat.
Import ListNotations.

Set Implicit Arguments.

(* ================================================================== *)
(** * JavaScript numbers *)
(* ================================================================== *)

Module JS.

Definition number := spec_float.

Definition prec : Z := 53.
Definition emax : Z := 1024.

Definition NaN : number := S754_nan.
Definition Infinity : number := S754_infinity false.

(** The Number value of an integer (exact up to 2^53). *)
Definition of_Z (z : Z) : number := binary_normalize prec emax z 0 false.

(** The Number value of the decimal literal [n / d]: the literal denotes
    the double nearest to its mathematical value, which the correctly
    rounded quotient of the two exactly represented integers is. *)
Definition lit (n d : Z) : number := SFdiv prec emax (of_Z n) (of_Z d).

Definition of_decimal (x : Number.number) : option spec_float :=
  match x with
  | Number.Decimal (Decimal.Decimal i f) =>
      Some (lit (Z.of_int (Decimal.app_int i f))
                (10 ^ Z.of_nat (Decimal.nb_digits f)))
  | _ => None
  end.

Definition to_decimal (x : spec_float) : option Number.number := None.

Definition add : number -> number -> number := SFadd prec emax.
Definition sub : number -> number -> number := SFsub prec emax.
Definition mul : number -> number -> number := SFmul prec emax.

(** Relational operators: every comparison with NaN is false. *)
Definition lt (a b : number) : bool := SFltb a b.
Definition gt (a b : number) : bool := SFltb b a.
Definition le (a b : number) : bool := SFleb a b.
Definition ge (a b : number) : bool := SFleb b a.

Definition is_nan (a : number) : bool :=
  match a with S754_nan => true | _ => false end.

Definition is_finite (a : number) : bool :=
  match a with
  | S754_zero _ | S754_finite _ _ _ => true
  | _ => false
  end.

(** [Math.min(a, b)]: NaN if either argument is NaN, [-0] below [+0]. *)
Definition Math_min (a b : number) : number :=
  match a, b with
  | S754_nan, _ | _, S754_nan => NaN
  | S754_zero false, S754_zero true => b
  | _, _ => if lt b a then b else a
  end.

(** [Math.max(a, b)]: NaN if either argument is NaN, [+0] above [-0]. *)
Definition Math_max (a b : number) : number :=
  match a, b with
  | S754_nan, _ | _, S754_nan => NaN
  | S754_zero true, S754_zero false => b
  | _, _ => if lt a b then b else a
  end.

Definition Math_abs (a : number) : number := SFabs a.

Definition div (a b : number) : number := SFdiv prec emax a b.

End JS.

Declare Scope js_scope.
Delimit Scope js_scope with js.
Number Notation spec_float JS.of_decimal JS.to_decimal : js_scope.
Infix "+" := JS.add : js_scope.
Infix "-" := JS.sub : js_scope.
Infix "*" := JS.mul : js_scope.
Infix "<" := JS.lt : js_scope.
Infix ">" := JS.gt : js_scope.
Infix "<=" := JS.le : js_scope.
Infix ">=" := JS.ge : js_scope.

Local Open Scope string_scope.

(* ================================================================== *)
(** * [Number.prototype.toFixed] *)
(* ================================================================== *)

Module NumberFormat.

(** The decimal digits of a non-negative integer. *)
Definition decimal (n : Z) : string :=
  NilZero.string_of_uint (N.to_uint (Z.to_N n)).

Fixpoint zeros (n : nat) : string :=
  match n with
  | O => ""
  | S n' => String "0" (zeros n')
  end.

(** The integer [n] for which [n / 10^f - m * 2^e] is as close to zero as
    possible, the larger one when there are two. *)
Definition nearest_scaled (m : positive) (e : Z) (f : nat) : Z :=
  let num := (Zpos m * 10 ^ Z.of_nat f)%Z in
  match e with
  | Z0 => num
  | Zpos _ => (num * 2 ^ e)%Z
  | Zneg p => ((2 * num + 2 ^ Zpos p) / 2 ^ (Zpos p + 1))%Z
  end.

(** Steps 11.b-11.d of [toFixed]: the digits of [n] with a decimal point
    before the last [f] of them, padded with zeros on the left so that
    at least one digit precedes the point. *)
Definition point_form (n : Z) (f : nat) : string :=
  let m := decimal n in
  if Nat.eqb f 0 then m
  else
    let k := String.length m in
    let m := if Nat.leb k f then zeros (f + 1 - k) ++ m else m in
    let k := String.length m in
    substring 0 (k - f) m ++ "." ++ substring (k - f) f m.

(** The integer value of a double whose exponent is not negative. *)
Definition integer_value (m : positive) (e : Z) : Z := (Zpos m * 2 ^ e)%Z.

Definition at_least_1e21 (m : positive) (e : Z) : bool :=
  (0 <=? e)%Z && (10 ^ 21 <=? integer_value m e)%Z.

(** [Number::toString] on a double [x >= 10^21], whose value is the
    integer [X]: the shortest digit string [s] (of [k] digits) and the
    exponent [n] with [s * 10^(n-k)] rounding to [x], the closest such
    [s], printed in exponential notation. *)
Section Shortest.
Variable x : JS.number.
Variable X : Z.
Variable N : nat.   (* the number of decimal digits of X *)

Definition candidates (k : nat) : list (Z * nat) :=
    let s0 := (X / 10 ^ Z.of_nat (N - k))%Z in
    (s0, N) ::
    (if (s0 + 1 <? 10 ^ Z.of_nat k)%Z then [((s0 + 1)%Z, N)]
     else [((10 ^ Z.of_nat (k - 1))%Z, S N)]).

Definition denoted (k : nat) (c : Z * nat) : Z :=
    (fst c * 10 ^ Z.of_nat (snd c - k))%Z.

Definition reads_back (k : nat) (c : Z * nat) : bool :=
    (10 ^ Z.of_nat (k - 1) <=? fst c)%Z &&
    SFeqb (JS.of_Z (denoted k c)) x.

Definition pick (k : nat) : option (Z * nat) :=
    match filter (reads_back k) (candidates k) with
    | [] => None
    | [c] => Some c
    | c0 :: c1 :: _ =>
        let d0 := Z.abs (X - denoted k c0) in
        let d1 := Z.abs (denoted k c1 - X) in
        if (d0 <? d1)%Z then Some c0
        else if (d1 <? d0)%Z then Some c1
        else if Z.even (fst c0) then Some c0 else Some c1
    end.

Fixpoint shortest (k fuel : nat) : Z * nat :=
    match fuel with
    | O => (X, N)
    | S fuel' =>
        match pick k with
        | Some c => c
        | None => shortest (S k) fuel'
        end
    end.
End Shortest.

Definition toString_large (m : positive) (e : Z) : string :=
  let X := integer_value m e in
  let N := String.length (decimal X) in
  let (s, n) := shortest (S754_finite false m e) X N 1 17 in
  let digits := decimal s in
  let exponent := "e+" ++ decimal (Z.of_nat n - 1) in
  match digits with
  | String d EmptyString => String d exponent
  | String d rest => String d ("." ++ rest ++ exponent)
  | EmptyString => exponent
  end.

(** [x.toFixed(f)] for [0 <= f <= 100]. *)
Definition toFixed (x : JS.number) (f : nat) : string :=
  match x with
  | S754_nan => "NaN"
  | S754_infinity false => "Infinity"
  | S754_infinity true => "-Infinity"
  | S754_zero _ => point_form 0 f
  | S754_finite s m e =>
      (if s then "-" else "") ++
      (if at_least_1e21 m e then toString_large m e
       else point_form (nearest_scaled m e f) f)
  end.

End NumberFormat.

Local Open Scope list_scope.

(* ================================================================== *)
(** * The telemetry record *)
(* ================================================================== *)

(** [TurbineParameters], with the fields of [defaultParameters] in
    [pages/Dashboard.tsx].  Numeric fields are numbers (which includes NaN
    and the infinities); the three categorical fields are strings. *)
Record TurbineParameters := {
  generatorPower : JS.number;
  voltage : JS.number;
  current : JS.number;
  frequency : JS.number;
  powerFactor : JS.number;
  windSpeed : JS.number;
  windDirection : JS.number;
  turbulenceIntensity : JS.number;
  airDensity : JS.number;
  temperature : JS.number;
  pressure : JS.number;
  humidity : JS.number;
  tipSpeedRatio : JS.number;
  coefficientPerformance : JS.number;
  powerCurve : JS.number;
  capacityFactor : JS.number;
  cutInWindSpeed : JS.number;
  ratedWindSpeed : JS.number;
  cutOutWindSpeed : JS.number;
  brakingSystemType : string;
  vibrationLevels : JS.number;
  componentTemperatures : JS.number;
  gearboxOilCondition : JS.number;
  noiseLevels : JS.number;
  towerType : string;
  materialProperties : JS.number;
  foundationType : string
}.

(** [defaultParameters] of [pages/Dashboard.tsx]. *)
Definition defaultParameters : TurbineParameters := {|
  generatorPower := 2500%js;
  voltage := 690%js;
  current := 2100%js;
  frequency := 50%js;
  powerFactor := 0.95%js;
  windSpeed := 12.5%js;
  windDirection := 180%js;
  turbulenceIntensity := 15%js;
  airDensity := 1.225%js;
  temperature := 20%js;
  pressure := 1013%js;
  humidity := 65%js;
  tipSpeedRatio := 7.5%js;
  coefficientPerformance := 0.45%js;
  powerCurve := 85%js;
  capacityFactor := 35%js;
  cutInWindSpeed := 3.5%js;
  ratedWindSpeed := 12.0%js;
  cutOutWindSpeed := 25.0%js;
  brakingSystemType := "aerodynamic";
  vibrationLevels := 25%js;
  componentTemperatures := 65%js;
  gearboxOilCondition := 85%js;
  noiseLevels := 45%js;
  towerType := "tubular";
  materialProperties := 95%js;
  foundationType := "gravity"
|}.

(* ================================================================== *)
(** * Ambient effects: [Math.random] *)
(* ================================================================== *)

(** The pseudo-random generator is a sequence of draws and a cursor;
    code that calls [Math.random()] threads it as a state. *)
Module Random.

Record Rng := { draws : nat -> JS.number; cursor : nat }.

Definition M (A : Type) : Type := Rng -> A * Rng.

Definition ret {A} (a : A) : M A := fun g => (a, g).

Definition bind {A B} (m : M A) (k : A -> M B) : M B :=
  fun g => let (a, g') := m g in k a g'.

Definition Math_random : M JS.number :=
  fun g => (draws g (cursor g),
            {| draws := draws g; cursor := S (cursor g) |}).

(** The contract of [Math.random()]: a double with positive sign, at
    least [+0] and strictly below 1. *)
Definition unit_interval (r : JS.number) : bool :=
  match r with
  | S754_zero false => true
  | S754_finite false m e => bounded JS.prec JS.emax m e && (r < 1)%js
  | _ => false
  end.

Definition well_formed (g : Rng) : Prop :=
  forall i, unit_interval (draws g i) = true.

End Random.

Notation "x <- c1 ;; c2" := (Random.bind c1 (fun x => c2))
  (at level 61, c1 at next level, right associativity).

Inductive Prediction := normal | warning | fault.

Definition Prediction_string (p : Prediction) : string :=
  match p with
  | normal => "normal"
  | warning => "warning"
  | fault => "fault"
  end.

(* ================================================================== *)
(** * services/api.ts *)
(* ================================================================== *)

Module Api.

Record PredictionResponse := {
  prediction : Prediction;
  probability : JS.number;
  confidence : JS.number;
  affectedComponents : list string;
  shapValues : list (string * JS.number);
  timestamp : string
}.

(** [[...new Set(xs)]]: the distinct elements in order of first insertion. *)
Fixpoint Set_values (seen xs : list string) : list string :=
  match xs with
  | [] => []
  | x :: rest =>
    if existsb (String.eqb x) seen then Set_values seen rest
    else x :: Set_values (x :: seen) rest
  end.

(** Property lookup in an object literal kept as an association list. *)
Fixpoint get (key : string) (o : list (string * JS.number)) : option JS.number :=
  match o with
  | [] => None
  | (k, v) :: rest => if String.eqb k key then Some v else get key rest
  end.

(** The five threshold rules of [mockPrediction] (lines 23-50): the
  accumulator [faultScore] and the pushed component names. *)
Definition rules (parameters : TurbineParameters) : JS.number * list string :=
  let faultScore := 0%js in
  let affectedComponents : list string := [] in
  let '(faultScore, affectedComponents) :=
  if (vibrationLevels parameters > 70)%js
  then ((faultScore + 0.3)%js, affectedComponents ++ ["Gearbox"; "Bearings"])
  else (faultScore, affectedComponents) in
  let '(faultScore, affectedComponents) :=
  if (componentTemperatures parameters > 90)%js
  then ((faultScore + 0.25)%js,
        affectedComponents ++ ["Generator"; "Power Electronics"])
  else (faultScore, affectedComponents) in
  let '(faultScore, affectedComponents) :=
  if (windSpeed parameters > 25)%js || (windSpeed parameters < 3)%js
  then ((faultScore + 0.2)%js, affectedComponents ++ ["Rotor"; "Control System"])
  else (faultScore, affectedComponents) in
  let '(faultScore, affectedComponents) :=
  if (powerFactor parameters < 0.85)%js
  then ((faultScore + 0.15)%js, affectedComponents ++ ["Power Electronics"])
  else (faultScore, affectedComponents) in
  let '(faultScore, affectedComponents) :=
  if (gearboxOilCondition parameters < 30)%js
  then ((faultScore + 0.1)%js, affectedComponents ++ ["Gearbox"])
  else (faultScore, affectedComponents) in
  (faultScore, affectedComponents).

Definition faultScore (parameters : TurbineParameters) : JS.number :=
  fst (rules parameters).

(** Lines 52-60: the label chosen from the fault score. *)
Definition classify (faultScore : JS.number) : Prediction :=
  if (faultScore > 0.6)%js then fault
  else if (faultScore > 0.3)%js then warning
  else normal.

(** [mockPrediction]; [now] is the value of [new Date().toISOString()] at
  the time of the call.  The four calls of [Math.random()] happen in the
  order in which the two object literals are evaluated. *)
Definition mockPrediction (now : string) (parameters : TurbineParameters)
  : Random.M PredictionResponse :=
  let '(faultScore, affectedComponents) := rules parameters in
  let prediction := classify faultScore in
  r1 <- Random.Math_random ;;
  r2 <- Random.Math_random ;;
  let shapValues :=
  [ ("vibrationLevels",
     if (vibrationLevels parameters > 70)%js then 0.15%js else (-0.05)%js);
    ("componentTemperatures",
     if (componentTemperatures parameters > 90)%js then 0.12%js else (-0.03)%js);
    ("windSpeed",
     if (windSpeed parameters > 25)%js || (windSpeed parameters < 3)%js
     then 0.1%js else (-0.02)%js);
    ("powerFactor",
     if (powerFactor parameters < 0.85)%js then 0.08%js else (-0.01)%js);
    ("gearboxOilCondition",
     if (gearboxOilCondition parameters < 30)%js then 0.06%js else (-0.01)%js);
    ("generatorPower", (r1 * 0.04 - 0.02)%js);
    ("frequency", (r2 * 0.02 - 0.01)%js) ] in
  r3 <- Random.Math_random ;;
  r4 <- Random.Math_random ;;
  Random.ret {|
  prediction := prediction;
  probability := JS.Math_min (faultScore + r3 * 0.1)%js 1%js;
  confidence := (0.85 + r4 * 0.1)%js;
  affectedComponents := Set_values [] affectedComponents;
  shapValues := shapValues;
  timestamp := now
|}.

(** ** Promises

  An asynchronous computation is started at an instant (milliseconds
  since the epoch) with the generator state of that instant and settles
  later, fulfilled or rejected. *)
Inductive Settled (A : Type) :=
| Fulfilled (value : A)
| Rejected (reason : string).

Arguments Rejected {A} reason.

Record Outcome (A : Type) := {
  settled : Settled A;
  settled_at : Z;
  rng_after : Random.Rng
}.

Definition Promise (A : Type) : Type := Z -> Random.Rng -> Outcome A.

Definition resolve {A} (a : A) : Promise A :=
  fun t g => {| settled := Fulfilled a; settled_at := t; rng_after := g |}.

Definition reject {A} (reason : string) : Promise A :=
  fun t g => {| settled := Rejected reason; settled_at := t; rng_after := g |}.

(** [const x = await p; k x]: a rejection of [p] propagates. *)
Definition await {A B} (p : Promise A) (k : A -> Promise B) : Promise B :=
  fun t g =>
  let o := p t g in
  match settled o with
| Fulfilled a => k a (settled_at o) (rng_after o)
| Rejected reason =>
      {| settled := Rejected reason; settled_at := settled_at o;
         rng_after := rng_after o |}
  end.

(** [try { body } catch (error) { handler(error) }] around awaited code. *)
Definition try_catch {A} (body : Promise A) (handler : string -> Promise A)
  : Promise A :=
  fun t g =>
  let o := body t g in
  match settled o with
| Fulfilled a => o
| Rejected reason => handler reason (settled_at o) (rng_after o)
  end.

(** [new Promise((resolve) => { setTimeout(() => { resolve(f()) }, ms) })]:
  the callback [f] runs [ms] milliseconds later, reading the clock and
  the generator of that instant. *)
Definition setTimeout_resolve {A} (ms : Z) (f : Z -> Random.M A) : Promise A :=
  fun t g =>
  let (a, g') := f (t + ms)%Z g in
  {| settled := Fulfilled a; settled_at := (t + ms)%Z; rng_after := g' |}.

(** ** The remote service as seen through [axios]

  What the network does with a request: an HTTP reply after some latency,
  or no reply at all (connection refused, DNS failure, ...) noticed after
  some latency. *)
Inductive Reply :=
| HttpReply (latency : Z) (status : Z) (data : PredictionResponse)
| ConnectionFailure (latency : Z).

Record World := {
(** The reply of the backend to [POST url] with the given body. *)
  network : string -> TurbineParameters -> Reply;
(** [new Date(t).toISOString()]; the calendar arithmetic is not modelled. *)
  toISOString : Z -> string
}.

Record AxiosResponse := { status : Z; data : PredictionResponse }.

(** [axios.post(url, body, { timeout })]: rejects when [timeout]
  milliseconds pass without a reply, when the connection fails, and (with
  the default [validateStatus]) when the status is outside 200..299. *)
Definition axios_post (w : World) (url : string) (body : TurbineParameters)
  (timeout : Z) : Promise AxiosResponse :=
  fun t g =>
  match network w url body with
| HttpReply latency st d =>
      if (timeout <? latency)%Z then
        reject "timeout exceeded" (t + timeout)%Z g
      else if ((200 <=? st) && (st <? 300))%Z then
        resolve {| status := st; data := d |} (t + latency)%Z g
      else reject "Request failed with status code" (t + latency)%Z g
| ConnectionFailure latency =>
      if (timeout <? latency)%Z then
        reject "timeout exceeded" (t + timeout)%Z g
      else reject "Network Error" (t + latency)%Z g
  end.

Definition API_BASE_URL : string := "http://localhost:5000".

(** [turbineApi.predict] (lines 85-100). *)
Definition predict (w : World) (parameters : TurbineParameters)
  : Promise PredictionResponse :=
  try_catch
  (await (axios_post w (API_BASE_URL ++ "/predict")%string parameters 10000)
     (fun response => resolve (data response)))
  (fun error =>
     (* console.warn('Backend not available, using mock data:', error) *)
     setTimeout_resolve 1500
       (fun t => mockPrediction (toISOString w t) parameters)).

(** ** The other endpoints (lines 102-134)

    The replies of the backend to [/explain], [/fault-location] and
    [/health].  The payload of [/fault-location] is untyped in the source;
    only its [locations] array is modelled, over an arbitrary type of
    locations. *)
Inductive ReplyOf (A : Type) :=
| Replied (latency : Z) (status : Z) (data : A)
| Unreachable (latency : Z).

Arguments Unreachable {A} latency.

Record ExplanationResponse := {
  shapPlot : string;
  featureImportance : list (string * JS.number)
}.

Record FaultLocation (L : Type) := { locations : list L }.

Record Backend (L : Type) := {
  explain : TurbineParameters -> ReplyOf ExplanationResponse;
  fault_location : TurbineParameters -> ReplyOf (FaultLocation L);
  health : ReplyOf unit
}.

(** An [axios] request with an optional [timeout] (none: wait for the
    reply, however long); fulfilled with the status and the payload. *)
Definition axios_request {A} (reply : ReplyOf A) (timeout : option Z)
  : Promise (Z * A) :=
  fun t g =>
    let timed_out latency :=
      match timeout with
      | Some limit => (limit <? latency)%Z
      | None => false
      end in
    let deadline :=
      match timeout with Some limit => limit | None => 0%Z end in
    match reply with
    | Replied latency st d =>
        if timed_out latency then
          reject "timeout exceeded" (t + deadline)%Z g
        else if ((200 <=? st) && (st <? 300))%Z then
          resolve (st, d) (t + latency)%Z g
        else reject "Request failed with status code" (t + latency)%Z g
    | Unreachable latency =>
        if timed_out latency then
          reject "timeout exceeded" (t + deadline)%Z g
        else reject "Network Error" (t + latency)%Z g
    end.

(** [turbineApi.getExplanation] (lines 103-113). *)
Definition getExplanation {L} (b : Backend L) (parameters : TurbineParameters)
  : Promise ExplanationResponse :=
  try_catch
    (await (axios_request (explain b parameters) (Some 15000%Z))
       (fun response => resolve (snd response)))
    (fun error =>
       (* console.warn('Backend not available for explanation') *)
       reject "Explanation service unavailable").

(** [turbineApi.getFaultLocation] (lines 116-124): no time-out is set. *)
Definition getFaultLocation {L} (b : Backend L)
    (parameters : TurbineParameters) : Promise (FaultLocation L) :=
  try_catch
    (await (axios_request (fault_location b parameters) None)
       (fun response => resolve (snd response)))
    (fun error =>
       (* console.warn('Backend not available for fault location') *)
       resolve {| locations := [] |}).

(** [turbineApi.healthCheck] (lines 127-134). *)
Definition healthCheck {L} (b : Backend L) : Promise bool :=
  try_catch
    (await (axios_request (health b) (Some 5000%Z))
       (fun response => resolve (fst response =? 200)%Z))
    (fun error => resolve false).

End Api.

(* ================================================================== *)
(** * components/RealTimeDashboard.tsx *)
(* ================================================================== *)

Module RealTimeDashboard.

Record PredictionHistory := {
  id : string;
  timestamp : string;
  prediction : Prediction;
  probability : JS.number;
  confidence : JS.number;
  parameters : TurbineParameters
}.

(** The component: its four [useState] cells, and the part of the browser
  its handlers act on (the table of live intervals, each entry a handle
  and a period in milliseconds, all of them running
  [simulateRealTimeData]; the notifications shown; the files offered for
  download). *)
Record Component := {
  isRealTimeMode : bool;
  predictionHistory : list PredictionHistory;
  lastPrediction : option Api.PredictionResponse;
  intervalId : option positive;
  intervals : list (positive * Z);
  next_handle : positive;
  toasts : list string;
  downloads : list (string * string)
}.

(** The component as first rendered. *)
Definition mount : Component := {|
  isRealTimeMode := false;
  predictionHistory := [];
  lastPrediction := None;
  intervalId := None;
  intervals := [];
  next_handle := 1;
  toasts := [];
  downloads := []
|}.

Definition setIsRealTimeMode (b : bool) (c : Component) : Component :=
  {| isRealTimeMode := b;
   predictionHistory := predictionHistory c;
   lastPrediction := lastPrediction c;
   intervalId := intervalId c;
   intervals := intervals c;
   next_handle := next_handle c;
   toasts := toasts c;
   downloads := downloads c |}.

Definition setPredictionHistory
  (f : list PredictionHistory -> list PredictionHistory) (c : Component)
  : Component :=
  {| isRealTimeMode := isRealTimeMode c;
   predictionHistory := f (predictionHistory c);
   lastPrediction := lastPrediction c;
   intervalId := intervalId c;
   intervals := intervals c;
   next_handle := next_handle c;
   toasts := toasts c;
   downloads := downloads c |}.

Definition setLastPrediction (r : Api.PredictionResponse) (c : Component)
  : Component :=
  {| isRealTimeMode := isRealTimeMode c;
   predictionHistory := predictionHistory c;
   lastPrediction := Some r;
   intervalId := intervalId c;
   intervals := intervals c;
   next_handle := next_handle c;
   toasts := toasts c;
   downloads := downloads c |}.

Definition setIntervalId (h : option positive) (c : Component) : Component :=
  {| isRealTimeMode := isRealTimeMode c;
   predictionHistory := predictionHistory c;
   lastPrediction := lastPrediction c;
   intervalId := h;
   intervals := intervals c;
   next_handle := next_handle c;
   toasts := toasts c;
   downloads := downloads c |}.

(** [setInterval(simulateRealTimeData, period)]: a fresh, non-zero handle. *)
Definition setInterval (period : Z) (c : Component) : positive * Component :=
  (next_handle c,
   {| isRealTimeMode := isRealTimeMode c;
    predictionHistory := predictionHistory c;
    lastPrediction := lastPrediction c;
    intervalId := intervalId c;
    intervals := (next_handle c, period) :: intervals c;
    next_handle := Pos.succ (next_handle c);
    toasts := toasts c;
    downloads := downloads c |}).

Definition clearInterval (h : positive) (c : Component) : Component :=
  {| isRealTimeMode := isRealTimeMode c;
   predictionHistory := predictionHistory c;
   lastPrediction := lastPrediction c;
   intervalId := intervalId c;
   intervals := filter (fun hp => negb (Pos.eqb (fst hp) h)) (intervals c);
   next_handle := next_handle c;
   toasts := toasts c;
   downloads := downloads c |}.

Definition toast (title : string) (c : Component) : Component :=
  {| isRealTimeMode := isRealTimeMode c;
   predictionHistory := predictionHistory c;
   lastPrediction := lastPrediction c;
   intervalId := intervalId c;
   intervals := intervals c;
   next_handle := next_handle c;
   toasts := title :: toasts c;
   downloads := downloads c |}.

Definition download (name content : string) (c : Component) : Component :=
  {| isRealTimeMode := isRealTimeMode c;
   predictionHistory := predictionHistory c;
   lastPrediction := lastPrediction c;
   intervalId := intervalId c;
   intervals := intervals c;
   next_handle := next_handle c;
   toasts := toasts c;
   downloads := (name, content) :: downloads c |}.

(** The updater of line 72: [prev => [historyEntry, ...prev.slice(0, 49)]]. *)
Definition addToHistory (historyEntry : PredictionHistory)
  (prev : list PredictionHistory) : list PredictionHistory :=
  historyEntry :: firstn 49 prev.

(** [runPrediction] (lines 57-76), started at instant [t]. *)
Definition runPrediction (w : Api.World) (params : TurbineParameters)
  (c : Component) (t : Z) (g : Random.Rng) : Component * Z * Random.Rng :=
  let o := Api.predict w params t g in
  let t' := Api.settled_at o in
  match Api.settled o with
| Api.Fulfilled result =>
    let c := setLastPrediction result c in
    let historyEntry := {|
      id := NumberFormat.decimal t';
      timestamp := Api.toISOString w t';
      prediction := Api.prediction result;
      probability := Api.probability result;
      confidence := Api.confidence result;
      parameters := params
    |} in
    (setPredictionHistory (addToHistory historyEntry) c, t', Api.rng_after o)
| Api.Rejected _ =>
    (* console.error('Prediction failed:', error) *)
    (c, t', Api.rng_after o)
  end.

(** [startRealTimeMode] (lines 78-87). *)
Definition startRealTimeMode (c : Component) : Component :=
  let c := setIsRealTimeMode true c in
  let (id, c) := setInterval 3000 c in
  let c := setIntervalId (Some id) c in
  toast "Real-time mode activated" c.

(** [stopRealTimeMode] (lines 89-100). *)
Definition stopRealTimeMode (c : Component) : Component :=
  let intervalId_seen := intervalId c in
  let c := setIsRealTimeMode false c in
  let c :=
  match intervalId_seen with
| Some id => setIntervalId None (clearInterval id c)
| None => c
  end in
  toast "Real-time mode deactivated" c.

(** [clearHistory] (lines 102-108). *)
Definition clearHistory (c : Component) : Component :=
  toast "History cleared" (setPredictionHistory (fun _ => []) c).

(** The effect of lines 138-144, [useEffect(() => () => { if (intervalId)
  clearInterval(intervalId) }, [intervalId])]: when a handler has changed
  [intervalId], the clean-up of the previous render runs with the handle
  that render had seen. *)
Definition effect_cleanup (before after : Component) : Component :=
  match intervalId before, intervalId after with
| Some old, Some new => if Pos.eqb old new then after else clearInterval old after
| Some old, None => clearInterval old after
| None, _ => after
  end.

(** A handler invoked by the user interface, and the re-render after it. *)
Definition handle (handler : Component -> Component) (c : Component)
  : Component :=
  effect_cleanup c (handler c).

(** The switch (line 166) and the button (line 179) both dispatch on the
  mode: [isRealTimeMode ? stopRealTimeMode : startRealTimeMode]. *)
Definition onToggle (c : Component) : Component :=
  if isRealTimeMode c then stopRealTimeMode c else startRealTimeMode c.

(** ** CSV export (lines 110-136) *)

Definition newline : string := String (ascii_of_nat 10) EmptyString.

Definition header : list string :=
  ["Timestamp"; "Prediction"; "Probability"; "Confidence"; "Wind Speed";
   "Generator Power"; "Vibration"; "Temperature"].

Definition row (entry : PredictionHistory) : list string :=
  [ timestamp entry;
  Prediction_string (prediction entry);
  NumberFormat.toFixed (probability entry) 3;
  NumberFormat.toFixed (confidence entry) 3;
  NumberFormat.toFixed (windSpeed (parameters entry)) 1;
  NumberFormat.toFixed (generatorPower (parameters entry)) 1;
  NumberFormat.toFixed (vibrationLevels (parameters entry)) 1;
  NumberFormat.toFixed (componentTemperatures (parameters entry)) 1 ].

Definition csv (history : list PredictionHistory) : string :=
  String.concat newline
  (map (String.concat ",") (header :: map row history)).

(** [s.split('T')[0]]. *)
Fixpoint before_T (s : string) : string :=
  match s with
| EmptyString => EmptyString
| String ch rest =>
    if Ascii.eqb ch "T" then EmptyString else String ch (before_T rest)
  end.

(** [exportHistory], invoked at instant [t]. *)
Definition exportHistory (w : Api.World) (t : Z) (c : Component) : Component :=
  let name :=
  ("turbine_predictions_" ++ before_T (Api.toISOString w t) ++ ".csv")%string in
  toast "History exported" (download name (csv (predictionHistory c)) c).

(** The record built by lines 33-49 of [simulateRealTimeData]: a copy of
    [parameters] in which six fields are perturbed, each with its own draw,
    in the order of the assignments. *)
Definition perturb (parameters : TurbineParameters)
  : Random.M TurbineParameters :=
  r1 <- Random.Math_random ;;
  let windSpeed' :=
    JS.Math_max 0%js (windSpeed parameters + (r1 - 0.5) * 2)%js in
  r2 <- Random.Math_random ;;
  let componentTemperatures' :=
    JS.Math_max 0%js (componentTemperatures parameters + (r2 - 0.5) * 5)%js in
  r3 <- Random.Math_random ;;
  let vibrationLevels' :=
    JS.Math_max 0%js (vibrationLevels parameters + (r3 - 0.5) * 10)%js in
  r4 <- Random.Math_random ;;
  let generatorPower' :=
    JS.Math_max 0%js (windSpeed' * 150 + (r4 - 0.5) * 200)%js in
  r5 <- Random.Math_random ;;
  let powerFactor' :=
    JS.Math_max 0.5%js
      (JS.Math_min 1%js (powerFactor parameters + (r5 - 0.5) * 0.1)%js) in
  r6 <- Random.Math_random ;;
  let frequency' :=
    JS.Math_max 45%js
      (JS.Math_min 65%js (frequency parameters + (r6 - 0.5) * 1)%js) in
  Random.ret {|
    generatorPower := generatorPower';
    voltage := voltage parameters;
    current := current parameters;
    frequency := frequency';
    powerFactor := powerFactor';
    windSpeed := windSpeed';
    windDirection := windDirection parameters;
    turbulenceIntensity := turbulenceIntensity parameters;
    airDensity := airDensity parameters;
    temperature := temperature parameters;
    pressure := pressure parameters;
    humidity := humidity parameters;
    tipSpeedRatio := tipSpeedRatio parameters;
    coefficientPerformance := coefficientPerformance parameters;
    powerCurve := powerCurve parameters;
    capacityFactor := capacityFactor parameters;
    cutInWindSpeed := cutInWindSpeed parameters;
    ratedWindSpeed := ratedWindSpeed parameters;
    cutOutWindSpeed := cutOutWindSpeed parameters;
    brakingSystemType := brakingSystemType parameters;
    vibrationLevels := vibrationLevels';
    componentTemperatures := componentTemperatures';
    gearboxOilCondition := gearboxOilCondition parameters;
    noiseLevels := noiseLevels parameters;
    towerType := towerType parameters;
    materialProperties := materialProperties parameters;
    foundationType := foundationType parameters
  |}.

(** [simulateRealTimeData] (lines 32-55), run at instant [t] on the
    [parameters] the component was rendered with: the record handed to
    [onParametersChange], and the component once the prediction started
    for that record has completed. *)
Definition simulateRealTimeData (w : Api.World)
    (parameters : TurbineParameters) (c : Component) (t : Z)
    (g : Random.Rng) : TurbineParameters * (Component * Z * Random.Rng) :=
  let (newParams, g') := perturb parameters g in
  (newParams, runPrediction w newParams c t g').

(** [getStatusColor] (lines 146-152). *)
Definition getStatusColor (prediction : Prediction) : string :=
  match prediction with
  | fault => "bg-destructive"
  | warning => "bg-yellow-500"
  | normal => "bg-secondary"
  end.


(** The clean-up of the effect of lines 138-144 when the component is
    removed: it runs with the handle of the last render. *)
Definition unmount (c : Component) : Component :=
  match intervalId c with
  | Some id => clearInterval id c
  | None => c
  end.

End RealTimeDashboard.

(* ================================================================== *)
(** * Concrete inputs used by the examples *)
(* ================================================================== *)

(** A generator whose every draw is 0.5. *)
Definition rng_half : Random.Rng :=
  {| Random.draws := fun _ => 0.5%js; Random.cursor := 0 |}.

Definition with_health (vibration heat wind factor oil : JS.number)
    (p : TurbineParameters) : TurbineParameters :=
  {| generatorPower := generatorPower p;
     voltage := voltage p;
     current := current p;
     frequency := frequency p;
     powerFactor := factor;
     windSpeed := wind;
     windDirection := windDirection p;
     turbulenceIntensity := turbulenceIntensity p;
     airDensity := airDensity p;
     temperature := temperature p;
     pressure := pressure p;
     humidity := humidity p;
     tipSpeedRatio := tipSpeedRatio p;
     coefficientPerformance := coefficientPerformance p;
     powerCurve := powerCurve p;
     capacityFactor := capacityFactor p;
     cutInWindSpeed := cutInWindSpeed p;
     ratedWindSpeed := ratedWindSpeed p;
     cutOutWindSpeed := cutOutWindSpeed p;
     brakingSystemType := brakingSystemType p;
     vibrationLevels := vibration;
     componentTemperatures := heat;
     gearboxOilCondition := oil;
     noiseLevels := noiseLevels p;
     towerType := towerType p;
     materialProperties := materialProperties p;
     foundationType := foundationType p |}.

(** The record of the end-to-end scenario: vibration 75, component
    temperature 85, wind speed 15, power factor 0.88, the rest as in
    [defaultParameters] (gearbox oil condition 85). *)
Definition scenario_record : TurbineParameters :=
  with_health 75%js 85%js 15%js 0.88%js 85%js defaultParameters.

(** A record whose vibration reading is NaN. *)
Definition nan_record : TurbineParameters :=
  with_health JS.NaN 65%js 12.5%js 0.95%js 85%js defaultParameters.

(** Only the wind rule and the oil rule fire. *)
Definition wind_and_oil_record : TurbineParameters :=
  with_health 25%js 65%js 30%js 0.95%js 20%js defaultParameters.

(** A world without backend: every request is refused after 20 ms. *)
Definition offline_world : Api.World :=
  {| Api.network := fun _ _ => Api.ConnectionFailure 20;
     Api.toISOString := fun _ => "2026-01-01T00:00:00.000Z" |}.

(** History entries told apart by their [id]. *)
Definition entry_numbered (n : nat) : RealTimeDashboard.PredictionHistory :=
  {| RealTimeDashboard.id := NumberFormat.decimal (Z.of_nat n);
     RealTimeDashboard.timestamp := "2026-01-01T00:00:00.000Z";
     RealTimeDashboard.prediction := normal;
     RealTimeDashboard.probability := 0.05%js;
     RealTimeDashboard.confidence := 0.9%js;
     RealTimeDashboard.parameters := defaultParameters |}.

(** A record is valid for the specification when every numeric field is
    finite. *)
Definition finite_record (p : TurbineParameters) : bool :=
  forallb JS.is_finite
    [ generatorPower p; voltage p; current p; frequency p; powerFactor p;
      windSpeed p; windDirection p; turbulenceIntensity p; airDensity p;
      temperature p; pressure p; humidity p; tipSpeedRatio p;
      coefficientPerformance p; powerCurve p; capacityFactor p;
      cutInWindSpeed p; ratedWindSpeed p; cutOutWindSpeed p;
      vibrationLevels p; componentTemperatures p; gearboxOilCondition p;
      noiseLevels p; materialProperties p ].

(* ================================================================== *)
(** * Notions used to state the properties *)
(* ================================================================== *)

(** The remote call fails: no reply within 10000 ms, a connection failure,
    or a status outside 200..299. *)
Definition remote_fails (r : Api.Reply) : bool :=
  match r with
  | Api.HttpReply latency st _ =>
      (10000 <? latency)%Z || negb ((200 <=? st) && (st <? 300))%Z
  | Api.ConnectionFailure _ => true
  end.

(** When the failure is noticed, counted from the start of the call. *)
Definition failure_delay (r : Api.Reply) : Z :=
  match r with
  | Api.HttpReply latency _ _ | Api.ConnectionFailure latency =>
      Z.min latency 10000
  end.

(** What can happen to a mounted dashboard: the user flips the switch or
    presses the monitoring button, a handler is invoked directly, the
    history is cleared or exported, or a prediction started earlier
    completes. *)
Inductive Event :=
| Toggle
| Start
| Stop
| Clear
| Export (t : Z)
| Predicted (params : TurbineParameters) (t : Z) (g : Random.Rng).

Section Run.
Import RealTimeDashboard.
Variable w : Api.World.

Definition step (c : Component) (ev : Event) : Component :=
  match ev with
  | Toggle => handle onToggle c
  | Start => handle startRealTimeMode c
  | Stop => handle stopRealTimeMode c
  | Clear => handle clearHistory c
  | Export t => handle (exportHistory w t) c
  | Predicted params t g => handle (fun c => fst (fst (runPrediction w params c t g))) c
  end.

Definition run (evs : list Event) : Component := fold_left step evs mount.

(** Idle: nothing scheduled.  Running: exactly the one schedule whose
    handle the component holds. *)
Definition loop_consistent (c : Component) : Prop :=
  match intervalId c with
  | None => isRealTimeMode c = false /\ intervals c = []
  | Some h =>
      isRealTimeMode c = true /\ intervals c = [(h, 3000%Z)]
      /\ (h < next_handle c)%positive
  end.
End Run.

(* ================================================================== *)
(** * pages/Dashboard.tsx *)
(* ================================================================== *)

Module DashboardPage.

Record Toast := { title : string; description : string; variant : string }.

(** The three [useState] cells of the page and the notifications shown. *)
Record Page := {
  parameters : TurbineParameters;
  prediction : option Api.PredictionResponse;
  isLoading : bool;
  toasts : list Toast
}.

Definition setPrediction (r : Api.PredictionResponse) (c : Page) : Page :=
  {| parameters := parameters c;
     prediction := Some r;
     isLoading := isLoading c;
     toasts := toasts c |}.

Definition setIsLoading (b : bool) (c : Page) : Page :=
  {| parameters := parameters c;
     prediction := prediction c;
     isLoading := b;
     toasts := toasts c |}.

Definition toast (n : Toast) (c : Page) : Page :=
  {| parameters := parameters c;
     prediction := prediction c;
     isLoading := isLoading c;
     toasts := n :: toasts c |}.

(** [handlePredict] (lines 68-88), started at instant [t]: the page when
    the [finally] block has run. *)
Definition handlePredict (w : Api.World) (c : Page) (t : Z) (g : Random.Rng)
  : Page * Z * Random.Rng :=
  let c := setIsLoading true c in
  let o := Api.predict w (parameters c) t g in
  let c :=
    match Api.settled o with
    | Api.Fulfilled result =>
        let c := setPrediction result c in
        toast {|
          title := "Analysis Complete";
          description :=
            ("Fault prediction: "
             ++ Prediction_string (Api.prediction result)
             ++ " ("
             ++ NumberFormat.toFixed (Api.probability result * 100)%js 1
             ++ "% probability)")%string;
          variant :=
            match Api.prediction result with
            | fault => "destructive"
            | _ => "default"
            end
        |} c
    | Api.Rejected _ =>
        toast {|
          title := "Prediction Failed";
          description :=
            "Unable to analyze turbine parameters. Please try again.";
          variant := "destructive"
        |} c
    end in
  (setIsLoading false c, Api.settled_at o, Api.rng_after o).

(** [getFaultStatus] (lines 98-101). *)
Definition getFaultStatus (c : Page) : Prediction :=
  match prediction c with
  | None => normal
  | Some p => Api.prediction p
  end.

End DashboardPage.

(* ================================================================== *)
(** * components/ExplainableAI.tsx *)
(* ================================================================== *)

Module ExplainableAI.

(** [getImpactLevel] (lines 98-103). *)
Definition getImpactLevel (shapValue : JS.number) : string :=
  let abs := JS.Math_abs shapValue in
  if (abs > 0.1)%js then "High"
  else if (abs > 0.05)%js then "Medium"
  else "Low".

(** [getImpactColor] (lines 105-110). *)
Definition getImpactColor (shapValue : JS.number) : string :=
  if (shapValue > 0.05)%js then "text-destructive"
  else if (shapValue > 0.02)%js then "text-yellow-600"
  else if (shapValue < (-0.02))%js then "text-secondary"
  else "text-muted-foreground".

End ExplainableAI.

(* ================================================================== *)
(** * Doubles as scaled integers *)
(* ================================================================== *)

(** The state of the right shift of the rounding function after [j]
    steps on the mantissa [N]: the truncated mantissa, round and sticky
    bits that are clear when nothing was lost, and a round bit that is
    set only when at least half a unit was lost. *)
Definition shr_inv (N j : Z) (r : shr_record) : Prop :=
  shr_m r = (N / 2 ^ j)%Z
  /\ ((N mod 2 ^ j)%Z = 0%Z -> shr_r r = false /\ shr_s r = false)
  /\ (shr_r r = true -> (2 ^ j <= 2 * (N mod 2 ^ j))%Z).

(** The value [m * 2^e] of a finite double, as an integer multiple of
    [2^-2200]. *)
Definition scaled (m e : Z) : Z := (m * 2 ^ (e + 2200))%Z.

(** The mantissa and exponent of a double in its unique representation. *)
Definition canonical (m : positive) (e : Z) : Prop :=
  canonical_mantissa JS.prec JS.emax m e = true.

(** [+0] and the positive finite doubles. *)
Definition nonneg_number (x : spec_float) : Prop :=
  x = S754_zero false
  \/ exists m e, x = S754_finite false m e /\ canonical m e /\ (e <= 971)%Z.

Definition nonneg_numberb (x : spec_float) : bool :=
  match x with
  | S754_zero false => true
  | S754_finite false m e => bounded JS.prec JS.emax m e
  | _ => false
  end.

(** The value of a finite double in units of [2^-2200]. *)
Definition value (x : spec_float) : Z :=
  match x with
  | S754_finite false m e => scaled (Zpos m) e
  | S754_finite true m e => (- scaled (Zpos m) e)%Z
  | _ => 0%Z
  end.


(* ================================================================== *)
(** * Notions used to state the further properties *)
(* ================================================================== *)

(** The conditions of the five threshold rules of [mockPrediction]. *)
Definition rule_vibration (p : TurbineParameters) : bool :=
  (vibrationLevels p > 70)%js.
Definition rule_temperature (p : TurbineParameters) : bool :=
  (componentTemperatures p > 90)%js.
Definition rule_wind (p : TurbineParameters) : bool :=
  (windSpeed p > 25)%js || (windSpeed p < 3)%js.
Definition rule_powerFactor (p : TurbineParameters) : bool :=
  (powerFactor p < 0.85)%js.
Definition rule_oil (p : TurbineParameters) : bool :=
  (gearboxOilCondition p < 30)%js.

(** How many of the five rules fire. *)
Definition fired_count (p : TurbineParameters) : nat :=
  List.length
    (filter (fun b : bool => b)
       [rule_vibration p; rule_temperature p; rule_wind p;
        rule_powerFactor p; rule_oil p]).

(** [xs.includes(x)] on an array of strings. *)
Definition includes (x : string) (xs : list string) : bool :=
  existsb (String.eqb x) xs.

(** A world whose backend answers every request after 120 ms with status
    200 and a fixed verdict. *)
Definition remote_verdict : Api.PredictionResponse :=
  {| Api.prediction := warning;
     Api.probability := 0.5%js;
     Api.confidence := 0.9%js;
     Api.affectedComponents := ["Generator"];
     Api.shapValues := [("componentTemperatures", 0.12%js)];
     Api.timestamp := "2026-01-01T00:00:00.000Z" |}.

Definition online_world : Api.World :=
  {| Api.network := fun _ _ => Api.HttpReply 120 200 remote_verdict;
     Api.toISOString := fun _ => "2026-01-01T00:00:00.000Z" |}.

(** Every request to the backend fails, so that every verdict is computed
    locally. *)
Definition backend_down (w : Api.World) : Prop :=
  forall url p, remote_fails (Api.network w url p) = true.

(** The label, the probability and the confidence of a history entry are
    those the rules allow for the record stored with it. *)
Definition entry_consistent (e : RealTimeDashboard.PredictionHistory)
  : Prop :=
  let score := Api.faultScore (RealTimeDashboard.parameters e) in
  RealTimeDashboard.prediction e = Api.classify score
  /\ (score <= RealTimeDashboard.probability e)%js = true
  /\ (RealTimeDashboard.probability e <= 1)%js = true
  /\ (0.85 <= RealTimeDashboard.confidence e)%js = true
  /\ (RealTimeDashboard.confidence e <= 0.95)%js = true.

(** The generator a prediction runs on honours the contract of
    [Math.random]. *)
Definition well_formed_event (ev : Event) : Prop :=
  match ev with
  | Predicted _ _ g => Random.well_formed g
  | _ => True
  end.

(* ================================================================== *)
(** * JavaScript strings *)
(* ================================================================== *)

(** The methods of [String.prototype] the uploader calls, on strings
    whose code units are below 256. *)
Module JSString.

(** The first piece of [s.split(sep)] and the pieces after it, for a
    separator of one character. *)
Fixpoint pieces (sep : ascii) (s : string) : string * list string :=
  match s with
  | EmptyString => (EmptyString, [])
  | String c rest =>
      let (piece, later) := pieces sep rest in
      if Ascii.eqb c sep then (EmptyString, piece :: later)
      else (String c piece, later)
  end.

Definition split (sep : ascii) (s : string) : list string :=
  let (piece, later) := pieces sep s in piece :: later.

(** White space and line terminators: TAB, LF, VT, FF, CR, SP, NBSP. *)
Definition is_space (c : ascii) : bool :=
  existsb (Nat.eqb (nat_of_ascii c)) [9; 10; 11; 12; 13; 32; 160]%nat.

Fixpoint blank (s : string) : bool :=
  match s with
  | EmptyString => true
  | String c rest => is_space c && blank rest
  end.

Fixpoint trimStart (s : string) : string :=
  match s with
  | EmptyString => EmptyString
  | String c rest => if is_space c then trimStart rest else s
  end.

Fixpoint trimEnd (s : string) : string :=
  match s with
  | EmptyString => EmptyString
  | String c rest => if blank s then EmptyString else String c (trimEnd rest)
  end.

Definition trim (s : string) : string := trimEnd (trimStart s).

Definition endsWith (s suffix : string) : bool :=
  let n := String.length s in
  let k := String.length suffix in
  (k <=? n)%nat && String.eqb (substring (n - k) k s) suffix.

(** [s.includes(c)] for a character [c]. *)
Fixpoint includes_char (c : ascii) (s : string) : bool :=
  match s with
  | EmptyString => false
  | String d rest => Ascii.eqb d c || includes_char c rest
  end.

End JSString.

(* ================================================================== *)
(** * components/DataUploader.tsx *)
(* ================================================================== *)

Infix "/" := JS.div : js_scope.

Module DataUploader.

(** An entry of [scenarios] (lines 19-70). *)
Record Scenario := {
  name : string;
  scenario_windSpeed : JS.number;
  scenario_generatorPower : JS.number;
  scenario_vibrationLevels : JS.number;
  scenario_componentTemperatures : JS.number;
  scenario_powerFactor : JS.number;
  scenario_frequency : JS.number
}.

Definition scenarios : list Scenario := [
  {| name := "Normal Operation";
     scenario_windSpeed := 12%js;
     scenario_generatorPower := 1800%js;
     scenario_vibrationLevels := 25%js;
     scenario_componentTemperatures := 65%js;
     scenario_powerFactor := 0.95%js;
     scenario_frequency := 50%js |};
  {| name := "High Vibration Warning";
     scenario_windSpeed := 15%js;
     scenario_generatorPower := 2200%js;
     scenario_vibrationLevels := 75%js;
     scenario_componentTemperatures := 85%js;
     scenario_powerFactor := 0.88%js;
     scenario_frequency := 49.5%js |};
  {| name := "Overheating Fault";
     scenario_windSpeed := 8%js;
     scenario_generatorPower := 1200%js;
     scenario_vibrationLevels := 45%js;
     scenario_componentTemperatures := 125%js;
     scenario_powerFactor := 0.75%js;
     scenario_frequency := 48.2%js |};
  {| name := "Low Wind Speed";
     scenario_windSpeed := 3%js;
     scenario_generatorPower := 200%js;
     scenario_vibrationLevels := 15%js;
     scenario_componentTemperatures := 45%js;
     scenario_powerFactor := 0.92%js;
     scenario_frequency := 50.2%js |};
  {| name := "High Wind Speed";
     scenario_windSpeed := 25%js;
     scenario_generatorPower := 3500%js;
     scenario_vibrationLevels := 85%js;
     scenario_componentTemperatures := 95%js;
     scenario_powerFactor := 0.85%js;
     scenario_frequency := 51.1%js |} ].

(** The record built for one scenario (lines 72-111).  The object literal
    calls [Math.random] six times, in the order of its properties. *)
Definition sample (scenario : Scenario) : Random.M TurbineParameters :=
  r1 <- Random.Math_random ;;
  r2 <- Random.Math_random ;;
  r3 <- Random.Math_random ;;
  r4 <- Random.Math_random ;;
  r5 <- Random.Math_random ;;
  r6 <- Random.Math_random ;;
  Random.ret {|
    generatorPower := scenario_generatorPower scenario;
    voltage := 690%js;
    current := (scenario_generatorPower scenario / 690 * 1.5)%js;
    frequency := scenario_frequency scenario;
    powerFactor := scenario_powerFactor scenario;
    windSpeed := scenario_windSpeed scenario;
    windDirection := (180 + r1 * 40 - 20)%js;
    turbulenceIntensity := (10 + r2 * 10)%js;
    airDensity := 1.225%js;
    temperature := (20 + r3 * 10)%js;
    pressure := 1013%js;
    humidity := (60 + r4 * 20)%js;
    tipSpeedRatio := 7.5%js;
    coefficientPerformance := 0.45%js;
    powerCurve := 85%js;
    capacityFactor := (scenario_generatorPower scenario / 5000 * 100)%js;
    cutInWindSpeed := 3%js;
    ratedWindSpeed := 12%js;
    cutOutWindSpeed := 25%js;
    brakingSystemType := "aerodynamic";
    vibrationLevels := scenario_vibrationLevels scenario;
    componentTemperatures := scenario_componentTemperatures scenario;
    gearboxOilCondition := (85 - r5 * 20)%js;
    noiseLevels := (65 + r6 * 10)%js;
    towerType := "tubular";
    materialProperties := 95%js;
    foundationType := "gravity"
  |}.

(** [xs.map(f)] for an [f] that draws random numbers. *)
Fixpoint map_M {A B : Type} (f : A -> Random.M B) (xs : list A)
  : Random.M (list B) :=
  match xs with
  | [] => Random.ret []
  | x :: rest =>
      y <- f x ;;
      ys <- map_M f rest ;;
      Random.ret (y :: ys)
  end.

(** [generateSampleData] (lines 18-112). *)
Definition generateSampleData : Random.M (list TurbineParameters) :=
  map_M sample scenarios.

(** The property names of a sample, in the order of the object literal:
    [Object.keys(sampleData[0])]. *)
Definition keys : list string :=
  [ "generatorPower"; "voltage"; "current"; "frequency"; "powerFactor";
    "windSpeed"; "windDirection"; "turbulenceIntensity"; "airDensity";
    "temperature"; "pressure"; "humidity";
    "tipSpeedRatio"; "coefficientPerformance"; "powerCurve";
    "capacityFactor";
    "cutInWindSpeed"; "ratedWindSpeed"; "cutOutWindSpeed";
    "brakingSystemType";
    "vibrationLevels"; "componentTemperatures"; "gearboxOilCondition";
    "noiseLevels";
    "towerType"; "materialProperties"; "foundationType" ].

(** A value stored in an uploaded row: a number or a string. *)
Inductive Value :=
| Num (x : JS.number)
| Str (s : string).

(** What the uploader takes from the language: the string of a number
    ([join] converts each element of the array), the number of a string
    ([Number(value)]), and the objects built by [row[header] = value]. *)
Record Host := {
  Row : Type;
  Number_toString : JS.number -> string;
  Number : string -> JS.number;
  empty_object : Row;
  set_property : string -> Value -> Row -> Row
}.

(** [Object.values(row)], each converted as [join] does. *)
Definition values (h : Host) (row : TurbineParameters) : list string :=
  [ Number_toString h (generatorPower row);
    Number_toString h (voltage row);
    Number_toString h (current row);
    Number_toString h (frequency row);
    Number_toString h (powerFactor row);
    Number_toString h (windSpeed row);
    Number_toString h (windDirection row);
    Number_toString h (turbulenceIntensity row);
    Number_toString h (airDensity row);
    Number_toString h (temperature row);
    Number_toString h (pressure row);
    Number_toString h (humidity row);
    Number_toString h (tipSpeedRatio row);
    Number_toString h (coefficientPerformance row);
    Number_toString h (powerCurve row);
    Number_toString h (capacityFactor row);
    Number_toString h (cutInWindSpeed row);
    Number_toString h (ratedWindSpeed row);
    Number_toString h (cutOutWindSpeed row);
    brakingSystemType row;
    Number_toString h (vibrationLevels row);
    Number_toString h (componentTemperatures row);
    Number_toString h (gearboxOilCondition row);
    Number_toString h (noiseLevels row);
    towerType row;
    Number_toString h (materialProperties row);
    foundationType row ].

Definition newline : string := String (ascii_of_nat 10) EmptyString.

Record Toast := {
  title : string;
  description : string;
  variant : option string
}.

(** The state of the uploader: its two [useState] cells, the lists handed
    to [onDataLoad], the notifications shown, and the files offered for
    download (name and text). *)
Record Uploader (R : Type) := {
  uploadedData : list R;
  isProcessing : bool;
  loaded : list (list R);
  toasts : list Toast;
  downloads : list (string * string)
}.

Arguments uploadedData {R}.
Arguments isProcessing {R}.
Arguments loaded {R}.
Arguments toasts {R}.
Arguments downloads {R}.

Definition setUploadedData {R : Type} (data : list R) (c : Uploader R)
  : Uploader R :=
  {| uploadedData := data;
     isProcessing := isProcessing c;
     loaded := loaded c;
     toasts := toasts c;
     downloads := downloads c |}.

Definition setIsProcessing {R : Type} (b : bool) (c : Uploader R)
  : Uploader R :=
  {| uploadedData := uploadedData c;
     isProcessing := b;
     loaded := loaded c;
     toasts := toasts c;
     downloads := downloads c |}.

Definition onDataLoad {R : Type} (data : list R) (c : Uploader R)
  : Uploader R :=
  {| uploadedData := uploadedData c;
     isProcessing := isProcessing c;
     loaded := data :: loaded c;
     toasts := toasts c;
     downloads := downloads c |}.

Definition toast {R : Type} (n : Toast) (c : Uploader R) : Uploader R :=
  {| uploadedData := uploadedData c;
     isProcessing := isProcessing c;
     loaded := loaded c;
     toasts := n :: toasts c;
     downloads := downloads c |}.

Definition download {R : Type} (file_name text : string) (c : Uploader R)
  : Uploader R :=
  {| uploadedData := uploadedData c;
     isProcessing := isProcessing c;
     loaded := loaded c;
     toasts := toasts c;
     downloads := (file_name, text) :: downloads c |}.

(** [downloadSampleCSV] (lines 114-131).  The values of a row are joined
    with a line feed, as the rows are. *)
Definition downloadSampleCSV (h : Host) (c : Uploader (Row h))
  : Random.M (Uploader (Row h)) :=
  sampleData <- generateSampleData ;;
  let headers := String.concat "," keys in
  let rows :=
    String.concat newline
      (map (fun row => String.concat newline (values h row)) sampleData) in
  let csv := (headers ++ newline ++ rows)%string in
  let c := download "turbine_sample_data.csv" csv c in
  Random.ret
    (toast {| title := "Sample data downloaded";
              description := "CSV template with sample turbine data";
              variant := None |} c).

(** The object built by the [forEach] of lines 174-179. *)
Definition parse_row (h : Host) (headers values : list string) : Row h :=
  fold_left
    (fun row hv =>
       let value := snd hv in
       set_property h (fst hv)
         (if JS.is_nan (Number h value) then Str value
          else Num (Number h value))
         row)
    (combine headers values) (empty_object h).

(** The loop of lines 170-182 over the lines after the first. *)
Definition parse_lines (h : Host) (headers lines : list string)
  : list (Row h) :=
  flat_map
    (fun line =>
       let values := map JSString.trim (JSString.split "," line) in
       if Nat.eqb (List.length values) (List.length headers)
       then [parse_row h headers values]
       else [])
    lines.

(** [handleFileUpload] (lines 144-205) on the file chosen, if any: its
    name and the outcome of reading its text, a failure being an [Error]
    with the message given.  The [finally] block also empties the file
    input, which is not part of the state kept here. *)
Definition handleFileUpload (h : Host)
    (file : option (string * Api.Settled string))
    (c : Uploader (Row h)) : Uploader (Row h) :=
  match file with
  | None => c
  | Some (file_name, read) =>
      if negb (JSString.endsWith file_name ".csv") then
        toast {| title := "Invalid file type";
                 description := "Please upload a CSV file";
                 variant := Some "destructive" |} c
      else
        let c := setIsProcessing true c in
        let failed (message : string) (c : Uploader (Row h)) :=
          toast {| title := "Upload failed";
                   description := message;
                   variant := Some "destructive" |} c in
        let c :=
          match read with
          | Api.Rejected message => failed message c
          | Api.Fulfilled text =>
              let lines :=
                filter
                  (fun line =>
                     negb (String.eqb (JSString.trim line) EmptyString))
                  (JSString.split (ascii_of_nat 10) text) in
              match lines with
              | first :: ((_ :: _) as rest) =>
                  let headers :=
                    map JSString.trim (JSString.split "," first) in
                  let data := parse_lines h headers rest in
                  let c := setUploadedData data c in
                  let c := onDataLoad data c in
                  toast {| title := "Data uploaded successfully";
                           description :=
                             ("Loaded "
                              ++ NumberFormat.decimal
                                   (Z.of_nat (List.length data))
                              ++ " turbine parameter sets")%string;
                           variant := None |} c
              | _ =>
                  failed
                    "File must contain headers and at least one data row"
                    c
              end
          end in
        setIsProcessing false c
  end.

End DataUploader.

(* ================================================================== *)
(** * The layout of an exported number *)
(* ================================================================== *)

(** The numbers [toFixed] prints in fixed notation: the finite ones of
    magnitude below [10^21]. *)
Definition fixed_notation (x : JS.number) : bool :=
  match x with
  | S754_zero _ => true
  | S754_finite _ m e => negb (NumberFormat.at_least_1e21 m e)
  | _ => false
  end.

Definition is_digit (c : ascii) : bool :=
  (48 <=? nat_of_ascii c)%nat && (nat_of_ascii c <=? 57)%nat.

Fixpoint all_digits (s : string) : bool :=
  match s with
  | EmptyString => true
  | String c rest => is_digit c && all_digits rest
  end.

(** An optional minus sign, at least one digit, a point, and exactly
    [f] digits. *)
Definition fixed_decimals (f : nat) (s : string) : Prop :=
  exists sign ip fp : string,
    s = (sign ++ ip ++ "." ++ fp)%string
    /\ (sign = ""%string \/ sign = "-"%string)
    /\ ip <> ""%string
    /\ all_digits ip = true /\ all_digits fp = true
    /\ String.length fp = f.

(** A string with neither a comma nor a line feed. *)
Definition one_field (s : string) : bool :=
  negb (JSString.includes_char "," s)
  && negb (JSString.includes_char (ascii_of_nat 10) s).

(** The string of a number holds neither a comma nor a line feed. *)
Definition plain_numbers (h : DataUploader.Host) : Prop :=
  forall x, one_field (DataUploader.Number_toString h x) = true.

(** A host for the examples: every number is printed as 0.00, no string
    is read as a number, and an object keeps no property. *)
Definition plain_host : DataUploader.Host :=
  {| DataUploader.Row := unit;
     DataUploader.Number_toString := fun _ => "0.00";
     DataUploader.Number := fun _ => JS.NaN;
     DataUploader.empty_object := tt;
     DataUploader.set_property := fun _ _ row => row |}.

(** The uploader as first rendered. *)
Definition fresh_uploader : DataUploader.Uploader unit :=
  {| DataUploader.uploadedData := [];
     DataUploader.isProcessing := false;
     DataUploader.loaded := [];
     DataUploader.toasts := [];
     DataUploader.downloads := [] |}.

(* ================================================================== *)
(** * The specification's reading of the score *)
(* ================================================================== *)

(** The fault score as the specification computes it: the exact sum of
    the weights of the rules that fire, counted in hundredths (0.30, 0.25,
    0.20, 0.15 and 0.10). *)
Definition spec_faultScore (p : TurbineParameters) : Z :=
  ((if rule_vibration p then 30 else 0)
   + (if rule_temperature p then 25 else 0)
   + (if rule_wind p then 20 else 0)
   + (if rule_powerFactor p then 15 else 0)
   + (if rule_oil p then 10 else 0))%Z.

(** The specification's classification of such a sum: a fault above 0.60,
    a warning above 0.30, normal otherwise. *)
Definition spec_classify (hundredths : Z) : Prediction :=
  if (60 <? hundredths)%Z then fault
  else if (30 <? hundredths)%Z then warning
  else normal.

(** The wind rule and the oil rule fire, and no other. *)
Definition only_wind_and_oil (p : TurbineParameters) : bool :=
  negb (rule_vibration p) && negb (rule_temperature p) && rule_wind p
  && negb (rule_powerFactor p) && rule_oil p.


(* ================================================================== *)
(** * What a run of the dashboard records *)
(* ================================================================== *)

(** The records whose predictions have completed since the history was
    last cleared, oldest first. *)
Definition record_event (seen : list TurbineParameters) (ev : Event)
  : list TurbineParameters :=
  match ev with
  | Predicted params _ _ => seen ++ [params]
  | Clear => []
  | _ => seen
  end.

Definition recorded (evs : list Event) : list TurbineParameters :=
  fold_left record_event evs [].

(** A prediction requested for a record, at an instant, on a generator,
    and its completion as an event. *)
Definition Request : Type := TurbineParameters * Z * Random.Rng.

Definition requested (r : Request) : TurbineParameters := fst (fst r).

Definition completion (r : Request) : Event :=
  Predicted (fst (fst r)) (snd (fst r)) (snd r).

(** The line of an entry in the exported file. *)
Definition row_line (entry : RealTimeDashboard.PredictionHistory) : string :=
  String.concat "," (RealTimeDashboard.row entry).

Definition header_line : string :=
  String.concat "," RealTimeDashboard.header.

(** An entry whose vibration reading is NaN. *)
Definition nan_entry : RealTimeDashboard.PredictionHistory :=
  {| RealTimeDashboard.id := "0";
     RealTimeDashboard.timestamp := "2026-01-01T00:00:00.000Z";
     RealTimeDashboard.prediction := normal;
     RealTimeDashboard.probability := 0.05%js;
     RealTimeDashboard.confidence := 0.9%js;
     RealTimeDashboard.parameters := nan_record |}.

(** Sixty requests, one every three seconds, for records told apart by
    their wind speed. *)
Definition sixty_requests : list Request :=
  map (fun n =>
         (with_health 25%js 65%js (JS.of_Z (Z.of_nat n)) 0.95%js 85%js
            defaultParameters,
          (3000 * Z.of_nat n)%Z, rng_half))
      (seq 0 60).

(* ================================================================== *)
(** * Properties of the scoring engine *)
(* ================================================================== *)

Section Comparison.

Lemma SFcompare_antisym (a b : spec_float) :
  SFcompare b a = option_map CompOpp (SFcompare a b).
Proof.
  destruct a as [sa|sa| |sa ma ea], b as [sb|sb| |sb mb eb]; simpl;
    try reflexivity;
    try (destruct sa; reflexivity);
    try (destruct sb; reflexivity);
    try (destruct sa, sb; reflexivity).
  destruct sa, sb; try reflexivity;
    rewrite (Z.compare_antisym ea eb);
    destruct (ea ?= eb)%Z; simpl; try reflexivity;
    rewrite (Pos.compare_cont_antisym ma mb Eq); simpl;
    destruct (Pos.compare_cont Eq ma mb); reflexivity.
Qed.

(** Between two numbers, "not above" is "at most". *)
Lemma not_gt_iff_le (b c : JS.number) :
  JS.is_nan b = false -> JS.is_nan c = false ->
  ((b > c)%js = false <-> (b <= c)%js = true).
Proof.
  unfold JS.gt, JS.le, SFltb, SFleb. intros Hb Hc.
  rewrite (SFcompare_antisym b c).
  destruct (SFcompare b c) as [[ | | ]|] eqn:E; simpl;
    try (split; congruence).
  destruct b, c; simpl in *; try discriminate;
    repeat match goal with s : bool |- _ => destruct s end; discriminate.
Qed.

Lemma gt_not_nan (a b : JS.number) : (b > a)%js = true -> JS.is_nan b = false.
Proof.
  unfold JS.gt, SFltb. destruct a, b; simpl; congruence.
Qed.

End Comparison.

Lemma mockPrediction_label now p g :
  Api.prediction (fst (Api.mockPrediction now p g))
  = Api.classify (Api.faultScore p).
Proof.
  unfold Api.mockPrediction, Api.faultScore.
  destruct (Api.rules p) as [score comps]. reflexivity.
Qed.

Lemma mockPrediction_components now p g :
  Api.affectedComponents (fst (Api.mockPrediction now p g))
  = Api.Set_values [] (snd (Api.rules p)).
Proof.
  unfold Api.mockPrediction.
  destruct (Api.rules p) as [score comps]. reflexivity.
Qed.

Lemma mockPrediction_probability now p g :
  Api.probability (fst (Api.mockPrediction now p g))
  = JS.Math_min
      (Api.faultScore p + Random.draws g (2 + Random.cursor g) * 0.1)%js 1%js.
Proof.
  unfold Api.mockPrediction, Api.faultScore.
  destruct (Api.rules p) as [score comps]. reflexivity.
Qed.

(** C1, as the specification states it, fails: on the scenario record the
    power-factor rule does not fire (0.88 is not below 0.85), so the fault
    score is not 0.45 and the label is not [warning]. *)
Lemma scenario_not_as_specified :
  ~ (Api.faultScore scenario_record = 0.45%js
     /\ Api.prediction (fst (Api.mockPrediction "2026-01-01T00:00:00.000Z"
                                scenario_record rng_half)) = warning
     /\ Api.affectedComponents
          (fst (Api.mockPrediction "2026-01-01T00:00:00.000Z"
                  scenario_record rng_half))
        = ["Gearbox"; "Bearings"; "Power Electronics"]).
Proof.
  intros [H _]. vm_compute in H. discriminate H.
Qed.

(** C1 (amended): for every record with vibrationLevels 75,
    componentTemperatures 85, windSpeed 15, powerFactor 0.88 and a gearbox
    oil condition that is not below 30, only the vibration rule fires: the
    fault score is 0.3, the label is [normal] and the affected components
    are exactly Gearbox, Bearings, in that order. *)
Theorem scenario_scores_normal now g (p : TurbineParameters) :
  vibrationLevels p = 75%js ->
  componentTemperatures p = 85%js ->
  windSpeed p = 15%js ->
  powerFactor p = 0.88%js ->
  (gearboxOilCondition p < 30)%js = false ->
  Api.faultScore p = 0.3%js
  /\ Api.prediction (fst (Api.mockPrediction now p g)) = normal
  /\ Api.affectedComponents (fst (Api.mockPrediction now p g))
     = ["Gearbox"; "Bearings"].
Proof.
  intros Hv Ht Hw Hf Ho.
  assert (Hr : Api.rules p = (0.3%js, ["Gearbox"; "Bearings"])).
  { unfold Api.rules. rewrite Hv, Ht, Hw, Hf, Ho. reflexivity. }
  rewrite mockPrediction_label, mockPrediction_components.
  unfold Api.faultScore. rewrite Hr. repeat split.
Qed.

Lemma scenario_scores_normal_witness :
  Api.faultScore scenario_record = 0.3%js
  /\ Api.prediction (fst (Api.mockPrediction "2026-01-01T00:00:00.000Z"
                            scenario_record rng_half)) = normal
  /\ Api.affectedComponents
       (fst (Api.mockPrediction "2026-01-01T00:00:00.000Z"
               scenario_record rng_half))
     = ["Gearbox"; "Bearings"].
Proof.
  apply (@scenario_scores_normal "2026-01-01T00:00:00.000Z" rng_half
           scenario_record); reflexivity.
Defined.

(** C4: the code departs from the thresholds of the specification on one
    combination of rules.  On a record on which only the wind rule and the
    oil rule fire, the weights add up to 0.30, a sum the specification
    labels [normal], as the code labels the 0.3 of the vibration rule
    alone; but the code adds 0.2 and 0.1 as doubles, obtains a number
    above 0.3, and answers [warning]. *)
Lemma weights_at_the_threshold :
  spec_faultScore wind_and_oil_record = 30%Z
  /\ spec_classify (spec_faultScore wind_and_oil_record) = normal
  /\ Api.faultScore wind_and_oil_record = (0.2 + 0.1)%js
  /\ (Api.faultScore wind_and_oil_record > 0.3)%js = true
  /\ Api.prediction
       (fst (Api.mockPrediction "2026-01-01T00:00:00.000Z"
               wind_and_oil_record rng_half)) = warning.
Proof. vm_compute. repeat split. Qed.

(** X20: the label of every verdict is [fault] exactly when the fault
    score, the double the code accumulates, exceeds 0.6, [warning] exactly
    when it exceeds 0.3 without exceeding 0.6, and [normal] otherwise; the
    doubles 0.6, 0.3 and 0.61 are labelled [warning], [normal] and
    [fault].  This label is the one the specification gives to the exact
    sum of the weights, except when only the wind rule and the oil rule
    fire: the code then answers [warning] where the exact sum, 0.30, is
    labelled [normal]. *)
Theorem label_thresholds now g (p : TurbineParameters) :
  let label := Api.prediction (fst (Api.mockPrediction now p g)) in
  let score := Api.faultScore p in
  (label = fault <-> (score > 0.6)%js = true)
  /\ (label = warning <-> (score > 0.3)%js = true /\ (score <= 0.6)%js = true)
  /\ (label = normal <-> (score > 0.6)%js = false /\ (score > 0.3)%js = false)
  /\ Api.classify 0.6%js = warning
  /\ Api.classify 0.3%js = normal
  /\ Api.classify 0.61%js = fault
  /\ label = (if only_wind_and_oil p then warning
              else spec_classify (spec_faultScore p))
  /\ spec_classify (spec_faultScore p)
     = (if only_wind_and_oil p then normal else label).
Proof.
  cbv zeta. rewrite mockPrediction_label.
  assert (Hspec :
            Api.classify (Api.faultScore p)
            = (if only_wind_and_oil p then warning
               else spec_classify (spec_faultScore p))
            /\ spec_classify (spec_faultScore p)
               = (if only_wind_and_oil p then normal
                  else Api.classify (Api.faultScore p))).
  { unfold Api.faultScore, Api.rules, only_wind_and_oil, spec_faultScore,
      rule_vibration, rule_temperature, rule_wind, rule_powerFactor,
      rule_oil.
    destruct (vibrationLevels p > 70)%js;
      destruct (componentTemperatures p > 90)%js;
      destruct ((windSpeed p > 25)%js || (windSpeed p < 3)%js)%bool;
      destruct (powerFactor p < 0.85)%js;
      destruct (gearboxOilCondition p < 30)%js;
      vm_compute; split; reflexivity. }
  destruct Hspec as [Hcode Hexact].
  set (score := Api.faultScore p) in *.
  assert (Hlabel :
            (Api.classify score = fault <-> (score > 0.6)%js = true)
            /\ (Api.classify score = warning
                <-> (score > 0.3)%js = true /\ (score <= 0.6)%js = true)
            /\ (Api.classify score = normal
                <-> (score > 0.6)%js = false /\ (score > 0.3)%js = false)).
  { unfold Api.classify.
    repeat split;
      destruct (score > 0.6)%js eqn:H6; destruct (score > 0.3)%js eqn:H3;
      try congruence; try tauto;
      try (intros; exfalso; intuition congruence).
    - apply not_gt_iff_le;
        [eapply gt_not_nan; exact H3 | reflexivity | exact H6].
    - intros [_ Hle]. exfalso.
      apply not_gt_iff_le in Hle; [congruence| |reflexivity].
      eapply gt_not_nan; exact H6. }
  destruct Hlabel as (Hf & Hw & Hn).
  split; [exact Hf|]. split; [exact Hw|]. split; [exact Hn|].
  split; [reflexivity|]. split; [reflexivity|]. split; [reflexivity|].
  split; [exact Hcode|exact Hexact].
Qed.

(** C2, as the specification states it, fails: a record with a NaN
    vibration reading is not finite, yet the engine returns a verdict for
    it (label [normal], no component), having treated the reading as
    within its threshold. *)
Lemma nan_record_is_scored :
  finite_record nan_record = false
  /\ Api.prediction (fst (Api.mockPrediction "2026-01-01T00:00:00.000Z"
                            nan_record rng_half)) = normal
  /\ Api.affectedComponents
       (fst (Api.mockPrediction "2026-01-01T00:00:00.000Z"
               nan_record rng_half)) = [].
Proof. repeat split. Qed.

(** C2 (amended): the engine validates nothing.  For every record, finite
    or not, it returns a verdict whose label is the classification of the
    rule sum; a rule whose field is NaN does not fire, so a record whose
    five rule fields are all NaN gets fault score 0, label [normal] and no
    affected component. *)
Theorem no_validation now g (p : TurbineParameters) :
  (exists verdict g',
      Api.mockPrediction now p g = (verdict, g')
      /\ Api.prediction verdict = Api.classify (Api.faultScore p))
  /\ (JS.is_nan (vibrationLevels p) = true ->
      JS.is_nan (componentTemperatures p) = true ->
      JS.is_nan (windSpeed p) = true ->
      JS.is_nan (powerFactor p) = true ->
      JS.is_nan (gearboxOilCondition p) = true ->
      Api.faultScore p = 0%js
      /\ Api.prediction (fst (Api.mockPrediction now p g)) = normal
      /\ Api.affectedComponents (fst (Api.mockPrediction now p g)) = []).
Proof.
  split.
  - destruct (Api.mockPrediction now p g) as [v g'] eqn:E.
    exists v, g'. split; [reflexivity|].
    change v with (fst (v, g')). rewrite <- E. apply mockPrediction_label.
  - intros Hv Ht Hw Hf Ho.
    assert (Hr : Api.rules p = (0%js, [])).
    { unfold Api.rules.
      destruct (vibrationLevels p); try discriminate Hv.
      destruct (componentTemperatures p); try discriminate Ht.
      destruct (windSpeed p); try discriminate Hw.
      destruct (powerFactor p); try discriminate Hf.
      destruct (gearboxOilCondition p); try discriminate Ho.
      reflexivity. }
    rewrite mockPrediction_label, mockPrediction_components.
    unfold Api.faultScore. rewrite Hr. repeat split.
Qed.

Lemma no_validation_witness :
  let p := with_health JS.NaN JS.NaN JS.NaN JS.NaN JS.NaN defaultParameters in
  Api.faultScore p = 0%js
  /\ Api.prediction (fst (Api.mockPrediction "2026-01-01T00:00:00.000Z"
                            p rng_half)) = normal
  /\ Api.affectedComponents
       (fst (Api.mockPrediction "2026-01-01T00:00:00.000Z" p rng_half)) = [].
Proof.
  exact (proj2 (@no_validation "2026-01-01T00:00:00.000Z" rng_half
                  (with_health JS.NaN JS.NaN JS.NaN JS.NaN JS.NaN
                     defaultParameters))
           eq_refl eq_refl eq_refl eq_refl eq_refl).
Defined.

(* ================================================================== *)
(** * Properties of the dispatcher *)
(* ================================================================== *)

Lemma axios_post_fails w url body t g :
  remote_fails (Api.network w url body) = true ->
  exists reason,
    Api.axios_post w url body 10000 t g
    = {| Api.settled := Api.Rejected reason;
         Api.settled_at := (t + failure_delay (Api.network w url body))%Z;
         Api.rng_after := g |}.
Proof.
  unfold Api.axios_post, remote_fails, failure_delay.
  destruct (Api.network w url body) as [latency st d | latency]; intros H.
  - destruct (10000 <? latency)%Z eqn:Hl.
    + exists "timeout exceeded". unfold Api.reject.
      apply Z.ltb_lt in Hl. rewrite Z.min_r by lia. reflexivity.
    + simpl in H. apply negb_true_iff in H. rewrite H.
      exists "Request failed with status code". unfold Api.reject.
      apply Z.ltb_ge in Hl. rewrite Z.min_l by lia. reflexivity.
  - destruct (10000 <? latency)%Z eqn:Hl.
    + exists "timeout exceeded". unfold Api.reject.
      apply Z.ltb_lt in Hl. rewrite Z.min_r by lia. reflexivity.
    + exists "Network Error". unfold Api.reject.
      apply Z.ltb_ge in Hl. rewrite Z.min_l by lia. reflexivity.
Qed.

(** C5: when the remote call fails (time-out, connection failure or
    non-success status), [predict] is fulfilled, never rejected; it settles
    1500 ms after the failure was noticed, with the verdict that
    [mockPrediction] produces from the generator state of the call. *)
Theorem predict_falls_back w (p : TurbineParameters) t g :
  let reply := Api.network w (Api.API_BASE_URL ++ "/predict")%string p in
  remote_fails reply = true ->
  let t' := (t + failure_delay reply + 1500)%Z in
  Api.predict w p t g
  = {| Api.settled :=
         Api.Fulfilled (fst (Api.mockPrediction (Api.toISOString w t') p g));
       Api.settled_at := t';
       Api.rng_after := snd (Api.mockPrediction (Api.toISOString w t') p g) |}.
Proof.
  intros reply Hfail t'.
  destruct (axios_post_fails w _ p t g Hfail) as [reason Hpost].
  unfold Api.predict, Api.try_catch, Api.await. rewrite Hpost.
  cbn [Api.settled Api.settled_at Api.rng_after].
  unfold Api.setTimeout_resolve. subst t' reply.
  destruct (Api.mockPrediction _ p g) as [v g']. reflexivity.
Qed.

Lemma predict_falls_back_witness :
  Api.predict offline_world defaultParameters 0%Z rng_half
  = {| Api.settled :=
         Api.Fulfilled
           (fst (Api.mockPrediction "2026-01-01T00:00:00.000Z"
                   defaultParameters rng_half));
       Api.settled_at := 1520%Z;
       Api.rng_after :=
         snd (Api.mockPrediction "2026-01-01T00:00:00.000Z"
                defaultParameters rng_half) |}.
Proof.
  exact (@predict_falls_back offline_world defaultParameters 0%Z rng_half
           eq_refl).
Defined.

(* ================================================================== *)
(** * Properties of the history store *)
(* ================================================================== *)

Section History.
Import RealTimeDashboard.

Lemma addToHistory_length (e : PredictionHistory) store :
  (List.length (addToHistory e store) <= 50)%nat.
Proof.
  unfold addToHistory. cbn [List.length]. rewrite length_firstn. lia.
Qed.

Lemma firstn_removelast {A} (l : list A) (n : nat) :
  List.length l = S n -> firstn n l = removelast l.
Proof.
  revert n. induction l as [|x l IH]; intros n H; [discriminate|].
  destruct l as [|y l].
  - simpl in H. injection H as <-. reflexivity.
  - destruct n as [|n]; [discriminate|].
    change (firstn (S n) (x :: y :: l)) with (x :: firstn n (y :: l)).
    change (removelast (x :: y :: l)) with (x :: removelast (y :: l)).
    f_equal. apply IH. simpl in *. lia.
Qed.

End History.

Section Reachable.
Import RealTimeDashboard.
Variable w : Api.World.

Lemma effect_cleanup_history before after :
  predictionHistory (effect_cleanup before after) = predictionHistory after.
Proof.
  unfold effect_cleanup.
  destruct (intervalId before) as [old|]; [|reflexivity].
  destruct (intervalId after) as [new|]; [|reflexivity].
  destruct (Pos.eqb old new); reflexivity.
Qed.

Lemma runPrediction_history params c t g :
  predictionHistory (fst (fst (runPrediction w params c t g)))
  = predictionHistory c
  \/ exists e,
      predictionHistory (fst (fst (runPrediction w params c t g)))
      = addToHistory e (predictionHistory c).
Proof.
  unfold runPrediction.
  destruct (Api.settled (Api.predict w params t g)) as [result|reason].
  - right. eexists. reflexivity.
  - left. reflexivity.
Qed.

Lemma step_history_bound c ev :
  (List.length (predictionHistory c) <= 50)%nat ->
  (List.length (predictionHistory (step w c ev)) <= 50)%nat.
Proof.
  intros H. destruct ev; unfold step, handle;
    rewrite effect_cleanup_history.
  - unfold onToggle. destruct (isRealTimeMode c); [|exact H].
    unfold stopRealTimeMode. destruct (intervalId c); exact H.
  - exact H.
  - unfold stopRealTimeMode. destruct (intervalId c); exact H.
  - cbn. lia.
  - exact H.
  - destruct (runPrediction_history params c t g) as [E|[e E]]; rewrite E.
    + exact H.
    + apply addToHistory_length.
Qed.

Lemma run_history_bound (evs : list Event) :
  (List.length (predictionHistory (run w evs)) <= 50)%nat.
Proof.
  unfold run.
  assert (G : forall c, (List.length (predictionHistory c) <= 50)%nat ->
              (List.length (predictionHistory (fold_left (step w) evs c))
               <= 50)%nat).
  { induction evs as [|ev evs IH]; intros c Hc; [exact Hc|].
    cbn [fold_left]. apply IH. apply step_history_bound. exact Hc. }
  apply G. cbn. lia.
Qed.

End Reachable.

(* ================================================================== *)
(** * Properties of the sampling loop *)
(* ================================================================== *)

Section Loop.
Import RealTimeDashboard.
Variable w : Api.World.

Lemma start_consistent c :
  loop_consistent c -> loop_consistent (handle startRealTimeMode c).
Proof.
  destruct c as [mode hist lastp iid ivs nh ts dl].
  unfold loop_consistent, handle, startRealTimeMode, effect_cleanup.
  cbn. destruct iid as [h|].
  - intros (_ & -> & Hlt).
    assert (Hne : Pos.eqb h nh = false) by (apply Pos.eqb_neq; lia).
    rewrite Hne. cbn. rewrite Pos.eqb_sym, Hne, Pos.eqb_refl. cbn.
    repeat split. lia.
  - intros (_ & ->). cbn. repeat split. lia.
Qed.

Lemma stop_consistent c :
  loop_consistent c -> loop_consistent (handle stopRealTimeMode c).
Proof.
  destruct c as [mode hist lastp iid ivs nh ts dl].
  unfold loop_consistent, handle, stopRealTimeMode, effect_cleanup.
  cbn. destruct iid as [h|].
  - intros (_ & -> & Hlt). cbn. rewrite Pos.eqb_refl. cbn. split; reflexivity.
  - intros (_ & ->). cbn. split; reflexivity.
Qed.

Lemma unrelated_consistent (f : Component -> Component) c :
  isRealTimeMode (f c) = isRealTimeMode c ->
  intervalId (f c) = intervalId c ->
  intervals (f c) = intervals c ->
  next_handle (f c) = next_handle c ->
  loop_consistent c -> loop_consistent (handle f c).
Proof.
  intros Hm Hi Hv Hn. unfold handle, effect_cleanup, loop_consistent.
  rewrite Hi. destruct (intervalId c) as [h|].
  - rewrite Pos.eqb_refl, Hi, Hm, Hv, Hn. tauto.
  - rewrite Hi, Hm, Hv. tauto.
Qed.

Lemma step_consistent c ev :
  loop_consistent c -> loop_consistent (step w c ev).
Proof.
  intros H. destruct ev; unfold step.
  - unfold handle, onToggle.
    destruct (isRealTimeMode c) eqn:Hm.
    + apply stop_consistent. exact H.
    + apply start_consistent. exact H.
  - apply start_consistent. exact H.
  - apply stop_consistent. exact H.
  - apply unrelated_consistent; [reflexivity..|exact H].
  - apply unrelated_consistent; [reflexivity..|exact H].
  - apply unrelated_consistent; try exact H;
      unfold runPrediction;
      destruct (Api.settled (Api.predict w params t g)); reflexivity.
Qed.

Lemma run_consistent (evs : list Event) : loop_consistent (run w evs).
Proof.
  unfold run.
  assert (G : forall c, loop_consistent c ->
                        loop_consistent (fold_left (step w) evs c)).
  { induction evs as [|ev evs IH]; intros c Hc; [exact Hc|].
    cbn [fold_left]. apply IH. apply step_consistent. exact Hc. }
  apply G. split; reflexivity.
Qed.

Lemma start_while_running c h :
  loop_consistent c -> intervalId c = Some h ->
  let c' := handle startRealTimeMode c in
  isRealTimeMode c' = true
  /\ intervalId c' = Some (next_handle c)
  /\ intervals c' = [(next_handle c, 3000%Z)]
  /\ next_handle c <> h
  /\ intervals (startRealTimeMode c)
     = [(next_handle c, 3000%Z); (h, 3000%Z)].
Proof.
  destruct c as [mode hist lastp iid ivs nh ts dl].
  unfold loop_consistent, handle, startRealTimeMode, effect_cleanup.
  cbn. intros Hc Hi. rewrite Hi in Hc. destruct Hc as (_ & -> & Hlt).
  rewrite Hi.
  assert (Hne : Pos.eqb h nh = false) by (apply Pos.eqb_neq; lia).
  rewrite Hne. cbn. rewrite Pos.eqb_sym, Hne, Pos.eqb_refl. cbn.
  repeat split. lia.
Qed.

Lemma stop_while_idle c :
  loop_consistent c -> isRealTimeMode c = false ->
  handle stopRealTimeMode c = toast "Real-time mode deactivated" c.
Proof.
  destruct c as [mode hist lastp iid ivs nh ts dl].
  unfold loop_consistent, handle, stopRealTimeMode, effect_cleanup.
  cbn. intros Hc Hm. destruct iid as [h|].
  - destruct Hc as (Hc & _). congruence.
  - subst mode. reflexivity.
Qed.

End Loop.

(** C9, as the specification states it, fails: invoked on a running loop
    (handle 1 scheduled), [startRealTimeMode] schedules a second cycle
    (handle 2) next to the first, and the re-render then cancels the first
    one; the schedule that existed is not preserved. *)
Lemma start_not_idempotent :
  let running := RealTimeDashboard.handle RealTimeDashboard.startRealTimeMode
                   RealTimeDashboard.mount in
  RealTimeDashboard.isRealTimeMode running = true
  /\ RealTimeDashboard.intervals running = [(1%positive, 3000%Z)]
  /\ RealTimeDashboard.intervals (RealTimeDashboard.startRealTimeMode running)
     = [(2%positive, 3000%Z); (1%positive, 3000%Z)]
  /\ RealTimeDashboard.intervals
       (RealTimeDashboard.handle RealTimeDashboard.startRealTimeMode running)
     = [(2%positive, 3000%Z)]
  /\ RealTimeDashboard.handle RealTimeDashboard.startRealTimeMode running
     <> running.
Proof.
  cbv zeta. repeat split. intros H.
  apply (f_equal RealTimeDashboard.intervalId) in H. discriminate H.
Qed.

(** C9 (amended): the loop has only the states Idle (nothing scheduled) and
    Running (exactly the one schedule whose handle the component holds),
    whatever sequence of events reaches it.  The switch and the button
    offer [startRealTimeMode] only while Idle.  The handler itself has no
    guard: started while Running it schedules a new cycle under a fresh
    handle, and the re-render cancels the cycle scheduled before, so one
    cycle remains.  [stopRealTimeMode] while Idle changes nothing but the
    notification it shows. *)
Theorem loop_states (w : Api.World) (c : RealTimeDashboard.Component) :
  loop_consistent c ->
  (forall evs, loop_consistent (run w evs))
  /\ (RealTimeDashboard.isRealTimeMode c = true ->
      RealTimeDashboard.onToggle c = RealTimeDashboard.stopRealTimeMode c)
  /\ (forall h,
        RealTimeDashboard.intervalId c = Some h ->
        let c' := RealTimeDashboard.handle
                    RealTimeDashboard.startRealTimeMode c in
        RealTimeDashboard.isRealTimeMode c' = true
        /\ RealTimeDashboard.intervalId c'
           = Some (RealTimeDashboard.next_handle c)
        /\ RealTimeDashboard.intervals c'
           = [(RealTimeDashboard.next_handle c, 3000%Z)]
        /\ RealTimeDashboard.next_handle c <> h)
  /\ (RealTimeDashboard.isRealTimeMode c = false ->
      RealTimeDashboard.handle RealTimeDashboard.stopRealTimeMode c
      = RealTimeDashboard.toast "Real-time mode deactivated" c).
Proof.
  intros Hc. repeat split.
  - apply run_consistent.
  - intros Hm. unfold RealTimeDashboard.onToggle. rewrite Hm. reflexivity.
  - eapply start_while_running; eassumption.
  - eapply start_while_running; eassumption.
  - eapply start_while_running; eassumption.
  - eapply start_while_running; eassumption.
  - intros Hm. apply stop_while_idle; assumption.
Qed.

Lemma loop_states_witness :
  RealTimeDashboard.handle RealTimeDashboard.stopRealTimeMode
    RealTimeDashboard.mount
  = RealTimeDashboard.toast "Real-time mode deactivated"
      RealTimeDashboard.mount.
Proof.
  exact (proj2 (proj2 (proj2
           (@loop_states offline_world RealTimeDashboard.mount
              (conj eq_refl eq_refl)))) eq_refl).
Defined.

(* ================================================================== *)
(** * Rounding to nearest in binary64

    What the properties below need of the arithmetic: rounding a positive
    exact value never crosses a representable number, so sums, differences
    and products stay on the side of a representable bound on which their
    exact value lies. *)
(* ================================================================== *)

Unset Implicit Arguments.

Section Rounding.

Local Open Scope Z_scope.

Lemma fexp_eq e : fexp JS.prec JS.emax e = Z.max (e - 53) (-1074).
Proof. reflexivity. Qed.

Lemma digits2_bounds (m : positive) :
  2 ^ (Zpos (digits2_pos m) - 1) <= Zpos m < 2 ^ Zpos (digits2_pos m).
Proof.
  induction m as [m IH|m IH|]; cbn [digits2_pos].
  - rewrite Pos2Z.inj_succ.
    replace (Z.succ (Zpos (digits2_pos m)) - 1) with (Zpos (digits2_pos m) - 1 + 1) by lia.
    rewrite Z.pow_succ_r by lia. rewrite Z.pow_add_r by lia.
    change (2 ^ 1) with 2. rewrite Pos2Z.inj_xI. lia.
  - rewrite Pos2Z.inj_succ.
    replace (Z.succ (Zpos (digits2_pos m)) - 1) with (Zpos (digits2_pos m) - 1 + 1) by lia.
    rewrite Z.pow_succ_r by lia. rewrite Z.pow_add_r by lia.
    change (2 ^ 1) with 2. rewrite (Pos2Z.inj_xO m). lia.
  - cbn. lia.
Qed.

Lemma digits2_unique (m : positive) (n : Z) :
  2 ^ (n - 1) <= Zpos m < 2 ^ n -> Zpos (digits2_pos m) = n.
Proof.
  intros [Hlo Hhi]. pose proof (digits2_bounds m) as [Dlo Dhi].
  set (d := Zpos (digits2_pos m)) in *.
  assert (0 < n).
  { destruct (Z.ltb_spec 0 n); [lia|]. exfalso.
    destruct (Z.eq_dec n 0) as [->|Hn]; [cbn in Hhi; lia|].
    rewrite Z.pow_neg_r in Hhi by lia. lia. }
  destruct (Z.lt_trichotomy d n) as [H1|[H1|H1]]; [|exact H1|].
  - assert (2 ^ d <= 2 ^ (n - 1)) by (apply Z.pow_le_mono_r; lia). lia.
  - assert (2 ^ n <= 2 ^ (d - 1)) by (apply Z.pow_le_mono_r; lia). lia.
Qed.

Lemma mod_pow_succ (N j : Z) :
  0 <= j -> N mod 2 ^ (j + 1) = 0 ->
  N mod 2 ^ j = 0 /\ (N / 2 ^ j) mod 2 = 0.
Proof.
  intros Hj H.
  assert (Hp : 0 < 2 ^ j) by (apply Z.pow_pos_nonneg; lia).
  apply Z.mod_divide in H; [|rewrite Z.pow_add_r by lia; lia].
  destruct H as [c Hc]. rewrite Z.pow_add_r in Hc by lia.
  change (2 ^ 1) with 2 in Hc.
  assert (HN : N = (c * 2) * 2 ^ j) by lia.
  split.
  - rewrite HN. apply Z.mod_mul. lia.
  - rewrite HN, Z.div_mul by lia. apply Z.mod_mul. lia.
Qed.

Lemma shr_1_inv (N j : Z) (r : shr_record) :
  0 <= N -> 0 <= j -> shr_inv N j r -> shr_inv N (j + 1) (shr_1 r).
Proof.
  intros HN Hj (Hm & Hex & _). destruct r as [m rb sb].
  cbn [shr_m shr_r shr_s] in *.
  assert (Hp : 0 < 2 ^ j) by (apply Z.pow_pos_nonneg; lia).
  assert (Hq : 0 <= N / 2 ^ j) by (apply Z.div_pos; lia).
  assert (Hd : N / 2 ^ (j + 1) = (N / 2 ^ j) / 2).
  { rewrite Z.pow_add_r by lia. change (2 ^ 1) with 2.
    rewrite Z.div_div by lia. reflexivity. }
  unfold shr_inv. rewrite Hd, <- Hm.
  assert (Hsticky : N mod 2 ^ (j + 1) = 0 -> (rb || sb)%bool = false /\ m mod 2 = 0).
  { intros H. destruct (mod_pow_succ N j Hj H) as [H1 H2].
    destruct (Hex H1) as [-> ->]. rewrite Hm. split; [reflexivity|exact H2]. }
  assert (Hhalf : m mod 2 = 1 -> 2 ^ (j + 1) <= 2 * (N mod 2 ^ (j + 1))).
  { intros Hodd. rewrite Z.pow_add_r by lia. change (2 ^ 1) with 2.
    rewrite (Z.rem_mul_r N (2 ^ j) 2) by lia. rewrite <- Hm, Hodd.
    pose proof (Z.mod_pos_bound N (2 ^ j) Hp). lia. }
  destruct m as [|[p|p|]|p]; cbn [shr_1 shr_m shr_r shr_s]; try lia.
  - split; [reflexivity|]. split; [|discriminate].
    intros H. split; [reflexivity|apply Hsticky, H].
  - split; [rewrite Pos2Z.inj_xI; apply Z.div_unique with 1; lia|].
    assert (Hodd : Zpos p~1 mod 2 = 1).
    { rewrite Pos2Z.inj_xI, Z.add_comm, Z.mul_comm, Z.mod_add by lia.
      reflexivity. }
    split; [|intros _; apply Hhalf, Hodd].
    intros H. apply Hsticky in H. destruct H as [_ H].
    rewrite Hodd in H. discriminate H.
  - split; [rewrite (Pos2Z.inj_xO p); apply Z.div_unique with 0; lia|].
    split; [|discriminate].
    intros H. split; [reflexivity|apply Hsticky, H].
  - split; [reflexivity|].
    split; [|intros _; apply Hhalf; reflexivity].
    intros H. apply Hsticky in H. destruct H as [_ H]. discriminate H.
Qed.

Lemma iter_shr_inv (N : Z) (p : positive) :
  0 <= N ->
  forall r j, 0 <= j -> shr_inv N j r ->
              shr_inv N (j + Zpos p) (iter_pos shr_1 p r).
Proof.
  intros HN. induction p as [p IH|p IH|]; intros r j Hj H; cbn [iter_pos].
  - replace (j + Zpos p~1) with (j + 1 + Zpos p + Zpos p) by lia.
    apply IH; [lia|]. apply IH; [lia|]. apply shr_1_inv; assumption.
  - replace (j + Zpos p~0) with (j + Zpos p + Zpos p) by lia.
    apply IH; [lia|]. apply IH; assumption.
  - apply shr_1_inv; assumption.
Qed.


Lemma canonical_facts (m : positive) (e : Z) :
  canonical m e ->
  -1074 <= e /\ Zpos m < 2 ^ 53 /\ (-1074 < e -> 2 ^ 52 <= Zpos m).
Proof.
  unfold canonical, canonical_mantissa. rewrite fexp_eq. intros H.
  apply Z.eqb_eq in H.
  pose proof (digits2_bounds m) as [Dlo Dhi].
  set (d := Zpos (digits2_pos m)) in *.
  assert (Hd : d <= 53) by lia.
  split; [lia|]. split.
  - assert (2 ^ d <= 2 ^ 53) by (apply Z.pow_le_mono_r; lia). lia.
  - intros He. assert (d = 53) by lia. subst d.
    replace (53 - 1) with 52 in Dlo by lia. rewrite H0 in Dlo. exact Dlo.
Qed.

Lemma pow2_split (a b : Z) : 0 <= a -> 0 <= b -> 2 ^ (a + b) = 2 ^ a * 2 ^ b.
Proof. intros. apply Z.pow_add_r; assumption. Qed.

Lemma canonical_order (m1 : positive) (e1 : Z) (m2 : positive) (e2 : Z) :
  canonical m1 e1 -> canonical m2 e2 ->
  scaled (Zpos m1) e1 <= scaled (Zpos m2) e2 ->
  e1 < e2 \/ (e1 = e2 /\ (m1 <= m2)%positive).
Proof.
  intros C1 C2 H. unfold scaled in H.
  destruct (@canonical_facts m1 e1 C1) as (L1 & U1 & N1).
  destruct (@canonical_facts m2 e2 C2) as (L2 & U2 & N2).
  assert (Ha : 0 < 2 ^ (e2 + 2200)) by (apply Z.pow_pos_nonneg; lia).
  destruct (Z.lt_trichotomy e1 e2) as [Hlt|[Heq|Hgt]].
  - left. exact Hlt.
  - right. split; [exact Heq|]. subst e2.
    apply Z.mul_le_mono_pos_r in H; [|exact Ha]. exact H.
  - exfalso.
    replace (e1 + 2200) with ((e1 - e2 - 1) + 1 + (e2 + 2200)) in H by lia.
    rewrite (pow2_split (e1 - e2 - 1 + 1) (e2 + 2200)) in H by lia.
    rewrite (pow2_split (e1 - e2 - 1) 1) in H by lia.
    change (2 ^ 1) with 2 in H.
    assert (Hc : 0 < 2 ^ (e1 - e2 - 1)) by (apply Z.pow_pos_nonneg; lia).
    specialize (N1 ltac:(lia)).
    change (2 ^ 52) with 4503599627370496 in N1.
    change (2 ^ 53) with 9007199254740992 in U2.
    set (a := 2 ^ (e2 + 2200)) in *. set (c := 2 ^ (e1 - e2 - 1)) in *.
    assert (9007199254740992 * a <= Zpos m1 * (c * 2 * a)).
    { replace (Zpos m1 * (c * 2 * a)) with ((Zpos m1 * 2) * c * a) by ring.
      apply Z.mul_le_mono_nonneg_r; [lia|].
      assert (Zpos m1 * 2 * 1 <= Zpos m1 * 2 * c)
        by (apply Z.mul_le_mono_nonneg_l; lia).
      lia. }
    assert (Zpos m2 * a < 9007199254740992 * a)
      by (apply Z.mul_lt_mono_pos_r; lia).
    lia.
Qed.

Lemma canonical_leb (m1 : positive) (e1 : Z) (m2 : positive) (e2 : Z) :
  canonical m1 e1 -> canonical m2 e2 ->
  scaled (Zpos m1) e1 <= scaled (Zpos m2) e2 ->
  SFleb (S754_finite false m1 e1) (S754_finite false m2 e2) = true.
Proof.
  intros C1 C2 H. unfold SFleb, SFcompare.
  destruct (@canonical_order m1 e1 m2 e2 C1 C2 H) as [Hlt|[-> Hle]].
  - apply Z.compare_lt_iff in Hlt. rewrite Hlt. reflexivity.
  - rewrite Z.compare_refl. fold (Pos.compare m1 m2).
    destruct (Pos.compare m1 m2) eqn:E; try reflexivity.
    apply Pos.compare_gt_iff in E. lia.
Qed.

(** What [round_nearest_even] may return. *)
Lemma round_nearest_even_cases (N k : Z) (r : shr_record) :
  shr_inv N k r ->
  let m1 := round_nearest_even (shr_m r) (loc_of_shr_record r) in
  m1 = N / 2 ^ k
  \/ (m1 = N / 2 ^ k + 1 /\ N mod 2 ^ k <> 0
      /\ 2 ^ k <= 2 * (N mod 2 ^ k)).
Proof.
  intros (Hm & Hx & Hh). destruct r as [m rb sb].
  cbn [shr_m shr_r shr_s] in *. subst m. cbv zeta.
  destruct rb, sb; cbn [loc_of_shr_record round_nearest_even shr_m].
  - right. split; [reflexivity|]. split; [|apply Hh; reflexivity].
    intros H. destruct (Hx H). discriminate.
  - destruct (Z.even (N / 2 ^ k)).
    + left. reflexivity.
    + right. split; [reflexivity|]. split; [|apply Hh; reflexivity].
      intros H. destruct (Hx H). discriminate.
  - left. reflexivity.
  - left. reflexivity.
Qed.

Lemma shr_nonpos (r : shr_record) (e n : Z) : n <= 0 -> shr r e n = (r, e).
Proof. intros H. destruct n; try reflexivity. lia. Qed.

(** A mantissa that already fits is left alone by the second shift. *)
Lemma second_shift_fits (s : bool) (p1 : positive) (E : Z) :
  -1074 <= E -> Zpos p1 < 2 ^ 53 -> (2 ^ 52 <= Zpos p1 \/ E = -1074) ->
  canonical p1 E
  /\ shr_fexp JS.prec JS.emax (Zpos p1) E loc_Exact
     = ({| shr_m := Zpos p1; shr_r := false; shr_s := false |}, E).
Proof.
  intros HE Hlt Hor.
  pose proof (digits2_bounds p1) as [Dlo Dhi].
  set (d := Zpos (digits2_pos p1)) in *.
  assert (Hd : d <= 53).
  { destruct (Z.le_gt_cases d 53) as [|Hgt]; [assumption|].
    assert (2 ^ 53 <= 2 ^ (d - 1)) by (apply Z.pow_le_mono_r; lia). lia. }
  assert (Hd' : 2 ^ 52 <= Zpos p1 -> d = 53).
  { intros H. destruct (Z.le_gt_cases 53 d) as [|Hgt]; [lia|].
    assert (2 ^ d <= 2 ^ 52) by (apply Z.pow_le_mono_r; lia). lia. }
  assert (Hf : fexp JS.prec JS.emax (d + E) = E).
  { rewrite fexp_eq. destruct Hor as [H|H]; [rewrite (Hd' H)|]; lia. }
  split.
  - unfold canonical, canonical_mantissa. fold d. rewrite Hf. apply Z.eqb_refl.
  - unfold shr_fexp. cbn [Zdigits2 shr_record_of_loc]. fold d. rewrite Hf.
    apply shr_nonpos. lia.
Qed.

Lemma round_aux_exact (s : bool) (M : positive) (e : Z) :
  let E := fexp JS.prec JS.emax (Zpos (digits2_pos M) + e) in
  let R := binary_round_aux JS.prec JS.emax s (Zpos M) e loc_Exact in
  e <= E ->
  exists m1 : Z,
    (m1 = Zpos M / 2 ^ (E - e)
     \/ (m1 = Zpos M / 2 ^ (E - e) + 1 /\ Zpos M mod 2 ^ (E - e) <> 0
         /\ 2 ^ (E - e) <= 2 * (Zpos M mod 2 ^ (E - e))))
    /\ ((m1 = 0 /\ R = S754_zero s)
        \/ exists (m2 : positive) (e2 : Z),
             0 < m1 /\ canonical m2 e2 /\ E <= e2
             /\ Zpos m2 * 2 ^ (e2 - E) = m1
             /\ R = if e2 <=? 971 then S754_finite s m2 e2
                    else S754_infinity s).
Proof.
  intros E R HE.
  pose proof (digits2_bounds M) as [Dlo Dhi].
  set (d := Zpos (digits2_pos M)) in *.
  assert (HEdef : E = Z.max (d + e - 53) (-1074)) by (subst E; apply fexp_eq).
  set (k := E - e) in *.
  assert (Hk : 0 <= k) by (subst k; lia).
  assert (Hpk : 0 < 2 ^ k) by (apply Z.pow_pos_nonneg; lia).
  (* the first shift *)
  assert (H1 : exists r1,
             shr {| shr_m := Zpos M; shr_r := false; shr_s := false |} e k
             = (r1, E) /\ shr_inv (Zpos M) k r1).
  { destruct k as [|p|p] eqn:Ek.
    - eexists. split.
      + cbn [shr]. f_equal. lia.
      + split; [|split]; cbn [shr_m shr_r shr_s].
        * change (2 ^ 0) with 1. rewrite Z.div_1_r. reflexivity.
        * intros _. split; reflexivity.
        * discriminate.
    - eexists. split.
      + cbn [shr]. f_equal. lia.
      + change (Zpos p) with (0 + Zpos p). apply iter_shr_inv; [lia|lia|].
        split; [|split]; cbn [shr_m shr_r shr_s].
        * change (2 ^ 0) with 1. rewrite Z.div_1_r. reflexivity.
        * intros _. split; reflexivity.
        * discriminate.
    - lia. }
  destruct H1 as (r1 & Hshr & Hinv).
  pose proof (@round_nearest_even_cases (Zpos M) k r1 Hinv) as Hm1.
  cbv zeta in Hm1.
  assert (HR : R = let '(mrs, e2) :=
                     shr_fexp JS.prec JS.emax
                       (round_nearest_even (shr_m r1) (loc_of_shr_record r1))
                       E loc_Exact in
                   match shr_m mrs with
                   | 0 => S754_zero s
                   | Zpos m =>
                       if e2 <=? 971 then S754_finite s m e2
                       else S754_infinity s
                   | Zneg _ => S754_nan
                   end).
  { subst R. unfold binary_round_aux, shr_fexp at 1.
    cbn [Zdigits2 shr_record_of_loc]. fold d. fold E. fold k. rewrite Hshr.
    reflexivity. }
  clearbody R. subst R.
  remember (round_nearest_even (shr_m r1) (loc_of_shr_record r1)) as m1
    eqn:Hm1def.
  clear Hm1def Hshr Hinv r1.
  set (q := Zpos M / 2 ^ k) in *.
  assert (Hq0 : 0 <= q) by (apply Z.div_pos; lia).
  assert (Hq53 : q < 2 ^ 53).
  { apply Z.div_lt_upper_bound; [lia|].
    assert (2 ^ d <= 2 ^ (k + 53)) by (apply Z.pow_le_mono_r; lia).
    rewrite pow2_split in H by lia. lia. }
  assert (Hnorm : -1074 < E -> 2 ^ 52 <= q).
  { intros HN. apply Z.div_le_lower_bound; [lia|].
    assert (Hkd : d - 1 = k + 52) by lia.
    rewrite Hkd, pow2_split in Dlo by lia. lia. }
  assert (Hsub : E = -1074 -> d + e - 53 < -1074 -> q < 2 ^ 52).
  { intros HS Hlt. apply Z.div_lt_upper_bound; [lia|].
    assert (2 ^ d <= 2 ^ (k + 52)) by (apply Z.pow_le_mono_r; lia).
    rewrite pow2_split in H by lia. lia. }
  exists m1. split; [exact Hm1|].
  assert (Hm1b : 0 <= m1 <= 2 ^ 53) by lia.
  destruct (Z.eq_dec m1 0) as [Hz|Hnz].
  - left. split; [exact Hz|]. rewrite Hz.
    unfold shr_fexp. cbn [Zdigits2 shr_record_of_loc].
    rewrite shr_nonpos by (rewrite fexp_eq; lia). reflexivity.
  - right. destruct m1 as [|p1|p1]; try lia.
    destruct (Z.eq_dec (Zpos p1) (2 ^ 53)) as [Htop|Hntop].
    + (* the mantissa overflowed to 2^53: one more shift *)
      exists (4503599627370496%positive), (E + 1).
      assert (Hp1 : p1 = 9007199254740992%positive)
        by (change (2 ^ 53) with 9007199254740992 in Htop; congruence).
      assert (HEn : -1074 < E \/ E = -1074) by lia.
      assert (HEge : -1074 <= E) by lia.
      split; [lia|]. split.
      { unfold canonical, canonical_mantissa.
        change (Zpos (digits2_pos 4503599627370496)) with 53.
        rewrite fexp_eq. apply Z.eqb_eq. lia. }
      split; [lia|]. split.
      { replace (E + 1 - E) with 1 by lia. rewrite Htop. reflexivity. }
      subst p1. unfold shr_fexp. cbn [Zdigits2 shr_record_of_loc].
      change (Zpos (digits2_pos 9007199254740992)) with 54.
      replace (fexp JS.prec JS.emax (54 + E) - E) with 1
        by (rewrite fexp_eq; lia).
      cbn [shr iter_pos shr_1 shr_m]. reflexivity.
    + exists p1, E.
      assert (Hfit : 2 ^ 52 <= Zpos p1 \/ E = -1074).
      { destruct (Z.eq_dec E (-1074)) as [|HnE]; [right; assumption|].
        left. assert (2 ^ 52 <= q) by (apply Hnorm; lia). lia. }
      destruct (@second_shift_fits s p1 E ltac:(lia) ltac:(lia) Hfit)
        as [Hcan Hsh].
      split; [lia|]. split; [exact Hcan|]. split; [lia|]. split.
      { rewrite Z.sub_diag. change (2 ^ 0) with 1. lia. }
      rewrite Hsh. reflexivity.
Qed.

(** In the normal range the truncated mantissa keeps 53 bits. *)
Lemma quotient_normal (M : positive) (e : Z) :
  let E := fexp JS.prec JS.emax (Zpos (digits2_pos M) + e) in
  e <= E -> -1074 < E -> 2 ^ 52 <= Zpos M / 2 ^ (E - e).
Proof.
  intros E HE HN.
  pose proof (digits2_bounds M) as [Dlo Dhi].
  set (d := Zpos (digits2_pos M)) in *.
  assert (HEdef : E = Z.max (d + e - 53) (-1074)) by (subst E; apply fexp_eq).
  assert (Hpk : 0 < 2 ^ (E - e)) by (apply Z.pow_pos_nonneg; lia).
  apply Z.div_le_lower_bound; [lia|].
  assert (Hkd : d - 1 = (E - e) + 52) by lia.
  rewrite Hkd, pow2_split in Dlo by lia. lia.
Qed.

Lemma scaled_shift (m e E : Z) :
  0 <= e + 2200 -> e <= E -> scaled m E = m * 2 ^ (E - e) * 2 ^ (e + 2200).
Proof.
  intros H0 H1. unfold scaled.
  replace (E + 2200) with ((E - e) + (e + 2200)) by lia.
  rewrite pow2_split by lia. ring.
Qed.

Lemma scaled_canonical_lt (m : positive) (e E : Z) :
  canonical m e -> e < E -> scaled (Zpos m) e < 2 ^ 52 * 2 ^ (E + 2200).
Proof.
  intros C HE. destruct (@canonical_facts m e C) as (L & U & _).
  unfold scaled.
  replace (E + 2200) with ((E - e - 1) + 1 + (e + 2200)) by lia.
  rewrite (pow2_split (E - e - 1 + 1) (e + 2200)) by lia.
  rewrite (pow2_split (E - e - 1) 1) by lia. change (2 ^ 1) with 2.
  assert (Ha : 0 < 2 ^ (e + 2200)) by (apply Z.pow_pos_nonneg; lia).
  assert (Hc : 0 < 2 ^ (E - e - 1)) by (apply Z.pow_pos_nonneg; lia).
  change (2 ^ 53) with 9007199254740992 in U.
  change (2 ^ 52) with 4503599627370496.
  set (a := 2 ^ (e + 2200)) in *. set (c := 2 ^ (E - e - 1)) in *.
  assert (Zpos m * a < 9007199254740992 * a)
    by (apply Z.mul_lt_mono_pos_r; lia).
  assert (9007199254740992 * a * 1 <= 9007199254740992 * a * c)
    by (apply Z.mul_le_mono_nonneg_l; lia).
  lia.
Qed.

(** The rounded value is not below the truncation, nor above the next
    mantissa, and it is exact when the discarded bits are zero. *)
Lemma round_aux_value (s : bool) (M : positive) (e : Z) :
  let E := fexp JS.prec JS.emax (Zpos (digits2_pos M) + e) in
  let R := binary_round_aux JS.prec JS.emax s (Zpos M) e loc_Exact in
  0 <= e + 2200 -> e <= E ->
  exists m1 : Z,
    (m1 = Zpos M / 2 ^ (E - e)
     \/ (m1 = Zpos M / 2 ^ (E - e) + 1 /\ Zpos M mod 2 ^ (E - e) <> 0
         /\ 2 ^ (E - e) <= 2 * (Zpos M mod 2 ^ (E - e))))
    /\ ((m1 = 0 /\ R = S754_zero s)
        \/ exists (m2 : positive) (e2 : Z),
             0 < m1 /\ canonical m2 e2
             /\ scaled (Zpos m2) e2 = scaled m1 E
             /\ R = if e2 <=? 971 then S754_finite s m2 e2
                    else S754_infinity s).
Proof.
  intros E R H0 HE.
  destruct (@round_aux_exact s M e HE) as (m1 & Hm1 & Hres).
  fold E in Hm1, Hres. fold R in Hres.
  exists m1. split; [exact Hm1|].
  destruct Hres as [Hz|(m2 & e2 & Hpos & Hcan & Hle & Hval & HR)].
  - left. exact Hz.
  - right. exists m2, e2. repeat split; try assumption.
    rewrite <- Hval.
    rewrite (@scaled_shift (Zpos m2) E e2) by lia.
    unfold scaled. ring.
Qed.

Lemma scaled_le_cancel (x M e E : Z) :
  0 <= e + 2200 -> e <= E ->
  (scaled x E <= scaled M e <-> x * 2 ^ (E - e) <= M).
Proof.
  intros H0 HE. rewrite (@scaled_shift x e E) by lia. unfold scaled.
  assert (Ha : 0 < 2 ^ (e + 2200)) by (apply Z.pow_pos_nonneg; lia).
  split; intros H.
  - apply Z.mul_le_mono_pos_r in H; assumption.
  - apply Z.mul_le_mono_nonneg_r; lia.
Qed.

Lemma scaled_ge_cancel (x M e E : Z) :
  0 <= e + 2200 -> e <= E ->
  (scaled M e <= scaled x E <-> M <= x * 2 ^ (E - e)).
Proof.
  intros H0 HE. rewrite (@scaled_shift x e E) by lia. unfold scaled.
  assert (Ha : 0 < 2 ^ (e + 2200)) by (apply Z.pow_pos_nonneg; lia).
  split; intros H.
  - apply Z.mul_le_mono_pos_r in H; assumption.
  - apply Z.mul_le_mono_nonneg_r; lia.
Qed.

Lemma scaled_raise (m e E : Z) :
  0 <= e + 2200 -> e <= E -> scaled (m * 2 ^ (E - e)) e = scaled m E.
Proof.
  intros H0 HE. rewrite (@scaled_shift m e E) by lia. reflexivity.
Qed.

Lemma scaled_mono (m1 m2 E : Z) : m1 <= m2 -> scaled m1 E <= scaled m2 E.
Proof.
  intros H. unfold scaled.
  destruct (Z.le_gt_cases 0 (E + 2200)).
  - apply Z.mul_le_mono_nonneg_r; [apply Z.pow_nonneg; lia|exact H].
  - rewrite Z.pow_neg_r by lia. lia.
Qed.

Lemma scaled_pos (m e : Z) : 0 < m -> 0 <= e + 2200 -> 0 < scaled m e.
Proof.
  intros Hm He. unfold scaled.
  apply Z.mul_pos_pos; [exact Hm|apply Z.pow_pos_nonneg; lia].
Qed.

(** A representable number not above the exact value is not above the
    truncated mantissa either. *)
Lemma below_truncation (M : positive) (e : Z) (mf : positive) (ef : Z) :
  let E := fexp JS.prec JS.emax (Zpos (digits2_pos M) + e) in
  0 <= e + 2200 -> e <= E -> canonical mf ef ->
  scaled (Zpos mf) ef <= scaled (Zpos M) e ->
  scaled (Zpos mf) ef <= scaled (Zpos M / 2 ^ (E - e)) E.
Proof.
  intros E H0 HE C H.
  destruct (@canonical_facts mf ef C) as (Lf & Uf & Nf).
  assert (Hpk : 0 < 2 ^ (E - e)) by (apply Z.pow_pos_nonneg; lia).
  assert (Ha : 0 < 2 ^ (e + 2200)) by (apply Z.pow_pos_nonneg; lia).
  destruct (Z.le_gt_cases E ef) as [Hge|Hlt].
  - rewrite <- (@scaled_raise (Zpos mf) E ef) in H by lia.
    rewrite <- (@scaled_raise (Zpos mf) E ef) by lia.
    apply scaled_mono. apply Z.div_le_lower_bound; [lia|].
    apply scaled_le_cancel in H; lia.
  - pose proof (@scaled_canonical_lt mf ef E C Hlt) as Hs.
    assert (HN : 2 ^ 52 <= Zpos M / 2 ^ (E - e))
      by (apply quotient_normal; [exact HE|lia]).
    unfold scaled at 2.
    assert (2 ^ 52 * 2 ^ (E + 2200)
            <= Zpos M / 2 ^ (E - e) * 2 ^ (E + 2200))
      by (apply Z.mul_le_mono_nonneg_r; [apply Z.pow_nonneg; lia|exact HN]).
    lia.
Qed.

Lemma truncation_below (M : positive) (e : Z) :
  let E := fexp JS.prec JS.emax (Zpos (digits2_pos M) + e) in
  0 <= e + 2200 -> e <= E ->
  scaled (Zpos M / 2 ^ (E - e)) E <= scaled (Zpos M) e.
Proof.
  intros E H0 HE.
  assert (Hpk : 0 < 2 ^ (E - e)) by (apply Z.pow_pos_nonneg; lia).
  rewrite (@scaled_shift (Zpos M / 2 ^ (E - e)) e E) by lia.
  unfold scaled. apply Z.mul_le_mono_nonneg_r; [apply Z.pow_nonneg; lia|].
  pose proof (Z.mul_div_le (Zpos M) (2 ^ (E - e)) Hpk). lia.
Qed.

(** A representable number not below an inexact value is not below the
    mantissa after the truncation. *)
Lemma above_successor (M : positive) (e : Z) (mf : positive) (ef : Z) :
  let E := fexp JS.prec JS.emax (Zpos (digits2_pos M) + e) in
  0 <= e + 2200 -> e <= E -> canonical mf ef ->
  Zpos M mod 2 ^ (E - e) <> 0 ->
  scaled (Zpos M) e <= scaled (Zpos mf) ef ->
  scaled (Zpos M / 2 ^ (E - e) + 1) E <= scaled (Zpos mf) ef.
Proof.
  intros E H0 HE C Hr H.
  destruct (@canonical_facts mf ef C) as (Lf & Uf & Nf).
  assert (Hpk : 0 < 2 ^ (E - e)) by (apply Z.pow_pos_nonneg; lia).
  assert (Ha : 0 < 2 ^ (e + 2200)) by (apply Z.pow_pos_nonneg; lia).
  pose proof (Z.div_mod (Zpos M) (2 ^ (E - e)) ltac:(lia)) as Hdm.
  pose proof (Z.mod_pos_bound (Zpos M) (2 ^ (E - e)) Hpk) as Hmb.
  destruct (Z.le_gt_cases E ef) as [Hge|Hlt].
  - rewrite <- (@scaled_raise (Zpos mf) E ef) in H by lia.
    rewrite <- (@scaled_raise (Zpos mf) E ef) by lia.
    apply scaled_mono.
    apply scaled_ge_cancel in H; [|lia|lia].
    set (X := Zpos mf * 2 ^ (ef - E)) in *.
    set (q := Zpos M / 2 ^ (E - e)) in *.
    set (b := 2 ^ (E - e)) in *.
    destruct (Z.le_gt_cases (q + 1) X) as [|Hc]; [assumption|].
    exfalso. assert (X <= q) by lia.
    assert (X * b <= q * b) by (apply Z.mul_le_mono_nonneg_r; lia).
    lia.
  - exfalso.
    pose proof (@scaled_canonical_lt mf ef E C Hlt) as Hs.
    assert (HN : 2 ^ 52 <= Zpos M / 2 ^ (E - e))
      by (apply quotient_normal; [exact HE|lia]).
    pose proof (@truncation_below M e H0 HE) as Ht. fold E in Ht.
    unfold scaled at 1 in Ht.
    assert (2 ^ 52 * 2 ^ (E + 2200)
            <= Zpos M / 2 ^ (E - e) * 2 ^ (E + 2200))
      by (apply Z.mul_le_mono_nonneg_r; [apply Z.pow_nonneg; lia|exact HN]).
    lia.
Qed.

(** Lower sandwich: rounding an exact positive value never goes below a
    representable number that the value is not below. *)
Lemma round_aux_lower (M : positive) (e : Z) (mf : positive) (ef : Z) :
  0 <= e + 2200 ->
  e <= fexp JS.prec JS.emax (Zpos (digits2_pos M) + e) ->
  canonical mf ef ->
  scaled (Zpos mf) ef <= scaled (Zpos M) e ->
  SFleb (S754_finite false mf ef)
        (binary_round_aux JS.prec JS.emax false (Zpos M) e loc_Exact) = true.
Proof.
  intros H0 HE C H.
  destruct (@canonical_facts mf ef C) as (Lf & Uf & Nf).
  pose proof (@below_truncation M e mf ef H0 HE C H) as Hb.
  destruct (@round_aux_value false M e H0 HE) as (m1 & Hm1 & Hres).
  set (E := fexp JS.prec JS.emax (Zpos (digits2_pos M) + e)) in *.
  set (q := Zpos M / 2 ^ (E - e)) in *.
  assert (Hq : scaled q E <= scaled m1 E) by (apply scaled_mono; lia).
  pose proof (@scaled_pos (Zpos mf) ef ltac:(lia) ltac:(lia)) as Hp.
  destruct Hres as [[Hz HR]|(m2 & e2 & Hpos & Hcan & Hval & HR)].
  - exfalso. subst m1. unfold scaled at 2 in Hq. lia.
  - rewrite HR. destruct (e2 <=? 971); [|reflexivity].
    apply canonical_leb; [exact C|exact Hcan|lia].
Qed.

(** Upper sandwich: rounding an exact positive value never goes above a
    representable number that the value is not above. *)
Lemma round_aux_upper (M : positive) (e : Z) (mf : positive) (ef : Z) :
  0 <= e + 2200 ->
  e <= fexp JS.prec JS.emax (Zpos (digits2_pos M) + e) ->
  canonical mf ef -> ef <= 971 ->
  scaled (Zpos M) e <= scaled (Zpos mf) ef ->
  exists R,
    binary_round_aux JS.prec JS.emax false (Zpos M) e loc_Exact = R
    /\ SFleb R (S754_finite false mf ef) = true
    /\ (R = S754_zero false
        \/ exists m2 e2, R = S754_finite false m2 e2 /\ canonical m2 e2
                         /\ e2 <= 971
                         /\ scaled (Zpos m2) e2 <= scaled (Zpos mf) ef).
Proof.
  intros H0 HE C Hbound H.
  destruct (@round_aux_value false M e H0 HE) as (m1 & Hm1 & Hres).
  set (E := fexp JS.prec JS.emax (Zpos (digits2_pos M) + e)) in *.
  set (q := Zpos M / 2 ^ (E - e)) in *.
  assert (Hup : scaled m1 E <= scaled (Zpos mf) ef).
  { destruct Hm1 as [->|(-> & Hr & _)].
    - pose proof (@truncation_below M e H0 HE). fold E in H1. fold q in H1. lia.
    - apply above_successor; assumption. }
  destruct Hres as [[Hz HR]|(m2 & e2 & Hpos & Hcan & Hval & HR)].
  - eexists. split; [exact HR|]. split; [reflexivity|]. left. reflexivity.
  - assert (Hle : scaled (Zpos m2) e2 <= scaled (Zpos mf) ef) by lia.
    assert (He2 : e2 <= 971).
    { destruct (@canonical_order m2 e2 mf ef Hcan C Hle) as [|[? _]]; lia. }
    apply Z.leb_le in He2. rewrite He2 in HR.
    eexists. split; [exact HR|]. split.
    + apply canonical_leb; assumption.
    + right. exists m2, e2. apply Z.leb_le in He2. repeat split; assumption.
Qed.

(** ** From the rounding function to the operations *)

Lemma Pos_iter_xO (m d : positive) :
  Zpos (Pos.iter xO m d) = Zpos m * 2 ^ Zpos d.
Proof.
  induction d as [|d IH] using Pos.peano_ind.
  - cbn [Pos.iter]. rewrite (Pos2Z.inj_xO m). change (2 ^ 1) with 2. ring.
  - rewrite Pos.iter_succ, Pos2Z.inj_succ, Z.pow_succ_r by lia.
    rewrite (Pos2Z.inj_xO (Pos.iter xO m d)), IH. ring.
Qed.

Lemma shl_align_down (m : positive) (e e' : Z) :
  e' <= e ->
  snd (shl_align m e e') = e'
  /\ Zpos (fst (shl_align m e e')) = Zpos m * 2 ^ (e - e').
Proof.
  intros H. unfold shl_align.
  destruct (e' - e) as [|d|d] eqn:Ed; cbn [fst snd].
  - assert (e = e') by lia. subst e'. rewrite Z.sub_diag.
    change (2 ^ 0) with 1. split; lia.
  - lia.
  - split; [reflexivity|]. rewrite Pos_iter_xO. f_equal. f_equal. lia.
Qed.

Lemma shl_align_up (m : positive) (e e' : Z) :
  e <= e' -> shl_align m e e' = (m, e).
Proof.
  intros H. unfold shl_align. destruct (e' - e) eqn:Ed; try reflexivity. lia.
Qed.

Lemma digits2_shift (m m' : positive) (n : Z) :
  0 <= n -> Zpos m' = Zpos m * 2 ^ n ->
  Zpos (digits2_pos m') = Zpos (digits2_pos m) + n.
Proof.
  intros Hn Hm. apply digits2_unique.
  pose proof (digits2_bounds m) as [Dlo Dhi].
  set (d := Zpos (digits2_pos m)) in *.
  assert (Hd : 0 < d) by (subst d; lia).
  assert (Hp : 0 < 2 ^ n) by (apply Z.pow_pos_nonneg; lia).
  replace (d + n - 1) with ((d - 1) + n) by lia.
  rewrite !pow2_split by lia. rewrite Hm. split.
  - apply Z.mul_le_mono_nonneg_r; lia.
  - apply Z.mul_lt_mono_pos_r; lia.
Qed.

(** [binary_round] is the rounding function applied to an aligned
    mantissa of the same value. *)
Lemma binary_round_aligned (s : bool) (m : positive) (e : Z) :
  0 <= e + 2200 ->
  exists (mz : positive) (ez : Z),
    binary_round JS.prec JS.emax s m e
    = binary_round_aux JS.prec JS.emax s (Zpos mz) ez loc_Exact
    /\ 0 <= ez + 2200
    /\ ez <= fexp JS.prec JS.emax (Zpos (digits2_pos mz) + ez)
    /\ scaled (Zpos mz) ez = scaled (Zpos m) e.
Proof.
  intros H0. unfold binary_round.
  set (E := fexp JS.prec JS.emax (Zpos (digits2_pos m) + e)).
  assert (HE : -1074 <= E) by (subst E; rewrite fexp_eq; lia).
  destruct (Z.le_gt_cases E e) as [Hle|Hgt].
  - destruct (@shl_align_down m e E Hle) as [Hs Hf].
    destruct (shl_align m e E) as [mz ez]. cbn [fst snd] in Hs, Hf. subst ez.
    exists mz, E. split; [reflexivity|]. split; [lia|].
    assert (Hd : Zpos (digits2_pos mz) = Zpos (digits2_pos m) + (e - E))
      by (apply digits2_shift; [lia|exact Hf]).
    split.
    + rewrite Hd. replace (Zpos (digits2_pos m) + (e - E) + E)
        with (Zpos (digits2_pos m) + e) by lia. fold E. lia.
    + rewrite Hf. apply scaled_raise; lia.
  - rewrite shl_align_up by lia.
    exists m, e. split; [reflexivity|]. split; [lia|]. split; [fold E; lia|].
    reflexivity.
Qed.

Lemma binary_round_lower (m : positive) (e : Z) (mf : positive) (ef : Z) :
  0 <= e + 2200 -> canonical mf ef ->
  scaled (Zpos mf) ef <= scaled (Zpos m) e ->
  SFleb (S754_finite false mf ef) (binary_round JS.prec JS.emax false m e)
  = true.
Proof.
  intros H0 C H.
  destruct (@binary_round_aligned false m e H0) as (mz & ez & -> & Hz & HE & Hv).
  apply round_aux_lower; try assumption. lia.
Qed.

Lemma binary_round_upper (m : positive) (e : Z) (mf : positive) (ef : Z) :
  0 <= e + 2200 -> canonical mf ef -> ef <= 971 ->
  scaled (Zpos m) e <= scaled (Zpos mf) ef ->
  exists R,
    binary_round JS.prec JS.emax false m e = R
    /\ SFleb R (S754_finite false mf ef) = true
    /\ (R = S754_zero false
        \/ exists m2 e2, R = S754_finite false m2 e2 /\ canonical m2 e2
                         /\ e2 <= 971
                         /\ scaled (Zpos m2) e2 <= scaled (Zpos mf) ef).
Proof.
  intros H0 C Hb H.
  destruct (@binary_round_aligned false m e H0) as (mz & ez & -> & Hz & HE & Hv).
  apply round_aux_upper; try assumption. lia.
Qed.

(** Rounding treats the sign as a label. *)
Lemma binary_round_aux_opp (m e : Z) :
  binary_round_aux JS.prec JS.emax true m e loc_Exact
  = SFopp (binary_round_aux JS.prec JS.emax false m e loc_Exact).
Proof.
  unfold binary_round_aux.
  destruct (shr_fexp JS.prec JS.emax m e loc_Exact) as [r1 e1].
  destruct (shr_fexp JS.prec JS.emax _ e1 loc_Exact) as [r2 e2].
  destruct (shr_m r2); try reflexivity.
  destruct (e2 <=? JS.emax - JS.prec); reflexivity.
Qed.

Lemma binary_round_opp (m : positive) (e : Z) :
  binary_round JS.prec JS.emax true m e
  = SFopp (binary_round JS.prec JS.emax false m e).
Proof.
  unfold binary_round.
  destruct (shl_align m e _) as [mz ez]. apply binary_round_aux_opp.
Qed.

(** ** Non-negative doubles and their values *)

Lemma value_finite_pos (m : positive) (e : Z) :
  canonical m e -> 0 < value (S754_finite false m e).
Proof.
  intros C. destruct (@canonical_facts m e C) as (L & _ & _).
  cbn [value]. apply scaled_pos; lia.
Qed.

Lemma value_nonneg (x : spec_float) : nonneg_number x -> 0 <= value x.
Proof.
  intros [->|(m & e & -> & C & _)]; [cbn; lia|].
  pose proof (@value_finite_pos m e C). lia.
Qed.

Lemma leb_of_value (x y : spec_float) :
  nonneg_number x -> nonneg_number y -> value x <= value y ->
  SFleb x y = true.
Proof.
  intros [->|(mx & ex & -> & Cx & Bx)] [->|(my & ey & -> & Cy & By)] H;
    try reflexivity.
  - pose proof (@value_finite_pos mx ex Cx). cbn [value] in *. lia.
  - apply canonical_leb; assumption.
Qed.

Lemma SFleb_refl_finite (s : bool) (m : positive) (e : Z) :
  SFleb (S754_finite s m e) (S754_finite s m e) = true.
Proof.
  unfold SFleb, SFcompare. rewrite Z.compare_refl.
  fold (Pos.compare m m). rewrite Pos.compare_refl. destruct s; reflexivity.
Qed.

Lemma value_of_ltb (x y : spec_float) :
  nonneg_number x -> nonneg_number y -> SFltb x y = true ->
  value x < value y.
Proof.
  intros [->|(mx & ex & -> & Cx & Bx)] [->|(my & ey & -> & Cy & By)] H;
    try discriminate H.
  - apply value_finite_pos. exact Cy.
  - destruct (Z.lt_ge_cases (value (S754_finite false mx ex))
                (value (S754_finite false my ey))) as [|Hge]; [assumption|].
    exfalso.
    pose proof (@canonical_leb my ey mx ex Cy Cx Hge) as Hle.
    unfold SFltb in H. unfold SFleb in Hle.
    cbn [SFcompare] in H, Hle.
    rewrite (Z.compare_antisym ex ey) in Hle.
    change (Pos.compare_cont Eq my mx)
      with (Pos.compare_cont (CompOpp Eq) my mx) in Hle.
    rewrite <- (Pos.compare_cont_antisym mx my Eq) in Hle.
    destruct (ex ?= ey); cbn in *; try discriminate.
    destruct (Pos.compare_cont Eq mx my); cbn in *; discriminate.
Qed.

(** ** Addition, subtraction and multiplication *)

Lemma aligned_value (m : positive) (e ez : Z) :
  0 <= ez + 2200 -> ez <= e ->
  scaled (Zpos (fst (shl_align m e ez))) ez = scaled (Zpos m) e.
Proof.
  intros H0 H. destruct (@shl_align_down m e ez H) as [_ ->].
  apply scaled_raise; lia.
Qed.

Lemma scaled_add (a b e : Z) : scaled (a + b) e = scaled a e + scaled b e.
Proof. unfold scaled. ring. Qed.

Lemma scaled_sub (a b e : Z) : scaled (a - b) e = scaled a e - scaled b e.
Proof. unfold scaled. ring. Qed.

Lemma add_lower (x y : spec_float) :
  nonneg_number x -> nonneg_number y ->
  SFleb x (SFadd JS.prec JS.emax x y) = true.
Proof.
  intros [->|(mx & ex & -> & Cx & Bx)] [->|(my & ey & -> & Cy & By)];
    try reflexivity.
  - apply SFleb_refl_finite.
  - destruct (@canonical_facts mx ex Cx) as (Lx & _ & _).
    destruct (@canonical_facts my ey Cy) as (Ly & _ & _).
    cbn [SFadd cond_Zopp Z.add binary_normalize].
    apply binary_round_lower; [lia|exact Cx|].
    rewrite Pos2Z.inj_add, scaled_add, !aligned_value by lia.
    pose proof (@value_finite_pos my ey Cy) as Hp. cbn [value] in Hp. lia.
Qed.

Lemma add_upper (x y : spec_float) (mb : positive) (eb : Z) :
  nonneg_number x -> nonneg_number y ->
  canonical mb eb -> eb <= 971 ->
  value x + value y <= scaled (Zpos mb) eb ->
  nonneg_number (SFadd JS.prec JS.emax x y)
  /\ value (SFadd JS.prec JS.emax x y) <= scaled (Zpos mb) eb.
Proof.
  intros Hx Hy Cb Bb H.
  pose proof (@value_nonneg x Hx) as Vx. pose proof (@value_nonneg y Hy) as Vy.
  destruct Hx as [->|(mx & ex & -> & Cx & Bx)];
    destruct Hy as [->|(my & ey & -> & Cy & By)].
  - split; [left; reflexivity|]. cbn [SFadd value] in *. lia.
  - split; [right; exists my, ey; auto|]. cbn [SFadd value] in *. lia.
  - split; [right; exists mx, ex; auto|]. cbn [SFadd value] in *. lia.
  - destruct (@canonical_facts mx ex Cx) as (Lx & _ & _).
    destruct (@canonical_facts my ey Cy) as (Ly & _ & _).
    cbn [SFadd cond_Zopp Z.add binary_normalize].
    destruct (@binary_round_upper
                (fst (shl_align mx ex (Z.min ex ey))
                 + fst (shl_align my ey (Z.min ex ey)))%positive
                (Z.min ex ey) mb eb ltac:(lia) Cb Bb) as (R & -> & _ & HR).
    { rewrite Pos2Z.inj_add, scaled_add, !aligned_value by lia.
      cbn [value] in H. exact H. }
    destruct HR as [->|(m2 & e2 & -> & C2 & B2 & V2)].
    + split; [left; reflexivity|]. cbn [value].
      pose proof (@value_finite_pos mb eb Cb) as Hp. cbn [value] in Hp. lia.
    + split; [right; exists m2, e2; auto|]. exact V2.
Qed.

Lemma digits2_at_least_53 (m : positive) :
  2 ^ 52 <= Zpos m -> 53 <= Zpos (digits2_pos m).
Proof.
  intros H. pose proof (digits2_bounds m) as [_ Dhi].
  destruct (Z.le_gt_cases 53 (Zpos (digits2_pos m))) as [|Hlt]; [assumption|].
  assert (2 ^ Zpos (digits2_pos m) <= 2 ^ 52)
    by (apply Z.pow_le_mono_r; lia).
  lia.
Qed.

(** The product of a positive double below one and a normal constant
    rounds to a non-negative double that is not above the constant. *)
Lemma mul_mantissa_upper (mr : positive) (er : Z) (mc : positive) (ec : Z) :
  canonical mr er -> scaled (Zpos mr) er < 2 ^ 2200 ->
  canonical mc ec -> ec <= 971 -> 2 ^ 52 <= Zpos mc ->
  exists R,
    binary_round_aux JS.prec JS.emax false (Zpos (mr * mc)) (er + ec)
      loc_Exact = R
    /\ (R = S754_zero false
        \/ exists m2 e2, R = S754_finite false m2 e2 /\ canonical m2 e2
                         /\ e2 <= 971
                         /\ scaled (Zpos m2) e2 <= scaled (Zpos mc) ec).
Proof.
  intros Cr Hlt Cc Bc Nc.
  destruct (@canonical_facts mc ec Cc) as (Lc & _ & _).
  destruct (@canonical_facts mr er Cr) as (Lr & _ & _).
  unfold scaled in Hlt.
  assert (Her : er < 0).
  { destruct (Z.lt_ge_cases er 0) as [|Hge]; [assumption|]. exfalso.
    assert (2 ^ 2200 <= 2 ^ (er + 2200)) by (apply Z.pow_le_mono_r; lia).
    assert (1 * 2 ^ (er + 2200) <= Zpos mr * 2 ^ (er + 2200))
      by (apply Z.mul_le_mono_nonneg_r; [apply Z.pow_nonneg|]; lia).
    lia. }
  assert (Ha : 0 < 2 ^ (er + 2200)) by (apply Z.pow_pos_nonneg; lia).
  assert (Hmr : Zpos mr < 2 ^ (- er)).
  { replace 2200 with ((- er) + (er + 2200)) in Hlt at 2 by lia.
    rewrite (pow2_split (- er) (er + 2200)) in Hlt by lia.
    apply Z.mul_lt_mono_pos_r in Hlt; assumption. }
  destruct (@round_aux_upper (mr * mc)%positive (er + ec) mc ec)
    as (R & HR & _ & HR'); try assumption; try lia.
  - pose proof (@digits2_at_least_53 (mr * mc)%positive) as Hd.
    rewrite fexp_eq.
    assert (2 ^ 52 <= Zpos (mr * mc)).
    { rewrite Pos2Z.inj_mul.
      assert (1 * Zpos mc <= Zpos mr * Zpos mc)
        by (apply Z.mul_le_mono_nonneg_r; lia).
      lia. }
    specialize (Hd H). lia.
  - unfold scaled. rewrite Pos2Z.inj_mul.
    replace (ec + 2200) with ((- er) + (er + ec + 2200)) by lia.
    rewrite (pow2_split (- er) (er + ec + 2200)) by lia.
    assert (Hb : 0 <= 2 ^ (er + ec + 2200)) by (apply Z.pow_nonneg; lia).
    set (A := 2 ^ (er + ec + 2200)) in *. set (P := 2 ^ (- er)) in *.
    assert (Zpos mr * Zpos mc <= P * Zpos mc)
      by (apply Z.mul_le_mono_nonneg_r; lia).
    assert (Zpos mr * Zpos mc * A <= P * Zpos mc * A)
      by (apply Z.mul_le_mono_nonneg_r; lia).
    lia.
  - exists R. split; [exact HR|exact HR'].
Qed.

(** A draw below one, multiplied by a normal constant, stays a
    non-negative double that is not above the constant. *)
Lemma mul_below_one (r : spec_float) (mc : positive) (ec : Z) :
  nonneg_number r -> value r < 2 ^ 2200 ->
  canonical mc ec -> ec <= 971 -> 2 ^ 52 <= Zpos mc ->
  nonneg_number (SFmul JS.prec JS.emax r (S754_finite false mc ec))
  /\ value (SFmul JS.prec JS.emax r (S754_finite false mc ec))
     <= scaled (Zpos mc) ec.
Proof.
  intros Hr Hlt Cc Bc Nc.
  pose proof (@value_finite_pos mc ec Cc) as Hpc. cbn [value] in Hpc.
  destruct Hr as [->|(mr & er & -> & Cr & Br)].
  - cbn [SFmul xorb value]. split; [left; reflexivity|lia].
  - cbn [SFmul xorb]. cbn [value] in Hlt.
    destruct (@mul_mantissa_upper mr er mc ec Cr Hlt Cc Bc Nc)
      as (R & -> & HR).
    destruct HR as [->|(m2 & e2 & -> & C2 & B2 & V2)].
    + split; [left; reflexivity|]. cbn [value]. lia.
    + split; [right; exists m2, e2; auto|]. exact V2.
Qed.

Lemma neg_leb (m1 : positive) (e1 : Z) (m2 : positive) (e2 : Z) :
  canonical m1 e1 -> canonical m2 e2 ->
  scaled (Zpos m1) e1 <= scaled (Zpos m2) e2 ->
  SFleb (S754_finite true m2 e2) (S754_finite true m1 e1) = true.
Proof.
  intros C1 C2 H. unfold SFleb, SFcompare.
  destruct (@canonical_order m1 e1 m2 e2 C1 C2 H) as [Hlt|[-> Hle]].
  - apply Z.compare_gt_iff in Hlt. rewrite Hlt. reflexivity.
  - rewrite Z.compare_refl. fold (Pos.compare m2 m1).
    destruct (Pos.compare m2 m1) eqn:E; try reflexivity.
    exfalso. rewrite Pos.compare_lt_iff in E. lia.
Qed.

(** Subtracting [h] from a non-negative double that is at most [h + b],
    where [h <= b], lands in [[-b, b]] and is finite. *)
Lemma sub_range (x : spec_float) (mh : positive) (eh : Z)
    (mb : positive) (eb : Z) :
  nonneg_number x ->
  canonical mh eh -> eh <= 971 -> canonical mb eb -> eb <= 971 ->
  scaled (Zpos mh) eh <= scaled (Zpos mb) eb ->
  value x <= scaled (Zpos mh) eh + scaled (Zpos mb) eb ->
  let y := SFsub JS.prec JS.emax x (S754_finite false mh eh) in
  SFleb (S754_finite true mb eb) y = true
  /\ SFleb y (S754_finite false mb eb) = true.
Proof.
  intros Hx Ch Bh Cb Bb Hhb Hxb y. subst y.
  pose proof (@value_nonneg x Hx) as Vx.
  destruct (@canonical_facts mh eh Ch) as (Lh & _ & _).
  destruct Hx as [->|(mx & ex & -> & Cx & Bx)].
  - cbn [SFsub negb]. split; [|reflexivity]. apply neg_leb; assumption.
  - destruct (@canonical_facts mx ex Cx) as (Lx & _ & _).
    cbn [SFsub cond_Zopp]. cbn [value] in Hxb, Vx.
    set (ez := Z.min ex eh).
    pose proof (@aligned_value mx ex ez ltac:(lia) ltac:(lia)) as Ax.
    pose proof (@aligned_value mh eh ez ltac:(lia) ltac:(lia)) as Ah.
    fold ez.
    set (a := fst (shl_align mx ex ez)) in *.
    set (b := fst (shl_align mh eh ez)) in *.
    destruct (Zpos a - Zpos b) as [|p|p] eqn:ED; cbn [binary_normalize].
    + split; reflexivity.
    + destruct (@binary_round_upper p ez mb eb ltac:(lia) Cb Bb)
        as (R & -> & HR1 & HR2).
      { rewrite <- ED, scaled_sub, Ax, Ah. lia. }
      split; [|exact HR1].
      destruct HR2 as [->|(m2 & e2 & -> & _)]; reflexivity.
    + rewrite binary_round_opp.
      destruct (@binary_round_upper p ez mb eb ltac:(lia) Cb Bb)
        as (R & -> & HR1 & HR2).
      { replace (Zpos p) with (Zpos b - Zpos a) by lia.
        rewrite scaled_sub, Ax, Ah. lia. }
      destruct HR2 as [->|(m2 & e2 & -> & C2 & B2 & V2)].
      * split; reflexivity.
      * cbn [SFopp negb]. split; [|reflexivity].
        apply neg_leb; assumption.
Qed.

(** The same difference, by its shape: a zero, or a canonical mantissa
    not above [b] under either sign. *)
Lemma sub_shape (x : spec_float) (mh : positive) (eh : Z)
    (mb : positive) (eb : Z) :
  nonneg_number x ->
  canonical mh eh -> eh <= 971 -> canonical mb eb -> eb <= 971 ->
  scaled (Zpos mh) eh <= scaled (Zpos mb) eb ->
  value x <= scaled (Zpos mh) eh + scaled (Zpos mb) eb ->
  let y := SFsub JS.prec JS.emax x (S754_finite false mh eh) in
  (exists s, y = S754_zero s)
  \/ exists s m e, y = S754_finite s m e /\ canonical m e /\ e <= 971
                   /\ scaled (Zpos m) e <= scaled (Zpos mb) eb.
Proof.
  intros Hx Ch Bh Cb Bb Hhb Hxb y. subst y.
  pose proof (@value_nonneg x Hx) as Vx.
  destruct (@canonical_facts mh eh Ch) as (Lh & _ & _).
  destruct Hx as [->|(mx & ex & -> & Cx & Bx)].
  - cbn [SFsub negb]. right. exists true, mh, eh. auto.
  - destruct (@canonical_facts mx ex Cx) as (Lx & _ & _).
    cbn [SFsub cond_Zopp]. cbn [value] in Hxb, Vx.
    set (ez := Z.min ex eh).
    pose proof (@aligned_value mx ex ez ltac:(lia) ltac:(lia)) as Ax.
    pose proof (@aligned_value mh eh ez ltac:(lia) ltac:(lia)) as Ah.
    fold ez.
    set (a := fst (shl_align mx ex ez)) in *.
    set (b := fst (shl_align mh eh ez)) in *.
    destruct (Zpos a - Zpos b) as [|p|p] eqn:ED; cbn [binary_normalize].
    + left. exists false. reflexivity.
    + destruct (@binary_round_upper p ez mb eb ltac:(lia) Cb Bb)
        as (R & -> & _ & HR2).
      { rewrite <- ED, scaled_sub, Ax, Ah. lia. }
      destruct HR2 as [->|(m2 & e2 & -> & C2 & B2 & V2)].
      * left. exists false. reflexivity.
      * right. exists false, m2, e2. auto.
    + rewrite binary_round_opp.
      destruct (@binary_round_upper p ez mb eb ltac:(lia) Cb Bb)
        as (R & -> & _ & HR2).
      { replace (Zpos p) with (Zpos b - Zpos a) by lia.
        rewrite scaled_sub, Ax, Ah. lia. }
      destruct HR2 as [->|(m2 & e2 & -> & C2 & B2 & V2)].
      * left. exists true. reflexivity.
      * right. exists true, m2, e2. cbn [SFopp negb]. auto.
Qed.

(** ** The operations make no NaN out of numbers *)

Lemma shr_1_nonneg (r : shr_record) : 0 <= shr_m r -> 0 <= shr_m (shr_1 r).
Proof.
  destruct r as [m rb sb]. cbn [shr_m].
  destruct m as [|[p|p|]|p]; cbn [shr_1 shr_m]; lia.
Qed.

Lemma iter_shr_nonneg (p : positive) :
  forall r, 0 <= shr_m r -> 0 <= shr_m (iter_pos shr_1 p r).
Proof.
  induction p as [p IH|p IH|]; intros r H; cbn [iter_pos].
  - apply IH, IH, shr_1_nonneg, H.
  - apply IH, IH, H.
  - apply shr_1_nonneg, H.
Qed.

Lemma shr_nonneg (r : shr_record) (e n : Z) :
  0 <= shr_m r -> 0 <= shr_m (fst (shr r e n)).
Proof.
  intros H. destruct n as [|p|p]; cbn [shr fst]; try exact H.
  apply iter_shr_nonneg, H.
Qed.

Lemma round_nearest_even_nonneg (m : Z) (l : location) :
  0 <= m -> 0 <= round_nearest_even m l.
Proof.
  intros H. destruct l as [|[| |]]; cbn [round_nearest_even]; try lia.
  destruct (Z.even m); lia.
Qed.

Lemma binary_round_aux_not_nan (s : bool) (M : positive) (e : Z) :
  JS.is_nan (binary_round_aux JS.prec JS.emax s (Zpos M) e loc_Exact)
  = false.
Proof.
  unfold binary_round_aux, shr_fexp. cbn [shr_record_of_loc].
  pose proof (shr_nonneg
                {| shr_m := Zpos M; shr_r := false; shr_s := false |} e
                (fexp JS.prec JS.emax (Zdigits2 (Zpos M) + e) - e)
                ltac:(cbn; lia)) as H1.
  destruct (shr _ e _) as [r1 e1]. cbn [fst] in H1.
  pose proof (round_nearest_even_nonneg (shr_m r1) (loc_of_shr_record r1) H1)
    as H2.
  set (m1 := round_nearest_even (shr_m r1) (loc_of_shr_record r1)) in *.
  pose proof (shr_nonneg {| shr_m := m1; shr_r := false; shr_s := false |}
                e1 (fexp JS.prec JS.emax (Zdigits2 m1 + e1) - e1) H2) as H3.
  destruct (shr _ e1 _) as [r2 e2]. cbn [fst] in H3.
  destruct (shr_m r2) as [|m|m]; try reflexivity; [|lia].
  destruct (e2 <=? JS.emax - JS.prec); reflexivity.
Qed.

Lemma binary_normalize_not_nan (z e : Z) (sz : bool) :
  JS.is_nan (binary_normalize JS.prec JS.emax z e sz) = false.
Proof.
  destruct z as [|m|m]; cbn [binary_normalize]; [reflexivity| |];
    unfold binary_round; destruct (shl_align m e _) as [mz ez];
    apply binary_round_aux_not_nan.
Qed.

Lemma add_not_nan (x y : spec_float) :
  JS.is_nan x = false -> JS.is_finite y = true ->
  JS.is_nan (SFadd JS.prec JS.emax x y) = false.
Proof.
  intros Hx Hy.
  destruct x as [sx|sx| |sx mx ex]; try discriminate Hx;
    destruct y as [sy|sy| |sy my ey]; try discriminate Hy;
    try reflexivity.
  - cbn [SFadd]. destruct sx, sy; reflexivity.
  - cbn [SFadd]. apply binary_normalize_not_nan.
Qed.

Lemma mul_not_nan (x : spec_float) (sc : bool) (mc : positive) (ec : Z) :
  JS.is_nan x = false ->
  JS.is_nan (SFmul JS.prec JS.emax x (S754_finite sc mc ec)) = false.
Proof.
  intros Hx. destruct x as [sx|sx| |sx mx ex]; try discriminate Hx;
    try reflexivity.
  cbn [SFmul]. apply binary_round_aux_not_nan.
Qed.

End Rounding.

(* ================================================================== *)
(** * Further properties of the scoring engine *)
(* ================================================================== *)

Section ScoreBounds.

Local Open Scope Z_scope.

Lemma nonneg_numberb_spec (x : spec_float) :
  nonneg_numberb x = true -> nonneg_number x.
Proof.
  destruct x as [[|]| | |[|] m e]; try discriminate; intros H.
  - left. reflexivity.
  - right. exists m, e. cbn [nonneg_numberb] in H. unfold bounded in H.
    apply andb_true_iff in H. destruct H as [Hc He].
    split; [reflexivity|]. split; [exact Hc|].
    apply Z.leb_le in He. exact He.
Qed.

Lemma value_one : value 1%js = 2 ^ 2200.
Proof. vm_compute. reflexivity. Qed.

(** A draw of [Math.random()] is a non-negative double below one. *)
Lemma unit_interval_facts (r : JS.number) :
  Random.unit_interval r = true -> nonneg_number r /\ value r < 2 ^ 2200.
Proof.
  intros H. destruct r as [[|]| | |[|] m e]; try discriminate H.
  - split; [left; reflexivity|].
    cbn [value]. apply Z.pow_pos_nonneg; lia.
  - cbn [Random.unit_interval] in H. apply andb_true_iff in H.
    destruct H as [Hb Hlt].
    assert (Hn : nonneg_number (S754_finite false m e))
      by (apply nonneg_numberb_spec; exact Hb).
    split; [exact Hn|]. rewrite <- value_one.
    apply value_of_ltb; [exact Hn| |exact Hlt].
    apply nonneg_numberb_spec. reflexivity.
Qed.

(** The rule sum is one of finitely many doubles, all between 0 and 1. *)
Lemma faultScore_range (p : TurbineParameters) :
  nonneg_number (Api.faultScore p)
  /\ (Api.faultScore p <= 1)%js = true.
Proof.
  unfold Api.faultScore, Api.rules.
  destruct (vibrationLevels p > 70)%js;
    destruct (componentTemperatures p > 90)%js;
    destruct ((windSpeed p > 25)%js || (windSpeed p < 3)%js)%bool;
    destruct (powerFactor p < 0.85)%js;
    destruct (gearboxOilCondition p < 30)%js;
    (split; [apply nonneg_numberb_spec|]; vm_compute; reflexivity).
Qed.

End ScoreBounds.

Section Verdict.

Variable now : string.
Variable p : TurbineParameters.
Variable g : Random.Rng.

Let verdict := fst (Api.mockPrediction now p g).

Lemma mockPrediction_shapValues :
  Api.shapValues verdict
  = [ ("vibrationLevels",
       if rule_vibration p then 0.15%js else (-0.05)%js);
      ("componentTemperatures",
       if rule_temperature p then 0.12%js else (-0.03)%js);
      ("windSpeed", if rule_wind p then 0.1%js else (-0.02)%js);
      ("powerFactor", if rule_powerFactor p then 0.08%js else (-0.01)%js);
      ("gearboxOilCondition", if rule_oil p then 0.06%js else (-0.01)%js);
      ("generatorPower",
       (Random.draws g (Random.cursor g) * 0.04 - 0.02)%js);
      ("frequency",
       (Random.draws g (S (Random.cursor g)) * 0.02 - 0.01)%js) ].
Proof.
  unfold verdict, Api.mockPrediction.
  destruct (Api.rules p) as [score comps]. reflexivity.
Qed.

Lemma mockPrediction_confidence :
  Api.confidence verdict
  = (0.85 + Random.draws g (3 + Random.cursor g) * 0.1)%js.
Proof.
  unfold verdict, Api.mockPrediction.
  destruct (Api.rules p) as [score comps]. reflexivity.
Qed.

End Verdict.

Lemma Math_min_one (fs a : JS.number) :
  (fs <= a)%js = true -> (fs <= 1)%js = true ->
  (fs <= JS.Math_min a 1)%js = true /\ (JS.Math_min a 1 <= 1)%js = true.
Proof.
  intros Ha H1.
  assert (Hnan : JS.is_nan a = false).
  { destruct a; try reflexivity. destruct fs; discriminate Ha. }
  assert (Hmin : JS.Math_min a 1%js = if (1 < a)%js then 1%js else a).
  { destruct a as [[|]|[|]| |[|] m e]; reflexivity. }
  rewrite Hmin. destruct (1 < a)%js eqn:E.
  - split; [exact H1|reflexivity].
  - split; [exact Ha|].
    apply (proj1 (@not_gt_iff_le a 1%js Hnan eq_refl)). exact E.
Qed.

Lemma probability_range (now : string) (p : TurbineParameters)
    (g : Random.Rng) :
  Random.well_formed g ->
  let verdict := fst (Api.mockPrediction now p g) in
  (Api.faultScore p <= Api.probability verdict)%js = true
  /\ (Api.probability verdict <= 1)%js = true.
Proof.
  intros Hg verdict. subst verdict.
  rewrite (@mockPrediction_probability now p g).
  destruct (faultScore_range p) as [Hfs H1].
  destruct (unit_interval_facts _ (Hg (2 + Random.cursor g)%nat))
    as [Hr Hlt].
  destruct (mul_below_one (Random.draws g (2 + Random.cursor g))
              7205759403792794 (-56) Hr Hlt eq_refl ltac:(lia) ltac:(lia))
    as [Hn _].
  apply Math_min_one; [|exact H1].
  apply add_lower; assumption.
Qed.

(** X1: with draws in [0, 1), the probability of every verdict lies
    between the rule sum and 1. *)
Theorem probability_bounds (now : string) (p : TurbineParameters)
    (g : Random.Rng) :
  Random.well_formed g ->
  let verdict := fst (Api.mockPrediction now p g) in
  (Api.faultScore p <= Api.probability verdict)%js = true
  /\ (Api.probability verdict <= 1)%js = true.
Proof. exact (probability_range now p g). Qed.

Lemma probability_bounds_witness :
  (Api.faultScore scenario_record
   <= Api.probability
        (fst (Api.mockPrediction "2026-01-01T00:00:00.000Z"
                scenario_record rng_half)))%js = true
  /\ (Api.probability
        (fst (Api.mockPrediction "2026-01-01T00:00:00.000Z"
                scenario_record rng_half)) <= 1)%js = true.
Proof.
  apply (probability_bounds "2026-01-01T00:00:00.000Z" scenario_record
           rng_half).
  intros i. reflexivity.
Defined.




(** A draw scaled by [c] and shifted down by [h = c / 2] stays within
    [[-h, h]]. *)
Lemma centred_noise (r : JS.number) (mh : positive) (eh : Z) :
  Random.unit_interval r = true ->
  canonical mh eh -> (eh + 1 <= 971)%Z -> (2 ^ 52 <= Zpos mh)%Z ->
  let y := (r * S754_finite false mh (eh + 1) - S754_finite false mh eh)%js in
  (S754_finite true mh eh <= y)%js = true
  /\ (y <= S754_finite false mh eh)%js = true.
Proof.
  intros Hr Ch Bh Nh y. subst y.
  destruct (unit_interval_facts r Hr) as [Hn Hlt].
  destruct (canonical_facts mh eh Ch) as (Lh & Uh & _).
  assert (Cc : canonical mh (eh + 1)).
  { unfold canonical, canonical_mantissa in *. apply Z.eqb_eq in Ch.
    apply Z.eqb_eq. rewrite fexp_eq in *.
    pose proof (digits2_at_least_53 mh Nh). lia. }
  destruct (mul_below_one r mh (eh + 1) Hn Hlt Cc Bh Nh) as [Hx Hv].
  apply sub_range; try assumption; try lia.
  assert (Hdouble : scaled (Zpos mh) (eh + 1)
                    = (scaled (Zpos mh) eh + scaled (Zpos mh) eh)%Z).
  { unfold scaled. replace (eh + 1 + 2200)%Z with (eh + 2200 + 1)%Z by lia.
    rewrite Z.pow_add_r by lia. change (2 ^ 1)%Z with 2%Z. ring. }
  rewrite <- Hdouble. exact Hv.
Qed.

(** X3: with draws in [0, 1), the attribution of [generatorPower] lies in
    [-0.02, 0.02] and that of [frequency] in [-0.01, 0.01]. *)
Theorem noise_attributions (now : string) (p : TurbineParameters)
    (g : Random.Rng) :
  Random.well_formed g ->
  let shap := Api.shapValues (fst (Api.mockPrediction now p g)) in
  (exists x, Api.get "generatorPower" shap = Some x
             /\ ((-0.02) <= x)%js = true /\ (x <= 0.02)%js = true)
  /\ (exists y, Api.get "frequency" shap = Some y
                /\ ((-0.01) <= y)%js = true /\ (y <= 0.01)%js = true).
Proof.
  intros Hg shap. subst shap. rewrite mockPrediction_shapValues.
  split; eexists; (split; [reflexivity|]).
  - apply (centred_noise _ 5764607523034235 (-58) (Hg _)).
    + reflexivity.
    + lia.
    + lia.
  - apply (centred_noise _ 5764607523034235 (-59) (Hg _)).
    + reflexivity.
    + lia.
    + lia.
Qed.

Lemma noise_attributions_witness :
  let shap := Api.shapValues
                (fst (Api.mockPrediction "2026-01-01T00:00:00.000Z"
                        defaultParameters rng_half)) in
  (exists x, Api.get "generatorPower" shap = Some x
             /\ ((-0.02) <= x)%js = true /\ (x <= 0.02)%js = true)
  /\ (exists y, Api.get "frequency" shap = Some y
                /\ ((-0.01) <= y)%js = true /\ (y <= 0.01)%js = true).
Proof.
  apply (noise_attributions "2026-01-01T00:00:00.000Z" defaultParameters
           rng_half).
  intros i. reflexivity.
Defined.

Section Confidence.

Local Open Scope Z_scope.

(** Rounding does not go above a representable number of the same
    exponent when the exact value exceeds it by less than half a unit. *)
Lemma round_aux_upper_near (M : positive) (e : Z) (mf : positive) :
  let E := fexp JS.prec JS.emax (Zpos (digits2_pos M) + e) in
  0 <= e + 2200 -> e <= E -> canonical mf E -> E <= 971 ->
  2 * Zpos M < (2 * Zpos mf + 1) * 2 ^ (E - e) ->
  SFleb (binary_round_aux JS.prec JS.emax false (Zpos M) e loc_Exact)
        (S754_finite false mf E) = true.
Proof.
  intros E H0 HE C Hb Hnear.
  destruct (round_aux_value false M e H0 HE) as (m1 & Hm1 & Hres).
  fold E in Hm1, Hres.
  assert (Hpk : 0 < 2 ^ (E - e)) by (apply Z.pow_pos_nonneg; lia).
  pose proof (Z.div_mod (Zpos M) (2 ^ (E - e)) ltac:(lia)) as Hdm.
  pose proof (Z.mod_pos_bound (Zpos M) (2 ^ (E - e)) Hpk) as Hmb.
  set (q := Zpos M / 2 ^ (E - e)) in *.
  set (b := 2 ^ (E - e)) in *.
  set (rem := Zpos M mod b) in *.
  assert (Hle : m1 <= Zpos mf).
  { destruct Hm1 as [->|(-> & _ & Hhalf)].
    - destruct (Z.le_gt_cases q (Zpos mf)) as [|Hgt]; [assumption|]. exfalso.
      assert ((Zpos mf + 1) * b <= q * b)
        by (apply Z.mul_le_mono_nonneg_r; lia).
      lia.
    - destruct (Z.le_gt_cases (q + 1) (Zpos mf)) as [|Hgt]; [assumption|].
      exfalso.
      assert (Zpos mf * b <= q * b) by (apply Z.mul_le_mono_nonneg_r; lia).
      lia. }
  pose proof (scaled_mono m1 (Zpos mf) E Hle) as Hs.
  destruct Hres as [[Hz HR]|(m2 & e2 & Hpos & Hcan & Hval & HR)].
  - rewrite HR. reflexivity.
  - assert (Hle2 : scaled (Zpos m2) e2 <= scaled (Zpos mf) E) by lia.
    assert (He2 : e2 <= 971).
    { destruct (canonical_order m2 e2 mf E Hcan C Hle2) as [|[? _]]; lia. }
    apply Z.leb_le in He2. rewrite He2 in HR. rewrite HR.
    apply canonical_leb; assumption.
Qed.

(** [0.85 + n] is at most 0.95 for every non-negative [n] up to 0.1: the
    exact sum of the doubles 0.85 and 0.1 exceeds the double 0.95 by a
    quarter of a unit in the last place, which rounding discards. *)
Lemma confidence_upper (n : spec_float) :
  nonneg_number n -> value n <= value 0.1%js ->
  (0.85 + n <= 0.95)%js = true.
Proof.
  intros Hn Hv. destruct Hn as [->|(mn & en & -> & Cn & Bn)];
    [reflexivity|].
  destruct (canonical_facts mn en Cn) as (Ln & Un & _).
  cbn [value] in Hv.
  assert (He : en <= -56).
  { destruct (canonical_order mn en 7205759403792794 (-56) Cn eq_refl Hv)
      as [|[? _]]; lia. }
  unfold JS.le, JS.add.
  cbn [SFadd cond_Zopp Z.add binary_normalize].
  replace (Z.min (-53) en) with en by lia.
  destruct (shl_align_down 7656119366529843 (-53) en ltac:(lia))
    as [_ Hx].
  destruct (shl_align_down mn en en ltac:(lia)) as [_ Hy].
  rewrite Z.sub_diag in Hy. change (2 ^ 0) with 1 in Hy.
  rewrite Z.mul_1_r in Hy.
  set (a := fst (shl_align 7656119366529843 (-53) en)) in *.
  set (c := fst (shl_align mn en en)) in *.
  (* the mantissa of the term [n], in units of 2^(-56 - en) *)
  set (P' := 2 ^ (- 56 - en)) in *.
  assert (HP' : 0 < P') by (apply Z.pow_pos_nonneg; lia).
  assert (HP : 2 ^ (-53 - en) = 8 * P').
  { subst P'. replace (-53 - en) with (3 + (-56 - en)) by lia.
    rewrite Z.pow_add_r by lia. reflexivity. }
  assert (Hmn : Zpos mn <= 7205759403792794 * P').
  { apply (scaled_ge_cancel 7205759403792794 (Zpos mn) en (-56)); [lia|lia|].
    exact Hv. }
  rewrite HP in Hx.
  assert (Hsum : Zpos (a + c) = 61248954932238744 * P' + Zpos mn)
    by (rewrite Pos2Z.inj_add, Hx, Hy; lia).
  (* the sum lies in [1/2, 1): its digits end at exponent 0 *)
  assert (Hpow : 2 ^ (- en) = 72057594037927936 * P').
  { subst P'. replace (- en) with (56 + (-56 - en)) by lia.
    rewrite Z.pow_add_r by lia. reflexivity. }
  assert (Hd : Zpos (digits2_pos (a + c)) = - en).
  { apply digits2_unique.
    replace (- en - 1) with (55 + (-56 - en)) by lia.
    rewrite Z.pow_add_r by lia. fold P'. rewrite Hpow, Hsum.
    change (2 ^ 55) with 36028797018963968. lia. }
  assert (HE : fexp JS.prec JS.emax (Zpos (digits2_pos (a + c)) + en) = -53)
    by (rewrite Hd, fexp_eq; lia).
  unfold binary_round. rewrite HE, shl_align_up by lia.
  pose proof (round_aux_upper_near (a + c) en 8556839292003942) as Hnear.
  cbv zeta in Hnear. rewrite HE in Hnear.
  apply Hnear; try lia. reflexivity.
Qed.

End Confidence.

Lemma confidence_range (now : string) (p : TurbineParameters)
    (g : Random.Rng) :
  Random.well_formed g ->
  let verdict := fst (Api.mockPrediction now p g) in
  (0.85 <= Api.confidence verdict)%js = true
  /\ (Api.confidence verdict <= 0.95)%js = true.
Proof.
  intros Hg verdict. subst verdict. rewrite mockPrediction_confidence.
  destruct (unit_interval_facts _ (Hg (3 + Random.cursor g)%nat))
    as [Hr Hlt].
  destruct (mul_below_one (Random.draws g (3 + Random.cursor g))
              7205759403792794 (-56) Hr Hlt eq_refl ltac:(lia) ltac:(lia))
    as [Hn Hv].
  split.
  - apply add_lower; [|exact Hn]. apply nonneg_numberb_spec. reflexivity.
  - apply confidence_upper; assumption.
Qed.

(** X2: with draws in [0, 1), the confidence of every verdict lies
    between 0.85 and 0.95. *)
Theorem confidence_bounds (now : string) (p : TurbineParameters)
    (g : Random.Rng) :
  Random.well_formed g ->
  let verdict := fst (Api.mockPrediction now p g) in
  (0.85 <= Api.confidence verdict)%js = true
  /\ (Api.confidence verdict <= 0.95)%js = true.
Proof. exact (confidence_range now p g). Qed.

Lemma confidence_bounds_witness :
  let verdict := fst (Api.mockPrediction "2026-01-01T00:00:00.000Z"
                        defaultParameters rng_half) in
  (0.85 <= Api.confidence verdict)%js = true
  /\ (Api.confidence verdict <= 0.95)%js = true.
Proof.
  apply (confidence_bounds "2026-01-01T00:00:00.000Z" defaultParameters
           rng_half).
  intros i. reflexivity.
Defined.

(** X4: the sign of a rule's attribution tells whether the rule fired:
    positive when it did, negative when it did not. *)
Theorem rule_attribution_signs (now : string) (p : TurbineParameters)
    (g : Random.Rng) :
  let shap := Api.shapValues (fst (Api.mockPrediction now p g)) in
  let tells (key : string) (fired : bool) :=
    exists x, Api.get key shap = Some x
              /\ (x > 0)%js = fired /\ (x < 0)%js = negb fired in
  tells "vibrationLevels" (rule_vibration p)
  /\ tells "componentTemperatures" (rule_temperature p)
  /\ tells "windSpeed" (rule_wind p)
  /\ tells "powerFactor" (rule_powerFactor p)
  /\ tells "gearboxOilCondition" (rule_oil p).
Proof.
  cbv zeta. rewrite mockPrediction_shapValues.
  repeat split;
    (eexists; split; [reflexivity|]);
    match goal with
    | |- context [if ?b then _ else _] => destruct b
    end; split; reflexivity.
Qed.

Section SetValues.

Lemma existsb_eqb_In (x : string) (xs : list string) :
  existsb (String.eqb x) xs = true <-> In x xs.
Proof.
  rewrite existsb_exists. split.
  - intros (y & Hy & E). apply String.eqb_eq in E. subst y. exact Hy.
  - intros H. exists x. split; [exact H|apply String.eqb_refl].
Qed.

Lemma Set_values_In (xs seen : list string) (x : string) :
  In x (Api.Set_values seen xs) <-> In x xs /\ ~ In x seen.
Proof.
  revert seen. induction xs as [|y ys IH]; intros seen; cbn [Api.Set_values].
  - cbn. tauto.
  - destruct (existsb (String.eqb y) seen) eqn:E.
    + apply existsb_eqb_In in E. rewrite IH. cbn [In].
      split; [tauto|]. intros [[->|H] Hn]; tauto.
    + assert (Hy : ~ In y seen).
      { intros H. apply existsb_eqb_In in H. congruence. }
      cbn [In]. rewrite IH. cbn [In].
      destruct (String.string_dec y x) as [->|Hne]; tauto.
Qed.

Lemma Set_values_NoDup (xs seen : list string) :
  NoDup (Api.Set_values seen xs).
Proof.
  revert seen. induction xs as [|y ys IH]; intros seen; cbn [Api.Set_values].
  - constructor.
  - destruct (existsb (String.eqb y) seen); [apply IH|].
    constructor; [|apply IH].
    rewrite Set_values_In. cbn [In]. tauto.
Qed.

End SetValues.

(** X5: the affected components of a verdict are listed without
    repetition, and a component is listed exactly when a rule naming it
    fired. *)
Theorem affected_components (now : string) (p : TurbineParameters)
    (g : Random.Rng) :
  let listed := Api.affectedComponents (fst (Api.mockPrediction now p g)) in
  NoDup listed
  /\ includes "Gearbox" listed = rule_vibration p || rule_oil p
  /\ includes "Bearings" listed = rule_vibration p
  /\ includes "Generator" listed = rule_temperature p
  /\ includes "Power Electronics" listed
     = rule_temperature p || rule_powerFactor p
  /\ includes "Rotor" listed = rule_wind p
  /\ includes "Control System" listed = rule_wind p
  /\ (List.length listed <= 6)%nat.
Proof.
  cbv zeta. rewrite (@mockPrediction_components now p g).
  split; [apply Set_values_NoDup|].
  unfold Api.rules, rule_vibration, rule_temperature, rule_wind,
    rule_powerFactor, rule_oil.
  destruct (vibrationLevels p > 70)%js;
    destruct (componentTemperatures p > 90)%js;
    destruct ((windSpeed p > 25)%js || (windSpeed p < 3)%js)%bool;
    destruct (powerFactor p < 0.85)%js;
    destruct (gearboxOilCondition p < 30)%js;
    vm_compute; repeat split; lia.
Qed.

(** X6: the label against the number of rules that fire: a single rule
    never leaves [normal], a [fault] needs at least three rules, and four
    rules always make a [fault]. *)
Theorem label_by_fired_rules (now : string) (p : TurbineParameters)
    (g : Random.Rng) :
  let label := Api.prediction (fst (Api.mockPrediction now p g)) in
  ((fired_count p <= 1)%nat -> label = normal)
  /\ (label = warning -> (2 <= fired_count p)%nat)
  /\ (label = fault -> (3 <= fired_count p)%nat)
  /\ ((4 <= fired_count p)%nat -> label = fault).
Proof.
  cbv zeta. rewrite (@mockPrediction_label now p g).
  unfold Api.faultScore, Api.rules, fired_count, rule_vibration,
    rule_temperature, rule_wind, rule_powerFactor, rule_oil.
  destruct (vibrationLevels p > 70)%js;
    destruct (componentTemperatures p > 90)%js;
    destruct ((windSpeed p > 25)%js || (windSpeed p < 3)%js)%bool;
    destruct (powerFactor p < 0.85)%js;
    destruct (gearboxOilCondition p < 30)%js;
    vm_compute; repeat split; intros; try reflexivity; try lia;
    try discriminate.
Qed.



(** X7: two ways of reaching a rule sum of 0.3 are labelled differently.
    The vibration rule alone gives the double 0.3, which is not above the
    threshold: [normal].  The wind rule and the oil rule together give the
    double [0.2 + 0.1], which is above it: [warning]. *)
Theorem equal_weights_different_labels (now : string)
    (p q : TurbineParameters) (g : Random.Rng) :
  rule_vibration p = true -> rule_temperature p = false ->
  rule_wind p = false -> rule_powerFactor p = false -> rule_oil p = false ->
  rule_vibration q = false -> rule_temperature q = false ->
  rule_wind q = true -> rule_powerFactor q = false -> rule_oil q = true ->
  Api.faultScore p = 0.3%js
  /\ Api.prediction (fst (Api.mockPrediction now p g)) = normal
  /\ Api.faultScore q = (0.2 + 0.1)%js
  /\ (Api.faultScore q > 0.3)%js = true
  /\ Api.prediction (fst (Api.mockPrediction now q g)) = warning.
Proof.
  unfold rule_vibration, rule_temperature, rule_wind, rule_powerFactor,
    rule_oil.
  intros P1 P2 P3 P4 P5 Q1 Q2 Q3 Q4 Q5.
  rewrite (@mockPrediction_label now p g), (@mockPrediction_label now q g).
  unfold Api.faultScore, Api.rules.
  rewrite P1, P2, P3, P4, P5, Q1, Q2, Q3, Q4, Q5.
  repeat split.
Qed.

Lemma equal_weights_different_labels_witness :
  Api.faultScore scenario_record = 0.3%js
  /\ Api.prediction (fst (Api.mockPrediction "2026-01-01T00:00:00.000Z"
                            scenario_record rng_half)) = normal
  /\ Api.faultScore wind_and_oil_record = (0.2 + 0.1)%js
  /\ (Api.faultScore wind_and_oil_record > 0.3)%js = true
  /\ Api.prediction (fst (Api.mockPrediction "2026-01-01T00:00:00.000Z"
                            wind_and_oil_record rng_half)) = warning.
Proof.
  apply (equal_weights_different_labels "2026-01-01T00:00:00.000Z"
           scenario_record wind_and_oil_record rng_half); reflexivity.
Defined.

(* ================================================================== *)
(** * Further properties of the dispatcher *)
(* ================================================================== *)

Lemma predict_remote_outcome (w : Api.World) (p : TurbineParameters)
    (t : Z) (g : Random.Rng) (latency st : Z)
    (remote : Api.PredictionResponse) :
  Api.network w (Api.API_BASE_URL ++ "/predict")%string p
  = Api.HttpReply latency st remote ->
  (latency <= 10000)%Z -> (200 <= st < 300)%Z ->
  Api.predict w p t g
  = {| Api.settled := Api.Fulfilled remote;
       Api.settled_at := (t + latency)%Z;
       Api.rng_after := g |}.
Proof.
  intros Hnet Hl Hs.
  unfold Api.predict, Api.try_catch, Api.await, Api.axios_post.
  rewrite Hnet.
  assert (H1 : (10000 <? latency)%Z = false) by (apply Z.ltb_ge; lia).
  assert (H2 : ((200 <=? st)%Z && (st <? 300)%Z)%bool = true).
  { apply andb_true_iff. split; [apply Z.leb_le|apply Z.ltb_lt]; lia. }
  rewrite H1, H2. reflexivity.
Qed.

Lemma predict_local_outcome (w : Api.World) (p : TurbineParameters)
    (t : Z) (g : Random.Rng) :
  remote_fails (Api.network w (Api.API_BASE_URL ++ "/predict")%string p)
  = true ->
  Api.settled (Api.predict w p t g)
  = Api.Fulfilled
      (fst (Api.mockPrediction
              (Api.toISOString w (Api.settled_at (Api.predict w p t g)))
              p g))
  /\ Api.settled_at (Api.predict w p t g)
     = (t + failure_delay
              (Api.network w (Api.API_BASE_URL ++ "/predict")%string p)
        + 1500)%Z.
Proof.
  intros Hfail.
  destruct (@axios_post_fails w _ p t g Hfail) as [reason Hpost].
  unfold Api.predict, Api.try_catch, Api.await. rewrite Hpost.
  cbn [Api.settled Api.settled_at Api.rng_after].
  unfold Api.setTimeout_resolve.
  destruct (Api.mockPrediction _ p g) as [v g'] eqn:E.
  cbn [Api.settled Api.settled_at]. rewrite E. split; reflexivity.
Qed.

(** X8: a reply with a 2xx status within 10000 ms is passed on
    untouched: [predict] is fulfilled with the remote verdict at the
    instant the reply arrives, and no random number is drawn. *)
Theorem predict_passes_remote_verdict (w : Api.World)
    (p : TurbineParameters) (t : Z) (g : Random.Rng)
    (latency st : Z) (remote : Api.PredictionResponse) :
  Api.network w (Api.API_BASE_URL ++ "/predict")%string p
  = Api.HttpReply latency st remote ->
  (latency <= 10000)%Z -> (200 <= st < 300)%Z ->
  Api.settled (Api.predict w p t g) = Api.Fulfilled remote
  /\ Api.settled_at (Api.predict w p t g) = (t + latency)%Z
  /\ Api.rng_after (Api.predict w p t g) = g.
Proof.
  intros Hnet Hl Hs.
  rewrite (predict_remote_outcome w p t g latency st remote Hnet Hl Hs).
  repeat split.
Qed.

Lemma predict_passes_remote_verdict_witness :
  Api.settled (Api.predict online_world defaultParameters 0%Z rng_half)
  = Api.Fulfilled remote_verdict
  /\ Api.settled_at (Api.predict online_world defaultParameters 0%Z rng_half)
     = 120%Z
  /\ Api.rng_after (Api.predict online_world defaultParameters 0%Z rng_half)
     = rng_half.
Proof.
  apply (predict_passes_remote_verdict online_world defaultParameters 0%Z
           rng_half 120%Z 200%Z remote_verdict); [reflexivity|lia|lia].
Defined.

(** X9: [predict] is never rejected, whatever the backend does, and it
    settles at most 11500 ms after it was called. *)
Theorem predict_always_settles (w : Api.World) (p : TurbineParameters)
    (t : Z) (g : Random.Rng) :
  (exists verdict,
      Api.settled (Api.predict w p t g) = Api.Fulfilled verdict)
  /\ (Api.settled_at (Api.predict w p t g) <= t + 11500)%Z.
Proof.
  destruct (remote_fails
              (Api.network w (Api.API_BASE_URL ++ "/predict")%string p))
    eqn:Hf.
  - destruct (predict_local_outcome w p t g Hf) as [Hs Ht].
    split; [eexists; exact Hs|]. rewrite Ht. unfold failure_delay.
    destruct (Api.network w _ p); lia.
  - unfold remote_fails in Hf.
    destruct (Api.network w (Api.API_BASE_URL ++ "/predict")%string p)
      as [latency st d|latency] eqn:Hnet; [|discriminate Hf].
    apply orb_false_iff in Hf. destruct Hf as [Hl Hs].
    apply Z.ltb_ge in Hl. apply negb_false_iff in Hs.
    apply andb_true_iff in Hs. destruct Hs as [Hs1 Hs2].
    apply Z.leb_le in Hs1. apply Z.ltb_lt in Hs2.
    rewrite (predict_remote_outcome w p t g latency st d Hnet Hl
               (conj Hs1 Hs2)).
    cbn [Api.settled Api.settled_at]. split; [eexists; reflexivity|lia].
Qed.

(** X10: [getExplanation] has no local fallback.  It is fulfilled with
    the payload of a 2xx reply that arrives within 15000 ms, and in every
    other case it is rejected with "Explanation service unavailable"; it
    draws no random number. *)
Theorem getExplanation_outcome (L : Type) (b : Api.Backend L)
    (p : TurbineParameters) (t : Z) (g : Random.Rng) :
  Api.settled (Api.getExplanation b p t g)
  = match Api.explain b p with
    | Api.Replied latency st d =>
        if ((latency <=? 15000) && (200 <=? st) && (st <? 300))%Z
        then Api.Fulfilled d
        else Api.Rejected "Explanation service unavailable"
    | Api.Unreachable _ => Api.Rejected "Explanation service unavailable"
    end
  /\ Api.rng_after (Api.getExplanation b p t g) = g.
Proof.
  unfold Api.getExplanation, Api.try_catch, Api.await, Api.axios_request.
  destruct (Api.explain b p) as [latency st d|latency].
  - rewrite (Z.leb_antisym 15000 latency).
    destruct (15000 <? latency)%Z; cbn; [split; reflexivity|].
    destruct ((200 <=? st)%Z && (st <? 300)%Z)%bool; cbn; split; reflexivity.
  - destruct (15000 <? latency)%Z; cbn; split; reflexivity.
Qed.

(** X11: [healthCheck] is never rejected: it is fulfilled with [true]
    exactly when a reply with status 200 arrives within 5000 ms, and with
    [false] otherwise (any other status, even another 2xx one, a
    connection failure or a time-out); it settles within 5000 ms. *)
Theorem healthCheck_outcome (L : Type) (b : Api.Backend L) (t : Z)
    (g : Random.Rng) :
  Api.settled (Api.healthCheck b t g)
  = Api.Fulfilled
      match Api.health b with
      | Api.Replied latency st _ => ((latency <=? 5000) && (st =? 200))%Z
      | Api.Unreachable _ => false
      end
  /\ (Api.settled_at (Api.healthCheck b t g) <= t + 5000)%Z.
Proof.
  unfold Api.healthCheck, Api.try_catch, Api.await, Api.axios_request.
  destruct (Api.health b) as [latency st d|latency].
  - rewrite (Z.leb_antisym 5000 latency).
    destruct (Z.ltb_spec 5000 latency) as [Hl|Hl]; cbn;
      [split; [reflexivity|lia]|].
    destruct ((200 <=? st)%Z && (st <? 300)%Z)%bool eqn:Es; cbn.
    + split; [reflexivity|lia].
    + split; [|lia]. f_equal. symmetry. apply Z.eqb_neq. intros ->.
      discriminate Es.
  - destruct (Z.ltb_spec 5000 latency) as [Hl|Hl]; cbn;
      split; try reflexivity; lia.
Qed.

(** X12: [getFaultLocation] is never rejected and sets no time-out: it
    passes on the payload of a 2xx reply whenever it arrives, and answers
    every failure with an empty list of locations. *)
Theorem getFaultLocation_outcome (L : Type) (b : Api.Backend L)
    (p : TurbineParameters) (t : Z) (g : Random.Rng) :
  Api.settled (Api.getFaultLocation b p t g)
  = Api.Fulfilled
      match Api.fault_location b p with
      | Api.Replied _ st d =>
          if ((200 <=? st) && (st <? 300))%Z then d
          else {| Api.locations := [] |}
      | Api.Unreachable _ => {| Api.locations := [] |}
      end
  /\ Api.settled_at (Api.getFaultLocation b p t g)
     = (t + match Api.fault_location b p with
            | Api.Replied latency _ _ | Api.Unreachable latency => latency
            end)%Z.
Proof.
  unfold Api.getFaultLocation, Api.try_catch, Api.await, Api.axios_request.
  destruct (Api.fault_location b p) as [latency st d|latency]; cbn.
  - destruct ((200 <=? st)%Z && (st <? 300)%Z)%bool; cbn; split; reflexivity.
  - split; reflexivity.
Qed.

(* ================================================================== *)
(** * The sampling cycle *)
(* ================================================================== *)

Section Clamps.

Lemma SFleb_refl (a : JS.number) : JS.is_nan a = false -> (a <= a)%js = true.
Proof.
  destruct a as [[|]|[|]| |s m e]; try reflexivity; try discriminate.
  intros _. apply SFleb_refl_finite.
Qed.

Lemma lt_le (a b : JS.number) : (a < b)%js = true -> (a <= b)%js = true.
Proof.
  unfold JS.lt, JS.le, SFltb, SFleb.
  destruct (SFcompare a b) as [[| |]|]; congruence.
Qed.

(** [Math.max(lo, x)] is a number not below [lo] when [x] is a number. *)
Lemma Math_max_lower (lo x : JS.number) :
  JS.is_nan lo = false -> JS.is_nan x = false ->
  (lo <= JS.Math_max lo x)%js = true.
Proof.
  intros Hlo Hx.
  destruct lo as [[|]|[|]| |sl ml el]; try discriminate Hlo;
    destruct x as [[|]|[|]| |sx mx ex]; try discriminate Hx;
    try reflexivity;
    unfold JS.Math_max;
    match goal with
    | |- context [if ?c then _ else _] =>
        destruct c eqn:E; [apply lt_le; exact E|apply SFleb_refl; reflexivity]
    end.
Qed.

Lemma Math_max_not_nan (lo x : JS.number) :
  JS.is_nan lo = false -> JS.is_nan x = false ->
  JS.is_nan (JS.Math_max lo x) = false.
Proof.
  intros Hlo Hx.
  destruct lo as [[|]|[|]| |sl ml el]; try discriminate Hlo;
    destruct x as [[|]|[|]| |sx mx ex]; try discriminate Hx;
    try reflexivity;
    unfold JS.Math_max;
    match goal with
    | |- context [if ?c then _ else _] => destruct c; reflexivity
    end.
Qed.

(** [Math.max(lo, Math.min(hi, x))] lies between the finite bounds
    [lo <= hi] when [x] is a number. *)
Lemma clamp_bounds (ml : positive) (el : Z) (mh : positive) (eh : Z)
    (x : JS.number) :
  let lo := S754_finite false ml el in
  let hi := S754_finite false mh eh in
  (lo <= hi)%js = true -> JS.is_nan x = false ->
  (lo <= JS.Math_max lo (JS.Math_min hi x))%js = true
  /\ (JS.Math_max lo (JS.Math_min hi x) <= hi)%js = true.
Proof.
  intros lo hi Hlh Hx.
  assert (Hmin : JS.Math_min hi x = if (x < hi)%js then x else hi).
  { destruct x as [[|]|[|]| |sx mx ex]; try discriminate Hx; reflexivity. }
  assert (Hm : JS.is_nan (JS.Math_min hi x) = false
               /\ (JS.Math_min hi x <= hi)%js = true).
  { rewrite Hmin. destruct (x < hi)%js eqn:E.
    - split; [exact Hx|apply lt_le; exact E].
    - split; [reflexivity|apply SFleb_refl_finite]. }
  destruct Hm as [Hn Hle].
  set (m := JS.Math_min hi x) in *.
  assert (Hmax : JS.Math_max lo m = if (lo < m)%js then m else lo).
  { destruct m as [[|]|[|]| |sm mm em]; try discriminate Hn; reflexivity. }
  rewrite Hmax. destruct (lo < m)%js eqn:E.
  - split; [apply lt_le; exact E|exact Hle].
  - split; [apply SFleb_refl_finite|exact Hlh].
Qed.

Local Open Scope Z_scope.

Lemma half_twice : scaled 4503599627370496 (-53)
                   + scaled 4503599627370496 (-53) = 2 ^ 2200.
Proof. vm_compute. reflexivity. Qed.

(** The perturbation [(Math.random() - 0.5) * c] is a finite number. *)
Lemma perturbation_finite (r : JS.number) (mc : positive) (ec : Z) :
  Random.unit_interval r = true ->
  canonical mc ec -> ec <= 971 -> 2 ^ 52 <= Zpos mc ->
  JS.is_finite ((r - 0.5) * S754_finite false mc ec)%js = true.
Proof.
  intros Hr Cc Bc Nc.
  destruct (unit_interval_facts r Hr) as [Hn Hlt].
  pose proof half_twice as Hh.
  destruct (sub_shape r 4503599627370496 (-53) 4503599627370496 (-53) Hn
              eq_refl ltac:(lia) eq_refl ltac:(lia) ltac:(lia) ltac:(lia))
    as [[s Hy]|(s & m & e & Hy & Cy & By & Vy)];
    unfold JS.mul, JS.sub; rewrite Hy.
  - reflexivity.
  - assert (Hlt1 : scaled (Zpos m) e < 2 ^ 2200).
    { pose proof (scaled_pos 4503599627370496 (-53) ltac:(lia) ltac:(lia)).
      lia. }
    destruct (mul_mantissa_upper m e mc ec Cy Hlt1 Cc Bc Nc)
      as (R & HR & HR').
    destruct s; cbn [SFmul xorb].
    + rewrite binary_round_aux_opp, HR.
      destruct HR' as [->|(m2 & e2 & -> & _)]; reflexivity.
    + rewrite HR. destruct HR' as [->|(m2 & e2 & -> & _)]; reflexivity.
Qed.

End Clamps.

Section Perturb.

Variable p : TurbineParameters.
Variable g : Random.Rng.

Let q := fst (RealTimeDashboard.perturb p g).
Let draw (i : nat) := Random.draws g (i + Random.cursor g).

Lemma perturb_windSpeed :
  windSpeed q = JS.Math_max 0%js (windSpeed p + (draw 0 - 0.5) * 2)%js.
Proof. reflexivity. Qed.

Lemma perturb_componentTemperatures :
  componentTemperatures q
  = JS.Math_max 0%js (componentTemperatures p + (draw 1 - 0.5) * 5)%js.
Proof. reflexivity. Qed.

Lemma perturb_vibrationLevels :
  vibrationLevels q
  = JS.Math_max 0%js (vibrationLevels p + (draw 2 - 0.5) * 10)%js.
Proof. reflexivity. Qed.

Lemma perturb_generatorPower :
  generatorPower q
  = JS.Math_max 0%js (windSpeed q * 150 + (draw 3 - 0.5) * 200)%js.
Proof. reflexivity. Qed.

Lemma perturb_powerFactor :
  powerFactor q
  = JS.Math_max 0.5%js
      (JS.Math_min 1%js (powerFactor p + (draw 4 - 0.5) * 0.1)%js).
Proof. reflexivity. Qed.

Lemma perturb_frequency :
  frequency q
  = JS.Math_max 45%js
      (JS.Math_min 65%js (frequency p + (draw 5 - 0.5) * 1)%js).
Proof. reflexivity. Qed.

End Perturb.

(** X13: one cycle of the sampling loop keeps the perturbed readings in
    range.  When the five readings it perturbs are numbers and the draws
    lie in [0, 1), the new wind speed, temperature, vibration and
    generator power are not negative, the new power factor lies in
    [0.5, 1] and the new frequency in [45, 65]. *)
Theorem perturb_clamps (p : TurbineParameters) (g : Random.Rng) :
  Random.well_formed g ->
  JS.is_nan (windSpeed p) = false ->
  JS.is_nan (componentTemperatures p) = false ->
  JS.is_nan (vibrationLevels p) = false ->
  JS.is_nan (powerFactor p) = false ->
  JS.is_nan (frequency p) = false ->
  let q := fst (RealTimeDashboard.perturb p g) in
  (0 <= windSpeed q)%js = true
  /\ (0 <= componentTemperatures q)%js = true
  /\ (0 <= vibrationLevels q)%js = true
  /\ (0 <= generatorPower q)%js = true
  /\ (0.5 <= powerFactor q)%js = true /\ (powerFactor q <= 1)%js = true
  /\ (45 <= frequency q)%js = true /\ (frequency q <= 65)%js = true.
Proof.
  intros Hg Hw Ht Hv Hf Hq q. subst q.
  assert (Hpert : forall i (mc : positive) (ec : Z),
             canonical mc ec -> (ec <= 971)%Z -> (2 ^ 52 <= Zpos mc)%Z ->
             JS.is_finite
               ((Random.draws g (i + Random.cursor g) - 0.5)
                * S754_finite false mc ec)%js = true).
  { intros i mc ec. apply perturbation_finite. apply Hg. }
  assert (Hsum : forall x i (mc : positive) (ec : Z),
             JS.is_nan x = false ->
             canonical mc ec -> (ec <= 971)%Z -> (2 ^ 52 <= Zpos mc)%Z ->
             JS.is_nan
               (x + (Random.draws g (i + Random.cursor g) - 0.5)
                    * S754_finite false mc ec)%js = false).
  { intros x i mc ec Hx C B N. apply add_not_nan; [exact Hx|].
    apply Hpert; assumption. }
  assert (Hwind : JS.is_nan (windSpeed (fst (RealTimeDashboard.perturb p g)))
                  = false).
  { rewrite perturb_windSpeed. apply Math_max_not_nan; [reflexivity|].
    apply Hsum; [exact Hw|reflexivity|lia|lia]. }
  rewrite perturb_generatorPower, perturb_powerFactor, perturb_frequency,
    perturb_componentTemperatures, perturb_vibrationLevels.
  repeat split.
  - rewrite perturb_windSpeed. apply Math_max_lower; [reflexivity|].
    apply Hsum; [exact Hw|reflexivity|lia|lia].
  - apply Math_max_lower; [reflexivity|].
    apply Hsum; [exact Ht|reflexivity|lia|lia].
  - apply Math_max_lower; [reflexivity|].
    apply Hsum; [exact Hv|reflexivity|lia|lia].
  - apply Math_max_lower; [reflexivity|].
    apply Hsum; [|reflexivity|lia|lia].
    apply mul_not_nan. exact Hwind.
  - apply (clamp_bounds 4503599627370496 (-53) 4503599627370496 (-52));
      [reflexivity|].
    apply Hsum; [exact Hf|reflexivity|lia|lia].
  - apply (clamp_bounds 4503599627370496 (-53) 4503599627370496 (-52));
      [reflexivity|].
    apply Hsum; [exact Hf|reflexivity|lia|lia].
  - apply (clamp_bounds 6333186975989760 (-47) 4573968371548160 (-46));
      [reflexivity|].
    apply Hsum; [exact Hq|reflexivity|lia|lia].
  - apply (clamp_bounds 6333186975989760 (-47) 4573968371548160 (-46));
      [reflexivity|].
    apply Hsum; [exact Hq|reflexivity|lia|lia].
Qed.

Lemma perturb_clamps_witness :
  let q := fst (RealTimeDashboard.perturb defaultParameters rng_half) in
  (0 <= windSpeed q)%js = true
  /\ (0 <= componentTemperatures q)%js = true
  /\ (0 <= vibrationLevels q)%js = true
  /\ (0 <= generatorPower q)%js = true
  /\ (0.5 <= powerFactor q)%js = true /\ (powerFactor q <= 1)%js = true
  /\ (45 <= frequency q)%js = true /\ (frequency q <= 65)%js = true.
Proof.
  apply (perturb_clamps defaultParameters rng_half);
    [intros i; reflexivity|reflexivity..].
Defined.

(* ================================================================== *)
(** * Further properties of the dashboard *)
(* ================================================================== *)

Lemma predict_never_rejected (w : Api.World) (p : TurbineParameters)
    (t : Z) (g : Random.Rng) :
  exists verdict,
    Api.settled (Api.predict w p t g) = Api.Fulfilled verdict.
Proof.
  destruct (remote_fails
              (Api.network w (Api.API_BASE_URL ++ "/predict")%string p))
    eqn:Hf.
  - destruct (predict_local_outcome w p t g Hf) as [Hs _].
    eexists. exact Hs.
  - unfold remote_fails in Hf.
    destruct (Api.network w (Api.API_BASE_URL ++ "/predict")%string p)
      as [latency st d|latency] eqn:Hnet; [|discriminate Hf].
    apply orb_false_iff in Hf. destruct Hf as [Hl Hs].
    apply Z.ltb_ge in Hl. apply negb_false_iff in Hs.
    apply andb_true_iff in Hs. destruct Hs as [Hs1 Hs2].
    apply Z.leb_le in Hs1. apply Z.ltb_lt in Hs2.
    rewrite (predict_remote_outcome w p t g latency st d Hnet Hl
               (conj Hs1 Hs2)).
    eexists. reflexivity.
Qed.

(** X14: [runPrediction] always records its verdict.  Whatever the
    backend does, the call stores the verdict as the last prediction and
    puts one new entry, carrying the label, the probability and the
    confidence of that verdict and the record it was asked about, in front
    of the 49 newest entries; the branch that only logs a failure is never
    taken.  The schedule is left alone. *)
Theorem runPrediction_always_records (w : Api.World)
    (params : TurbineParameters) (c : RealTimeDashboard.Component)
    (t : Z) (g : Random.Rng) :
  let c' := fst (fst (RealTimeDashboard.runPrediction w params c t g)) in
  exists result entry,
    Api.settled (Api.predict w params t g) = Api.Fulfilled result
    /\ RealTimeDashboard.lastPrediction c' = Some result
    /\ RealTimeDashboard.predictionHistory c'
       = entry :: firstn 49 (RealTimeDashboard.predictionHistory c)
    /\ RealTimeDashboard.prediction entry = Api.prediction result
    /\ RealTimeDashboard.probability entry = Api.probability result
    /\ RealTimeDashboard.confidence entry = Api.confidence result
    /\ RealTimeDashboard.parameters entry = params
    /\ RealTimeDashboard.isRealTimeMode c'
       = RealTimeDashboard.isRealTimeMode c
    /\ RealTimeDashboard.intervalId c' = RealTimeDashboard.intervalId c
    /\ RealTimeDashboard.intervals c' = RealTimeDashboard.intervals c.
Proof.
  cbv zeta. destruct (predict_never_rejected w params t g) as [result Hr].
  unfold RealTimeDashboard.runPrediction. rewrite Hr.
  eexists. eexists. split; [reflexivity|]. repeat split.
Qed.

Section Rows.
Import RealTimeDashboard.
Variable w : Api.World.
Hypothesis down : backend_down w.

Lemma Forall_firstn_of (A : Type) (P : A -> Prop) (n : nat) (l : list A) :
  Forall P l -> Forall P (firstn n l).
Proof.
  intros H. revert n. induction H as [|x l Hx Hl IH]; intros [|n]; cbn;
    constructor; auto.
Qed.

Lemma runPrediction_entry (params : TurbineParameters) (c : Component)
    (t : Z) (g : Random.Rng) :
  Random.well_formed g ->
  Forall entry_consistent (predictionHistory c) ->
  Forall entry_consistent
    (predictionHistory (fst (fst (runPrediction w params c t g)))).
Proof.
  intros Hg Hc.
  destruct (predict_local_outcome w params t g (down _ params)) as [Hs _].
  unfold runPrediction. rewrite Hs.
  cbn [fst predictionHistory setPredictionHistory setLastPrediction
       addToHistory].
  constructor; [|apply Forall_firstn_of; exact Hc].
  unfold entry_consistent.
  cbn [prediction probability confidence parameters].
  split; [apply (@mockPrediction_label _ params g)|].
  destruct (probability_range
              (Api.toISOString w (Api.settled_at (Api.predict w params t g)))
              params g Hg) as [H1 H2].
  destruct (confidence_range
              (Api.toISOString w (Api.settled_at (Api.predict w params t g)))
              params g Hg) as [H3 H4].
  repeat split; assumption.
Qed.

Lemma step_entries (c : Component) (ev : Event) :
  well_formed_event ev ->
  Forall entry_consistent (predictionHistory c) ->
  Forall entry_consistent (predictionHistory (step w c ev)).
Proof.
  intros Hev H. destruct ev; unfold step, handle;
    rewrite (@effect_cleanup_history _ _).
  - unfold onToggle. destruct (isRealTimeMode c); [|exact H].
    unfold stopRealTimeMode. destruct (intervalId c); exact H.
  - exact H.
  - unfold stopRealTimeMode. destruct (intervalId c); exact H.
  - constructor.
  - exact H.
  - apply runPrediction_entry; assumption.
Qed.

Lemma run_entries (evs : list Event) :
  Forall well_formed_event evs ->
  Forall entry_consistent (predictionHistory (run w evs)).
Proof.
  unfold run.
  assert (G : forall c, Forall well_formed_event evs ->
              Forall entry_consistent (predictionHistory c) ->
              Forall entry_consistent
                (predictionHistory (fold_left (step w) evs c))).
  { induction evs as [|ev evs IH]; intros c He Hc; [exact Hc|].
    cbn [fold_left]. inversion He; subst.
    apply IH; [assumption|]. apply step_entries; assumption. }
  intros He. apply G; [exact He|constructor].
Qed.

End Rows.

(** X15: while the backend is down, every entry of the history agrees
    with the rules.  Whatever the user does and whichever predictions
    complete, each stored entry carries the label the rules give to the
    record stored with it, a probability between that record's rule sum
    and 1, and a confidence between 0.85 and 0.95. *)
Theorem history_entries_consistent (w : Api.World) (evs : list Event) :
  backend_down w ->
  Forall well_formed_event evs ->
  Forall entry_consistent
    (RealTimeDashboard.predictionHistory (run w evs)).
Proof.
  intros Hdown Hevs. apply run_entries; assumption.
Qed.

Lemma history_entries_consistent_witness :
  Forall entry_consistent
    (RealTimeDashboard.predictionHistory
       (run offline_world
          [Start; Predicted scenario_record 3000%Z rng_half;
           Predicted wind_and_oil_record 6000%Z rng_half; Stop])).
Proof.
  apply (history_entries_consistent offline_world
           [Start; Predicted scenario_record 3000%Z rng_half;
            Predicted wind_and_oil_record 6000%Z rng_half; Stop]).
  - intros url p. reflexivity.
  - repeat constructor; intros i; reflexivity.
Defined.

Section Schedule.
Import RealTimeDashboard.
Variable w : Api.World.

Lemma stop_leaves_nothing (c : Component) :
  loop_consistent c ->
  let c' := handle stopRealTimeMode c in
  isRealTimeMode c' = false /\ intervalId c' = None /\ intervals c' = []
  /\ predictionHistory c' = predictionHistory c
  /\ lastPrediction c' = lastPrediction c.
Proof.
  destruct c as [mode hist lastp iid ivs nh ts dl].
  unfold loop_consistent, handle, stopRealTimeMode, effect_cleanup.
  cbn. destruct iid as [h|].
  - intros (_ & -> & Hlt). cbn. rewrite Pos.eqb_refl. cbn.
    repeat split.
  - intros (_ & ->). cbn. repeat split.
Qed.

Lemma unmount_leaves_nothing (c : Component) :
  loop_consistent c -> intervals (unmount c) = [].
Proof.
  destruct c as [mode hist lastp iid ivs nh ts dl].
  unfold loop_consistent, unmount. cbn. destruct iid as [h|].
  - intros (_ & -> & Hlt). cbn. rewrite Pos.eqb_refl. reflexivity.
  - intros (_ & ->). reflexivity.
Qed.

End Schedule.

(** X16: stopping cancels every scheduled cycle.  In whatever state the
    dashboard is after any sequence of events, [stopRealTimeMode] leaves
    it idle with no handle and no live interval, and keeps the history
    and the last prediction. *)
Theorem stop_cancels_every_cycle (w : Api.World) (evs : list Event) :
  let c := run w evs in
  let c' := RealTimeDashboard.handle RealTimeDashboard.stopRealTimeMode c in
  RealTimeDashboard.isRealTimeMode c' = false
  /\ RealTimeDashboard.intervalId c' = None
  /\ RealTimeDashboard.intervals c' = []
  /\ RealTimeDashboard.predictionHistory c'
     = RealTimeDashboard.predictionHistory c
  /\ RealTimeDashboard.lastPrediction c'
     = RealTimeDashboard.lastPrediction c.
Proof.
  cbv zeta. apply stop_leaves_nothing. apply (@run_consistent w evs).
Qed.

(** X17: removing the dashboard leaks no timer.  In whatever state the
    dashboard is after any sequence of events, the clean-up of its effect
    leaves no live interval. *)
Theorem unmount_clears_the_schedule (w : Api.World) (evs : list Event) :
  RealTimeDashboard.intervals (RealTimeDashboard.unmount (run w evs)) = [].
Proof.
  apply unmount_leaves_nothing. apply (@run_consistent w evs).
Qed.

(* ================================================================== *)
(** * Properties of the page *)
(* ================================================================== *)

(** X18: [handlePredict] always completes the analysis.  Whatever the
    backend does, the page ends up not loading, holding the verdict of
    [predict] for its current parameters, and showing one more
    notification, titled "Analysis Complete", whose variant is
    "destructive" exactly for a [fault]; the notification of a failed
    prediction is never shown. *)
Theorem handlePredict_completes (w : Api.World) (c : DashboardPage.Page)
    (t : Z) (g : Random.Rng) :
  let c' := fst (fst (DashboardPage.handlePredict w c t g)) in
  exists result note,
    Api.settled (Api.predict w (DashboardPage.parameters c) t g)
    = Api.Fulfilled result
    /\ DashboardPage.isLoading c' = false
    /\ DashboardPage.parameters c' = DashboardPage.parameters c
    /\ DashboardPage.prediction c' = Some result
    /\ DashboardPage.getFaultStatus c' = Api.prediction result
    /\ DashboardPage.toasts c' = note :: DashboardPage.toasts c
    /\ DashboardPage.title note = "Analysis Complete"
    /\ (DashboardPage.variant note = "destructive"
        <-> Api.prediction result = fault).
Proof.
  cbv zeta.
  destruct (predict_never_rejected w (DashboardPage.parameters c) t g)
    as [result Hr].
  unfold DashboardPage.handlePredict.
  cbn [DashboardPage.parameters DashboardPage.setIsLoading].
  rewrite Hr. eexists. eexists. split; [reflexivity|].
  cbn. repeat split; try reflexivity;
    destruct (Api.prediction result); intros H; try reflexivity;
    discriminate H.
Qed.

(* ================================================================== *)
(** * The history store through the dashboard *)
(* ================================================================== *)

Section Store.
Import RealTimeDashboard.
Variable w : Api.World.

Lemma run_snoc (evs : list Event) (ev : Event) :
  run w (evs ++ [ev]) = step w (run w evs) ev.
Proof. unfold run. rewrite fold_left_app. reflexivity. Qed.

(** A completed prediction puts its entry in front of the 49 newest. *)
Lemma step_predicted (c : Component) (params : TurbineParameters) (t : Z)
    (g : Random.Rng) :
  exists entry,
    parameters entry = params
    /\ predictionHistory (step w c (Predicted params t g))
       = entry :: firstn 49 (predictionHistory c).
Proof.
  destruct (predict_never_rejected w params t g) as [result Hr].
  unfold step, handle. rewrite (@effect_cleanup_history _ _).
  unfold runPrediction. rewrite Hr.
  eexists. split; [|reflexivity]. reflexivity.
Qed.

Lemma step_recorded (c : Component) (ev : Event)
    (seen : list TurbineParameters) :
  map parameters (predictionHistory c) = firstn 50 (List.rev seen) ->
  map parameters (predictionHistory (step w c ev))
  = firstn 50 (List.rev (record_event seen ev)).
Proof.
  intros H. destruct ev; cbn [record_event].
  - unfold step, handle. rewrite (@effect_cleanup_history _ _).
    unfold onToggle. destruct (isRealTimeMode c); [|exact H].
    unfold stopRealTimeMode. destruct (intervalId c); exact H.
  - unfold step, handle. rewrite (@effect_cleanup_history _ _). exact H.
  - unfold step, handle. rewrite (@effect_cleanup_history _ _).
    unfold stopRealTimeMode. destruct (intervalId c); exact H.
  - unfold step, handle. rewrite (@effect_cleanup_history _ _). reflexivity.
  - unfold step, handle. rewrite (@effect_cleanup_history _ _). exact H.
  - destruct (step_predicted c params t g) as (entry & Hp & ->).
    cbn [map]. rewrite Hp, <- firstn_map, H, firstn_firstn.
    rewrite rev_app_distr. reflexivity.
Qed.

(** The history holds the records of the 50 newest predictions completed
    since it was last cleared, newest first. *)
Lemma run_recorded (evs : list Event) :
  map parameters (predictionHistory (run w evs))
  = firstn 50 (List.rev (recorded evs)).
Proof.
  unfold run, recorded.
  assert (G : forall c seen,
             map parameters (predictionHistory c)
             = firstn 50 (List.rev seen) ->
             map parameters (predictionHistory (fold_left (step w) evs c))
             = firstn 50 (List.rev (fold_left record_event evs seen))).
  { induction evs as [|ev evs IH]; intros c seen H; [exact H|].
    cbn [fold_left]. apply IH. apply step_recorded. exact H. }
  apply G. reflexivity.
Qed.

Lemma recorded_completions (requests : list Request) :
  recorded (map completion requests) = map requested requests.
Proof.
  unfold recorded.
  assert (G : forall seen,
             fold_left record_event (map completion requests) seen
             = (seen ++ map requested requests)%list).
  { induction requests as [|r requests IH]; intros seen.
    - cbn. rewrite app_nil_r. reflexivity.
    - cbn [map fold_left]. rewrite IH. unfold completion at 1.
      cbn [record_event]. rewrite <- app_assoc. reflexivity. }
  apply G.
Qed.

Lemma newest_fifty (A : Type) (l : list A) :
  List.length l = 60%nat -> firstn 50 (List.rev l) = List.rev (skipn 10 l).
Proof.
  intros Hlen.
  assert (Hsplit : List.rev l
                   = (List.rev (skipn 10 l) ++ List.rev (firstn 10 l))%list).
  { rewrite <- rev_app_distr, firstn_skipn. reflexivity. }
  assert (Hl50 : List.length (List.rev (skipn 10 l)) = 50%nat).
  { rewrite length_rev, length_skipn. lia. }
  rewrite Hsplit, firstn_app, Hl50, Nat.sub_diag, firstn_O, app_nil_r.
  apply firstn_all2. lia.
Qed.

Lemma effect_cleanup_downloads (before after : Component) :
  downloads (effect_cleanup before after) = downloads after.
Proof.
  unfold effect_cleanup.
  destruct (intervalId before) as [old|]; [|reflexivity].
  destruct (intervalId after) as [new|]; [|reflexivity].
  destruct (Pos.eqb old new); reflexivity.
Qed.

(** The file written by an export: the header line, then the lines of
    the entries in the stored order. *)
Lemma step_export (c : Component) (t : Z) :
  downloads (step w c (Export t))
  = (("turbine_predictions_" ++ before_T (Api.toISOString w t) ++ ".csv")
       %string,
     String.concat newline
       (header_line :: map row_line (predictionHistory c)))
    :: downloads c
  /\ predictionHistory (step w c (Export t)) = predictionHistory c.
Proof.
  unfold step, handle.
  rewrite effect_cleanup_downloads, (@effect_cleanup_history _ _).
  unfold exportHistory, csv. cbn [map downloads toast download].
  rewrite map_map. split; reflexivity.
Qed.

End Store.

(** C6: the history never holds more than 50 entries.  After any sequence
    of events it holds the 50 newest predictions completed since it was
    last cleared; a further prediction puts its entry in front of the
    first 49 entries, so that on a full history the last entry, the
    oldest, is the one dropped; and 60 predictions completed on an empty
    history leave exactly 50 entries, those of the 50 requests made
    last. *)
Theorem history_capped (w : Api.World) (evs : list Event) :
  let store := RealTimeDashboard.predictionHistory (run w evs) in
  (List.length store <= 50)%nat
  /\ map RealTimeDashboard.parameters store
     = firstn 50 (List.rev (recorded evs))
  /\ (forall params t g,
        exists entry,
          RealTimeDashboard.parameters entry = params
          /\ RealTimeDashboard.predictionHistory
               (run w (evs ++ [Predicted params t g]))
             = entry :: firstn 49 store
          /\ (List.length store = 50%nat ->
              RealTimeDashboard.predictionHistory
                (run w (evs ++ [Predicted params t g]))
              = entry :: removelast store))
  /\ (forall requests : list Request,
        List.length requests = 60%nat ->
        let store60 :=
          RealTimeDashboard.predictionHistory
            (run w (map completion requests)) in
        List.length store60 = 50%nat
        /\ map RealTimeDashboard.parameters store60
           = List.rev (skipn 10 (map requested requests))).
Proof.
  cbv zeta. split; [apply (@run_history_bound w evs)|].
  split; [apply run_recorded|]. split.
  - intros params t g. rewrite run_snoc.
    destruct (step_predicted w (run w evs) params t g) as (entry & Hp & He).
    exists entry. split; [exact Hp|]. split; [exact He|].
    intros Hfull. rewrite He. f_equal.
    apply (@firstn_removelast _ _ 49 Hfull).
  - intros requests Hlen.
    assert (Hp : map RealTimeDashboard.parameters
                   (RealTimeDashboard.predictionHistory
                      (run w (map completion requests)))
                 = List.rev (skipn 10 (map requested requests))).
    { rewrite run_recorded, recorded_completions.
      apply newest_fifty. rewrite length_map. exact Hlen. }
    split; [|exact Hp].
    rewrite <- (length_map RealTimeDashboard.parameters), Hp.
    rewrite length_rev, length_skipn, length_map. lia.
Qed.

Lemma history_capped_witness :
  let store60 :=
    RealTimeDashboard.predictionHistory
      (run offline_world (map completion sixty_requests)) in
  List.length store60 = 50%nat
  /\ map RealTimeDashboard.parameters store60
     = List.rev (skipn 10 (map requested sixty_requests)).
Proof.
  destruct (history_capped offline_world []) as (_ & _ & _ & H).
  apply (H sixty_requests). reflexivity.
Defined.

(** C10: the history is kept newest first, and the export follows it.  A
    completed prediction puts its entry at the front of the history, which
    holds the predictions in the reverse of the order they completed in;
    an export then writes the header line, the line of that newest entry,
    and the lines of the older entries in the stored order. *)
Theorem history_newest_first (w : Api.World) (evs : list Event)
    (params : TurbineParameters) (t : Z) (g : Random.Rng) (t' : Z) :
  let before := run w evs in
  let after := run w (evs ++ [Predicted params t g]) in
  let exported := run w (evs ++ [Predicted params t g; Export t']) in
  exists entry,
    RealTimeDashboard.parameters entry = params
    /\ RealTimeDashboard.predictionHistory after
       = entry :: firstn 49 (RealTimeDashboard.predictionHistory before)
    /\ map RealTimeDashboard.parameters
         (RealTimeDashboard.predictionHistory after)
       = firstn 50 (params :: List.rev (recorded evs))
    /\ RealTimeDashboard.downloads exported
       = (("turbine_predictions_"
           ++ RealTimeDashboard.before_T (Api.toISOString w t')
           ++ ".csv")%string,
          String.concat RealTimeDashboard.newline
            (header_line :: row_line entry
             :: map row_line
                  (firstn 49 (RealTimeDashboard.predictionHistory before))))
         :: RealTimeDashboard.downloads after
    /\ RealTimeDashboard.predictionHistory exported
       = RealTimeDashboard.predictionHistory after.
Proof.
  cbv zeta.
  replace (evs ++ [Predicted params t g; Export t'])%list
    with ((evs ++ [Predicted params t g]) ++ [Export t'])%list
    by (rewrite <- app_assoc; reflexivity).
  rewrite (run_snoc w (evs ++ [Predicted params t g]) (Export t')).
  destruct (step_export w (run w (evs ++ [Predicted params t g])) t')
    as [Hd Hh].
  rewrite Hd, Hh. clear Hd Hh.
  pose proof (run_recorded w (evs ++ [Predicted params t g])) as Hrec.
  rewrite run_snoc in *.
  destruct (step_predicted w (run w evs) params t g) as (entry & Hp & He).
  exists entry. split; [exact Hp|]. split; [exact He|]. split.
  - rewrite Hrec. unfold recorded. rewrite fold_left_app.
    cbn [fold_left record_event]. rewrite rev_app_distr. reflexivity.
  - rewrite He. cbn [map]. split; reflexivity.
Qed.

(* ================================================================== *)
(** * The explanation panel on local verdicts *)
(* ================================================================== *)

Section Impact.

Local Open Scope Z_scope.

(** A number whose magnitude is at most [b] is neither above [c] nor
    below [-c], for every [c] that is at least [b]. *)
Lemma small_magnitude (y : spec_float) (mb : positive) (eb : Z)
    (mc : positive) (ec : Z) :
  ((exists s, y = S754_zero s)
   \/ exists s m e, y = S754_finite s m e /\ canonical m e /\ e <= 971
                    /\ scaled (Zpos m) e <= scaled (Zpos mb) eb) ->
  canonical mc ec -> scaled (Zpos mb) eb <= scaled (Zpos mc) ec ->
  JS.gt (JS.Math_abs y) (S754_finite false mc ec) = false
  /\ JS.gt y (S754_finite false mc ec) = false
  /\ JS.lt y (S754_finite true mc ec) = false.
Proof.
  intros [[s ->]|(s & m & e & -> & C & B & H)] Cc Hbc.
  - destruct s; repeat split.
  - assert (Hle : SFleb (S754_finite false m e) (S754_finite false mc ec)
                  = true).
    { apply canonical_leb; [exact C|exact Cc|lia]. }
    assert (Hgt : JS.gt (S754_finite false m e) (S754_finite false mc ec)
                  = false).
    { apply (proj2 (@not_gt_iff_le (S754_finite false m e)
                      (S754_finite false mc ec) eq_refl eq_refl)).
      exact Hle. }
    split; [exact Hgt|]. destruct s.
    + split; [reflexivity|].
      assert (Hneg : SFleb (S754_finite true mc ec) (S754_finite true m e)
                     = true).
      { apply neg_leb; [exact C|exact Cc|lia]. }
      apply (proj2 (@not_gt_iff_le (S754_finite true mc ec)
                      (S754_finite true m e) eq_refl eq_refl)).
      exact Hneg.
    + split; [exact Hgt|reflexivity].
Qed.

(** The shape of [r * c - h] for a draw [r], where [c] is twice [h]. *)
Lemma centred_noise_shape (r : JS.number) (mh : positive) (eh : Z) :
  Random.unit_interval r = true ->
  canonical mh eh -> eh + 1 <= 971 -> 2 ^ 52 <= Zpos mh ->
  let y := (r * S754_finite false mh (eh + 1) - S754_finite false mh eh)%js in
  (exists s, y = S754_zero s)
  \/ exists s m e, y = S754_finite s m e /\ canonical m e /\ e <= 971
                   /\ scaled (Zpos m) e <= scaled (Zpos mh) eh.
Proof.
  intros Hr Ch Bh Nh y. subst y.
  destruct (unit_interval_facts r Hr) as [Hn Hlt].
  destruct (canonical_facts mh eh Ch) as (Lh & Uh & _).
  assert (Cc : canonical mh (eh + 1)).
  { unfold canonical, canonical_mantissa in *. apply Z.eqb_eq in Ch.
    apply Z.eqb_eq. rewrite fexp_eq in *.
    pose proof (digits2_at_least_53 mh Nh). lia. }
  destruct (mul_below_one r mh (eh + 1) Hn Hlt Cc Bh Nh) as [Hx Hv].
  apply sub_shape; try assumption; try lia.
  assert (Hdouble : scaled (Zpos mh) (eh + 1)
                    = scaled (Zpos mh) eh + scaled (Zpos mh) eh).
  { unfold scaled. replace (eh + 1 + 2200) with (eh + 2200 + 1) by lia.
    rewrite Z.pow_add_r by lia. change (2 ^ 1) with 2. ring. }
  rewrite <- Hdouble. exact Hv.
Qed.

(** What the panel shows for such a residual term. *)
Lemma noise_display (y : spec_float) (mb : positive) (eb : Z) :
  ((exists s, y = S754_zero s)
   \/ exists s m e, y = S754_finite s m e /\ canonical m e /\ e <= 971
                    /\ scaled (Zpos m) e <= scaled (Zpos mb) eb) ->
  scaled (Zpos mb) eb <= scaled 5764607523034235 (-58) ->
  ExplainableAI.getImpactLevel y = "Low"%string
  /\ ExplainableAI.getImpactColor y = "text-muted-foreground"%string.
Proof.
  intros Hy Hb.
  assert (B1 : scaled 5764607523034235 (-58)
               <= scaled 7205759403792794 (-56))
    by (apply Z.leb_le; vm_compute; reflexivity).
  assert (B2 : scaled 5764607523034235 (-58)
               <= scaled 7205759403792794 (-57))
    by (apply Z.leb_le; vm_compute; reflexivity).
  destruct (small_magnitude y mb eb 7205759403792794 (-56) Hy eq_refl)
    as (A1 & _ & _); [lia|].
  destruct (small_magnitude y mb eb 7205759403792794 (-57) Hy eq_refl)
    as (A2 & G2 & _); [lia|].
  destruct (small_magnitude y mb eb 5764607523034235 (-58) Hy eq_refl Hb)
    as (_ & G3 & L3).
  unfold ExplainableAI.getImpactLevel, ExplainableAI.getImpactColor.
  cbv zeta. rewrite A1, A2, G2, G3, L3.
  split; reflexivity.
Qed.

End Impact.

Section Shown.

Variable now : string.
Variable p : TurbineParameters.
Variable g : Random.Rng.

Let shap := Api.shapValues (fst (Api.mockPrediction now p g)).

Lemma mock_attributions :
  Api.get "vibrationLevels" shap
  = Some (if rule_vibration p then 0.15%js else (-0.05)%js)
  /\ Api.get "componentTemperatures" shap
     = Some (if rule_temperature p then 0.12%js else (-0.03)%js)
  /\ Api.get "windSpeed" shap
     = Some (if rule_wind p then 0.1%js else (-0.02)%js)
  /\ Api.get "powerFactor" shap
     = Some (if rule_powerFactor p then 0.08%js else (-0.01)%js)
  /\ Api.get "gearboxOilCondition" shap
     = Some (if rule_oil p then 0.06%js else (-0.01)%js)
  /\ Api.get "generatorPower" shap
     = Some (Random.draws g (Random.cursor g) * 0.04 - 0.02)%js
  /\ Api.get "frequency" shap
     = Some (Random.draws g (S (Random.cursor g)) * 0.02 - 0.01)%js.
Proof.
  unfold shap. rewrite mockPrediction_shapValues. repeat split.
Qed.

End Shown.

(** X19: what the explanation panel shows for a local verdict.  A rule
    that fired is shown in the alarm colour, as a High impact for the
    vibration and the temperature rule and as a Medium impact for the
    other three; a rule that did not fire is shown as a Low impact; the
    two residual factors [generatorPower] and [frequency] are always shown
    as a Low impact in the muted colour.  The intermediate colour never
    appears. *)
Theorem local_verdict_display (now : string) (p : TurbineParameters)
    (g : Random.Rng) :
  Random.well_formed g ->
  let shap := Api.shapValues (fst (Api.mockPrediction now p g)) in
  let shown (key : string) :=
    option_map
      (fun x => (ExplainableAI.getImpactLevel x,
                 ExplainableAI.getImpactColor x))
      (Api.get key shap) in
  shown "vibrationLevels"
  = Some (if rule_vibration p then ("High", "text-destructive")
          else ("Low", "text-secondary"))
  /\ shown "componentTemperatures"
     = Some (if rule_temperature p then ("High", "text-destructive")
             else ("Low", "text-secondary"))
  /\ shown "windSpeed"
     = Some (if rule_wind p then ("Medium", "text-destructive")
             else ("Low", "text-muted-foreground"))
  /\ shown "powerFactor"
     = Some (if rule_powerFactor p then ("Medium", "text-destructive")
             else ("Low", "text-muted-foreground"))
  /\ shown "gearboxOilCondition"
     = Some (if rule_oil p then ("Medium", "text-destructive")
             else ("Low", "text-muted-foreground"))
  /\ shown "generatorPower" = Some ("Low", "text-muted-foreground")
  /\ shown "frequency" = Some ("Low", "text-muted-foreground").
Proof.
  intros Hg. cbv zeta.
  destruct (mock_attributions now p g)
    as (-> & -> & -> & -> & -> & -> & ->).
  cbn [option_map].
  repeat split.
  - destruct (rule_vibration p); reflexivity.
  - destruct (rule_temperature p); reflexivity.
  - destruct (rule_wind p); reflexivity.
  - destruct (rule_powerFactor p); reflexivity.
  - destruct (rule_oil p); reflexivity.
  - destruct (noise_display _ 5764607523034235 (-58)
                (centred_noise_shape _ 5764607523034235 (-58)
                   (Hg (Random.cursor g)) eq_refl ltac:(lia) ltac:(lia))
                ltac:(lia)) as [H1 H2].
    change (-58 + 1)%Z with (-57)%Z in H1, H2. rewrite H1, H2.
    reflexivity.
  - destruct (noise_display _ 5764607523034235 (-59)
                (centred_noise_shape _ 5764607523034235 (-59)
                   (Hg (S (Random.cursor g))) eq_refl ltac:(lia)
                   ltac:(lia))
                ltac:(apply Z.leb_le; vm_compute; reflexivity))
      as [H1 H2].
    change (-59 + 1)%Z with (-58)%Z in H1, H2. rewrite H1, H2.
    reflexivity.
Qed.

Lemma local_verdict_display_witness :
  let shap := Api.shapValues
                (fst (Api.mockPrediction "2026-01-01T00:00:00.000Z"
                        scenario_record rng_half)) in
  let shown (key : string) :=
    option_map
      (fun x => (ExplainableAI.getImpactLevel x,
                 ExplainableAI.getImpactColor x))
      (Api.get key shap) in
  shown "vibrationLevels"
  = Some (if rule_vibration scenario_record
          then ("High", "text-destructive")
          else ("Low", "text-secondary"))
  /\ shown "componentTemperatures"
     = Some (if rule_temperature scenario_record
             then ("High", "text-destructive")
             else ("Low", "text-secondary"))
  /\ shown "windSpeed"
     = Some (if rule_wind scenario_record
             then ("Medium", "text-destructive")
             else ("Low", "text-muted-foreground"))
  /\ shown "powerFactor"
     = Some (if rule_powerFactor scenario_record
             then ("Medium", "text-destructive")
             else ("Low", "text-muted-foreground"))
  /\ shown "gearboxOilCondition"
     = Some (if rule_oil scenario_record
             then ("Medium", "text-destructive")
             else ("Low", "text-muted-foreground"))
  /\ shown "generatorPower" = Some ("Low", "text-muted-foreground")
  /\ shown "frequency" = Some ("Low", "text-muted-foreground").
Proof.
  apply (local_verdict_display "2026-01-01T00:00:00.000Z" scenario_record
           rng_half).
  intros i. reflexivity.
Defined.

(* ================================================================== *)
(** * The layout of the exported rows *)
(* ================================================================== *)

Section Layout.

Local Open Scope string_scope.

Lemma length_app (s t : string) :
  String.length (s ++ t) = (String.length s + String.length t)%nat.
Proof.
  induction s as [|c s IH]; cbn; [reflexivity|]. rewrite IH. reflexivity.
Qed.

Lemma all_digits_app (s t : string) :
  all_digits (s ++ t) = all_digits s && all_digits t.
Proof.
  induction s as [|c s IH]; cbn; [reflexivity|].
  rewrite IH. apply andb_assoc.
Qed.

Lemma length_zeros (n : nat) : String.length (NumberFormat.zeros n) = n.
Proof.
  induction n as [|n IH]; cbn; [reflexivity|]. rewrite IH. reflexivity.
Qed.

Lemma all_digits_zeros (n : nat) : all_digits (NumberFormat.zeros n) = true.
Proof. induction n as [|n IH]; cbn; [reflexivity|]. exact IH. Qed.

Lemma length_substring (s : string) (n len : nat) :
  (n + len <= String.length s)%nat ->
  String.length (substring n len s) = len.
Proof.
  revert n len. induction s as [|c s IH]; intros [|n] [|len] H; cbn in *;
    try reflexivity; try lia.
  - rewrite (IH 0%nat len); [reflexivity|lia].
  - apply IH. lia.
  - apply IH. lia.
Qed.

Lemma all_digits_substring (s : string) (n len : nat) :
  all_digits s = true -> all_digits (substring n len s) = true.
Proof.
  revert n len. induction s as [|c s IH]; intros [|n] [|len] H; cbn in *;
    try reflexivity.
  - apply andb_true_iff in H. destruct H as [Hc Hs]. rewrite Hc. cbn.
    apply IH. exact Hs.
  - apply andb_true_iff in H. destruct H as [_ Hs]. apply IH. exact Hs.
  - apply andb_true_iff in H. destruct H as [_ Hs]. apply IH. exact Hs.
Qed.

Lemma all_digits_uint (d : Decimal.uint) :
  all_digits (NilEmpty.string_of_uint d) = true.
Proof. induction d; cbn; try reflexivity; exact IHd. Qed.

Lemma decimal_digits (n : Z) :
  all_digits (NumberFormat.decimal n) = true
  /\ (1 <= String.length (NumberFormat.decimal n))%nat.
Proof.
  unfold NumberFormat.decimal, NilZero.string_of_uint.
  destruct (N.to_uint (Z.to_N n)) eqn:E;
    try (split; [reflexivity|cbn; lia]);
    (split; [apply (all_digits_uint (_ u))|cbn; lia]).
Qed.

(** The digits of [n] with the point before the last [f] of them. *)
Lemma point_form_shape (n : Z) (f : nat) :
  (0 < f)%nat ->
  exists ip fp : string,
    NumberFormat.point_form n f = ip ++ "." ++ fp
    /\ ip <> "" /\ all_digits ip = true /\ all_digits fp = true
    /\ String.length fp = f.
Proof.
  intros Hf. unfold NumberFormat.point_form.
  destruct (Nat.eqb_spec f 0) as [->|_]; [lia|].
  destruct (decimal_digits n) as [Hd Hl].
  set (m0 := NumberFormat.decimal n) in *.
  set (m := if Nat.leb (String.length m0) f
            then NumberFormat.zeros (f + 1 - String.length m0) ++ m0
            else m0).
  assert (Hm : all_digits m = true /\ (f + 1 <= String.length m)%nat).
  { subst m. destruct (Nat.leb_spec (String.length m0) f) as [Hle|Hgt].
    - split.
      + rewrite all_digits_app, all_digits_zeros, Hd. reflexivity.
      + rewrite length_app, length_zeros. lia.
    - split; [exact Hd|lia]. }
  destruct Hm as [Hdm Hlm]. cbv zeta.
  exists (substring 0 (String.length m - f) m),
         (substring (String.length m - f) f m).
  split; [reflexivity|]. split.
  - intros Hempty.
    assert (Hlen : String.length (substring 0 (String.length m - f) m)
                   = (String.length m - f)%nat)
      by (apply length_substring; lia).
    rewrite Hempty in Hlen. cbn in Hlen. lia.
  - split; [apply all_digits_substring; exact Hdm|].
    split; [apply all_digits_substring; exact Hdm|].
    apply length_substring. lia.
Qed.

(** [x.toFixed(f)] on a number printed in fixed notation. *)
Lemma toFixed_shape (x : JS.number) (f : nat) :
  fixed_notation x = true -> (0 < f)%nat ->
  fixed_decimals f (NumberFormat.toFixed x f).
Proof.
  intros Hx Hf. unfold fixed_decimals.
  destruct x as [s| | |s m e]; try discriminate Hx.
  - destruct (point_form_shape 0 f Hf) as (ip & fp & E & H).
    exists "", ip, fp. cbn [NumberFormat.toFixed]. rewrite E.
    split; [reflexivity|]. split; [left; reflexivity|exact H].
  - cbn [fixed_notation] in Hx. apply negb_true_iff in Hx.
    cbn [NumberFormat.toFixed]. rewrite Hx.
    destruct (point_form_shape (NumberFormat.nearest_scaled m e f) f Hf)
      as (ip & fp & E & H).
    exists (if s then "-" else ""), ip, fp. rewrite E.
    split; [reflexivity|]. split; [destruct s; auto|exact H].
Qed.

End Layout.

(** C7, as the specification states it, fails: a reading that is not a
    number is exported as the text NaN, which has no decimal at all.  The
    entry below has a NaN vibration reading, and its line carries NaN in
    the vibration column. *)
Lemma nan_reading_is_exported_as_NaN :
  nth 6 (RealTimeDashboard.row nan_entry) ""%string = "NaN"%string
  /\ ~ fixed_decimals 1 "NaN"
  /\ row_line nan_entry
     = "2026-01-01T00:00:00.000Z,normal,0.050,0.900,12.5,2500.0,NaN,65.0"
       %string.
Proof.
  split; [reflexivity|]. split; [|vm_compute; reflexivity].
  intros (sign & ip & fp & E & Hsign & Hip & _ & _ & Hlen).
  destruct fp as [|d [|d' fp]]; try discriminate Hlen.
  destruct Hsign as [-> | ->]; [|discriminate E].
  cbn [append] in E.
  destruct ip as [|c1 [|c2 [|c3 [|c4 ip]]]]; cbn [append] in E;
    try congruence; discriminate E.
Qed.

(** C7 (amended): the export is a comma-separated table with the columns
    time stamp, label, probability, confidence, wind speed, generator
    power, vibration and temperature.  It is offered for download as the
    text of the history: the header line alone for an empty history, the
    header line and the line of the entry for a history of one entry.  For
    an entry whose six numbers are finite and below 10^21 in magnitude,
    the line carries the time stamp and the label, then the probability
    and the confidence with exactly three decimals and the four readings
    with exactly one; the entry of the examples is written with the
    digits of its fields at those precisions. *)
Theorem export_layout (w : Api.World) (t : Z)
    (c : RealTimeDashboard.Component)
    (entry : RealTimeDashboard.PredictionHistory) :
  forallb fixed_notation
    [ RealTimeDashboard.probability entry;
      RealTimeDashboard.confidence entry;
      windSpeed (RealTimeDashboard.parameters entry);
      generatorPower (RealTimeDashboard.parameters entry);
      vibrationLevels (RealTimeDashboard.parameters entry);
      componentTemperatures (RealTimeDashboard.parameters entry) ] = true ->
  RealTimeDashboard.downloads (RealTimeDashboard.exportHistory w t c)
  = (("turbine_predictions_"
      ++ RealTimeDashboard.before_T (Api.toISOString w t) ++ ".csv")%string,
     RealTimeDashboard.csv (RealTimeDashboard.predictionHistory c))
    :: RealTimeDashboard.downloads c
  /\ header_line
     = ("Timestamp,Prediction,Probability,Confidence,Wind Speed,"
        ++ "Generator Power,Vibration,Temperature")%string
  /\ RealTimeDashboard.csv [] = header_line
  /\ RealTimeDashboard.csv [entry]
     = (header_line ++ RealTimeDashboard.newline ++ row_line entry)%string
  /\ firstn 2 (RealTimeDashboard.row entry)
     = [ RealTimeDashboard.timestamp entry;
         Prediction_string (RealTimeDashboard.prediction entry) ]
  /\ skipn 2 (RealTimeDashboard.row entry)
     = [ NumberFormat.toFixed (RealTimeDashboard.probability entry) 3;
         NumberFormat.toFixed (RealTimeDashboard.confidence entry) 3;
         NumberFormat.toFixed
           (windSpeed (RealTimeDashboard.parameters entry)) 1;
         NumberFormat.toFixed
           (generatorPower (RealTimeDashboard.parameters entry)) 1;
         NumberFormat.toFixed
           (vibrationLevels (RealTimeDashboard.parameters entry)) 1;
         NumberFormat.toFixed
           (componentTemperatures (RealTimeDashboard.parameters entry)) 1 ]
  /\ Forall2 fixed_decimals [3; 3; 1; 1; 1; 1]%nat
       (skipn 2 (RealTimeDashboard.row entry))
  /\ row_line (entry_numbered 0)
     = "2026-01-01T00:00:00.000Z,normal,0.050,0.900,12.5,2500.0,25.0,65.0"
       %string.
Proof.
  intros H. cbn [forallb] in H.
  repeat (apply andb_true_iff in H; destruct H as [?H H]).
  split; [reflexivity|]. split; [reflexivity|]. split; [reflexivity|].
  split; [reflexivity|]. split; [reflexivity|]. split; [reflexivity|].
  split; [|vm_compute; reflexivity].
  unfold RealTimeDashboard.row. cbn [skipn].
  repeat (constructor; [apply toFixed_shape; [assumption|lia]|]).
  constructor.
Qed.

Lemma export_layout_witness :
  Forall2 fixed_decimals [3; 3; 1; 1; 1; 1]%nat
    (skipn 2 (RealTimeDashboard.row (entry_numbered 0))).
Proof.
  destruct (export_layout offline_world 0%Z RealTimeDashboard.mount
              (entry_numbered 0) eq_refl) as (_ & _ & _ & _ & _ & _ & H & _).
  exact H.
Defined.

(* ================================================================== *)
(** * The sample data on the local engine *)
(* ================================================================== *)

Section Samples.

Local Open Scope Z_scope.

(** A constant less a smaller non-negative number stays above every
    double below the exact difference. *)
Lemma sub_from_lower (mc : positive) (ec : Z) (y : spec_float)
    (ml : positive) (el : Z) :
  canonical mc ec -> nonneg_number y -> canonical ml el ->
  value y + scaled (Zpos ml) el <= scaled (Zpos mc) ec ->
  SFleb (S754_finite false ml el)
        (SFsub JS.prec JS.emax (S754_finite false mc ec) y) = true.
Proof.
  intros Cc Hy Cl H.
  destruct (canonical_facts mc ec Cc) as (Lc & _ & _).
  destruct Hy as [->|(my & ey & -> & Cy & By)].
  - cbn [SFsub]. cbn [value] in H. apply canonical_leb; try assumption; lia.
  - destruct (canonical_facts my ey Cy) as (Ly & _ & _).
    pose proof (value_finite_pos ml el Cl) as Pl. cbn [value] in Pl, H.
    cbn [SFsub cond_Zopp].
    set (ez := Z.min ec ey).
    pose proof (aligned_value mc ec ez ltac:(lia) ltac:(lia)) as Ac.
    pose proof (aligned_value my ey ez ltac:(lia) ltac:(lia)) as Ay.
    set (a := fst (shl_align mc ec ez)) in *.
    set (b := fst (shl_align my ey ez)) in *.
    assert (Hd : scaled (Zpos a - Zpos b) ez
                 = scaled (Zpos mc) ec - scaled (Zpos my) ey).
    { rewrite scaled_sub, Ac, Ay. reflexivity. }
    assert (Hpos : 0 < scaled (Zpos a - Zpos b) ez) by lia.
    destruct (Zpos a - Zpos b) as [|d|d] eqn:ED.
    + unfold scaled in Hpos. lia.
    + cbn [binary_normalize]. apply binary_round_lower; [lia|exact Cl|].
      rewrite Hd. lia.
    + exfalso. unfold scaled in Hpos.
      assert (0 < 2 ^ (ez + 2200)) by (apply Z.pow_pos_nonneg; lia).
      nia.
Qed.

(** The oil condition of a sample, [85 - Math.random() * 20], is never
    below 30. *)
Lemma sample_oil (r : JS.number) :
  Random.unit_interval r = true -> ((85 - r * 20) < 30)%js = false.
Proof.
  intros Hr. destruct (unit_interval_facts r Hr) as [Hn Hlt].
  destruct (mul_below_one r 5629499534213120 (-48) Hn Hlt eq_refl
              ltac:(lia) ltac:(lia)) as [Hy Hv].
  assert (Hle : (30 <= 85 - r * 20)%js = true).
  { apply sub_from_lower; [reflexivity|exact Hy|reflexivity|].
    assert (B : scaled 5629499534213120 (-48)
                + scaled 8444249301319680 (-48)
                <= scaled 5981343255101440 (-46))
      by (apply Z.leb_le; vm_compute; reflexivity).
    unfold JS.mul. lia. }
  assert (Hnan : JS.is_nan (85 - r * 20)%js = false).
  { destruct (85 - r * 20)%js; try reflexivity. discriminate Hle. }
  exact (proj2 (@not_gt_iff_le 30%js (85 - r * 20)%js eq_refl Hnan) Hle).
Qed.

End Samples.

Section SampleLabels.

(** The rule sum depends on a record only through the five tests. *)
Lemma rules_by_tests (p q : TurbineParameters) :
  rule_vibration p = rule_vibration q ->
  rule_temperature p = rule_temperature q ->
  rule_wind p = rule_wind q ->
  rule_powerFactor p = rule_powerFactor q ->
  rule_oil p = rule_oil q ->
  Api.faultScore p = Api.faultScore q.
Proof.
  unfold rule_vibration, rule_temperature, rule_wind, rule_powerFactor,
    rule_oil, Api.faultScore, Api.rules.
  intros -> -> -> -> ->. reflexivity.
Qed.

Lemma sample_draws (scenario : DataUploader.Scenario) (g : Random.Rng) :
  Random.draws (snd (DataUploader.sample scenario g)) = Random.draws g.
Proof. reflexivity. Qed.

Lemma sample_label (scenario : DataUploader.Scenario) (g : Random.Rng) :
  Random.well_formed g ->
  Api.faultScore (fst (DataUploader.sample scenario g))
  = Api.faultScore
      (with_health (DataUploader.scenario_vibrationLevels scenario)
         (DataUploader.scenario_componentTemperatures scenario)
         (DataUploader.scenario_windSpeed scenario)
         (DataUploader.scenario_powerFactor scenario)
         85%js defaultParameters).
Proof.
  intros Hg. apply rules_by_tests; try reflexivity.
  change (((85 - Random.draws g (4 + Random.cursor g) * 20) < 30)%js
          = false).
  apply sample_oil. apply Hg.
Qed.

Lemma map_M_pointwise (A B : Type) (f : A -> Random.M B)
    (R : A -> B -> Prop) :
  (forall x g, Random.well_formed g ->
               R x (fst (f x g)) /\ Random.well_formed (snd (f x g))) ->
  forall xs g, Random.well_formed g ->
    Forall2 R xs (fst (DataUploader.map_M f xs g))
    /\ Random.well_formed (snd (DataUploader.map_M f xs g)).
Proof.
  intros Hf xs. induction xs as [|x rest IH]; intros g Hg.
  - split; [constructor|exact Hg].
  - cbn [DataUploader.map_M]. unfold Random.bind.
    destruct (Hf x g Hg) as [Hx Hg1].
    destruct (f x g) as [y g1]. cbn [fst snd] in Hx, Hg1.
    destruct (IH g1 Hg1) as [Hrest Hg2].
    destruct (DataUploader.map_M f rest g1) as [ys g2].
    cbn [fst snd] in *. split; [constructor; assumption|exact Hg2].
Qed.

Lemma Forall2_map_eq (A B C : Type) (h : B -> C) (k : A -> C)
    (xs : list A) (ys : list B) :
  Forall2 (fun x y => h y = k x) xs ys -> map h ys = map k xs.
Proof.
  induction 1 as [|x y xs ys Hxy _ IH]; [reflexivity|].
  cbn [map]. rewrite Hxy, IH. reflexivity.
Qed.

End SampleLabels.

(** X21: how the local engine labels the sample data.  With draws in
    [0, 1), [generateSampleData] returns five records, in the order of
    its scenarios, and the local engine labels them normal, normal,
    warning, normal and warning: the scenario named "High Vibration
    Warning" is labelled normal, the one named "Overheating Fault" is
    labelled warning, and no sample is labelled fault. *)
Theorem sample_data_labels (g : Random.Rng) (now : string)
    (g' : Random.Rng) :
  Random.well_formed g ->
  let samples := fst (DataUploader.generateSampleData g) in
  combine (map DataUploader.name DataUploader.scenarios)
    (map (fun p => Api.prediction (fst (Api.mockPrediction now p g')))
       samples)
  = [ ("Normal Operation", normal);
      ("High Vibration Warning", normal);
      ("Overheating Fault", warning);
      ("Low Wind Speed", normal);
      ("High Wind Speed", warning) ].
Proof.
  intros Hg samples. subst samples.
  rewrite (map_ext _ (fun p => Api.classify (Api.faultScore p))
             (fun p => @mockPrediction_label now p g')).
  destruct (map_M_pointwise _ _ DataUploader.sample
              (fun scenario p =>
                 Api.classify (Api.faultScore p)
                 = Api.classify
                     (Api.faultScore
                        (with_health
                           (DataUploader.scenario_vibrationLevels scenario)
                           (DataUploader.scenario_componentTemperatures
                              scenario)
                           (DataUploader.scenario_windSpeed scenario)
                           (DataUploader.scenario_powerFactor scenario)
                           85%js defaultParameters)))
              (fun scenario g0 Hg0 =>
                 conj (f_equal Api.classify (sample_label scenario g0 Hg0))
                      Hg0)
              DataUploader.scenarios g Hg) as [Hall _].
  unfold DataUploader.generateSampleData.
  rewrite (Forall2_map_eq _ _ _ _ _ _ _ Hall).
  vm_compute. reflexivity.
Qed.

Lemma sample_data_labels_witness :
  combine (map DataUploader.name DataUploader.scenarios)
    (map (fun p =>
            Api.prediction
              (fst (Api.mockPrediction "2026-01-01T00:00:00.000Z" p
                      rng_half)))
       (fst (DataUploader.generateSampleData rng_half)))
  = [ ("Normal Operation", normal);
      ("High Vibration Warning", normal);
      ("Overheating Fault", warning);
      ("Low Wind Speed", normal);
      ("High Wind Speed", warning) ].
Proof.
  apply (sample_data_labels rng_half "2026-01-01T00:00:00.000Z" rng_half).
  intros i. reflexivity.
Defined.

(* ================================================================== *)
(** * The sample file and the uploader *)
(* ================================================================== *)

Section Split.

Local Open Scope string_scope.

Variable sep : ascii.

Lemma append_associative (a b c : string) : (a ++ b) ++ c = a ++ (b ++ c).
Proof. induction a as [|x a IH]; cbn; [reflexivity|]. rewrite IH. reflexivity. Qed.

Lemma split_one (s : string) :
  JSString.includes_char sep s = false -> JSString.split sep s = [s].
Proof.
  unfold JSString.split. induction s as [|c s IH]; intros H; [reflexivity|].
  cbn [JSString.includes_char] in H. apply orb_false_iff in H.
  destruct H as [Hc Hs]. specialize (IH Hs).
  cbn [JSString.pieces]. destruct (JSString.pieces sep s) as [piece later].
  rewrite Hc. injection IH as -> ->. reflexivity.
Qed.

Lemma split_first (a b : string) :
  JSString.includes_char sep a = false ->
  JSString.split sep (a ++ String sep b) = a :: JSString.split sep b.
Proof.
  unfold JSString.split. induction a as [|c a IH]; intros H.
  - cbn [append JSString.pieces].
    destruct (JSString.pieces sep b) as [piece later].
    rewrite Ascii.eqb_refl. reflexivity.
  - cbn [JSString.includes_char] in H. apply orb_false_iff in H.
    destruct H as [Hc Ha]. specialize (IH Ha).
    cbn [append JSString.pieces].
    destruct (JSString.pieces sep (a ++ String sep b)) as [piece later].
    destruct (JSString.pieces sep b) as [piece' later'].
    rewrite Hc. injection IH as -> ->. reflexivity.
Qed.

(** [xs.join(sep).split(sep)] gives [xs] back when no element holds the
    separator and there is at least one element. *)
Lemma split_join (x : string) (xs : list string) :
  Forall (fun s => JSString.includes_char sep s = false) (x :: xs) ->
  JSString.split sep (String.concat (String sep "") (x :: xs)) = x :: xs.
Proof.
  revert x. induction xs as [|y ys IH]; intros x H.
  - cbn [String.concat]. apply split_one. inversion H; assumption.
  - inversion H as [|? ? Hx Hrest]; subst.
    change (String.concat (String sep "") (x :: y :: ys))
      with (x ++ String sep "" ++ String.concat (String sep "") (y :: ys)).
    cbn [append]. rewrite (split_first _ _ Hx). rewrite (IH y Hrest).
    reflexivity.
Qed.

(** Joining joined rows is joining all their elements. *)
Lemma join_join (xss : list (list string)) :
  Forall (fun xs => xs <> []) xss ->
  String.concat (String sep "") (map (String.concat (String sep "")) xss)
  = String.concat (String sep "") (List.concat xss).
Proof.
  assert (Happ : forall xs ys : list string, xs <> [] -> ys <> [] ->
            String.concat (String sep "") (xs ++ ys)%list
            = String.concat (String sep "") xs ++ String sep ""
              ++ String.concat (String sep "") ys).
  { induction xs as [|x xs IHxs]; intros ys Hxs Hys; [congruence|].
    destruct xs as [|x' xs].
    - destruct ys as [|y ys]; [congruence|]. reflexivity.
    - change (String.concat (String sep "") ((x :: x' :: xs) ++ ys)%list)
        with (x ++ String sep ""
              ++ String.concat (String sep "") ((x' :: xs) ++ ys)%list).
      rewrite (IHxs ys ltac:(discriminate) Hys).
      change (String.concat (String sep "") (x :: x' :: xs))
        with (x ++ String sep ""
              ++ String.concat (String sep "") (x' :: xs)).
      rewrite !append_associative. reflexivity. }
  induction xss as [|xs xss IH]; intros H; [reflexivity|].
  inversion H as [|? ? Hxs Hrest]; subst. specialize (IH Hrest).
  destruct xss as [|xs' xss].
  - cbn [map List.concat String.concat]. rewrite app_nil_r. reflexivity.
  - change (String.concat (String sep "")
              (map (String.concat (String sep "")) (xs :: xs' :: xss)))
      with (String.concat (String sep "") xs ++ String sep ""
            ++ String.concat (String sep "")
                 (map (String.concat (String sep "")) (xs' :: xss))).
    rewrite IH.
    change (List.concat (xs :: xs' :: xss))
      with (xs ++ List.concat (xs' :: xss))%list.
    rewrite Happ; [reflexivity|exact Hxs|].
    inversion Hrest as [|? ? Hxs' _]; subst.
    destruct xs'; [congruence|discriminate].
Qed.

End Split.

Section Template.

Variable h : DataUploader.Host.

Lemma one_field_parts (s : string) :
  one_field s = true ->
  JSString.includes_char "," s = false
  /\ JSString.includes_char (ascii_of_nat 10) s = false.
Proof.
  unfold one_field. intros H. apply andb_true_iff in H.
  destruct H as [H1 H2]. apply negb_true_iff in H1, H2. auto.
Qed.

Lemma map_M_all (A B : Type) (f : A -> Random.M B) (P : B -> Prop) :
  (forall x g, P (fst (f x g))) ->
  forall xs g, Forall P (fst (DataUploader.map_M f xs g)).
Proof.
  intros Hf xs. induction xs as [|x rest IH]; intros g; [constructor|].
  cbn [DataUploader.map_M]. unfold Random.bind.
  pose proof (Hf x g) as Hx. destruct (f x g) as [y g1].
  pose proof (IH g1) as Hrest.
  destruct (DataUploader.map_M f rest g1) as [ys g2].
  cbn [fst] in *. constructor; assumption.
Qed.

Lemma map_M_length (A B : Type) (f : A -> Random.M B) (xs : list A)
    (g : Random.Rng) :
  List.length (fst (DataUploader.map_M f xs g)) = List.length xs.
Proof.
  revert g. induction xs as [|x rest IH]; intros g; [reflexivity|].
  cbn [DataUploader.map_M]. unfold Random.bind, Random.ret.
  destruct (f x g) as [y g1]. specialize (IH g1).
  destruct (DataUploader.map_M f rest g1) as [ys g2].
  cbn [fst List.length] in *. rewrite IH. reflexivity.
Qed.

(** The values of a sample: one field each, among them the braking
    system. *)
Lemma sample_values (scenario : DataUploader.Scenario) (g : Random.Rng) :
  plain_numbers h ->
  let row := fst (DataUploader.sample scenario g) in
  Forall (fun v => one_field v = true) (DataUploader.values h row)
  /\ In "aerodynamic"%string (DataUploader.values h row).
Proof.
  intros plain row. subst row. unfold DataUploader.values. split.
  - repeat (constructor; [first [apply plain|reflexivity]|]). constructor.
  - do 19 right. left. reflexivity.
Qed.

Lemma Forall_filter_of (A : Type) (P : A -> Prop) (f : A -> bool)
    (l : list A) :
  Forall P l -> Forall P (filter f l).
Proof.
  induction 1 as [|x l Hx _ IH]; cbn; [constructor|].
  destruct (f x); [constructor; assumption|exact IH].
Qed.

Lemma filter_head (A : Type) (f : A -> bool) (x : A) (l : list A) :
  f x = true -> filter f (x :: l) = x :: filter f l.
Proof. intros H. cbn [filter]. rewrite H. reflexivity. Qed.

Lemma filter_keeps (A : Type) (f : A -> bool) (x : A) (l : list A) :
  In x l -> f x = true -> filter f l <> [].
Proof.
  intros Hin Hf Hnil.
  assert (Hx : In x (filter f l)) by (apply filter_In; auto).
  rewrite Hnil in Hx. exact Hx.
Qed.

(** A line without a comma gives no row under headers that are not a
    single one. *)
Lemma parse_lines_none (headers lines : list string) :
  List.length headers <> 1%nat ->
  Forall (fun line => JSString.includes_char "," line = false) lines ->
  DataUploader.parse_lines h headers lines = [].
Proof.
  intros Hh H. unfold DataUploader.parse_lines.
  induction H as [|line lines Hline _ IH]; [reflexivity|].
  cbn [flat_map]. rewrite IH, (split_one _ _ Hline).
  cbn [map List.length].
  destruct (Nat.eqb_spec 1 (List.length headers)) as [E|_];
    [congruence|reflexivity].
Qed.

(** The upload of a named text whose non-blank lines are known. *)
Lemma upload_of_lines (file_name text first second : string)
    (others : list string) (c : DataUploader.Uploader (DataUploader.Row h)) :
  JSString.endsWith file_name ".csv" = true ->
  filter (fun line => negb (String.eqb (JSString.trim line) EmptyString))
    (JSString.split (ascii_of_nat 10) text)
  = first :: second :: others ->
  let data :=
    DataUploader.parse_lines h
      (map JSString.trim (JSString.split "," first)) (second :: others) in
  DataUploader.handleFileUpload h (Some (file_name, Api.Fulfilled text)) c
  = {| DataUploader.uploadedData := data;
       DataUploader.isProcessing := false;
       DataUploader.loaded := data :: DataUploader.loaded c;
       DataUploader.toasts :=
         {| DataUploader.title := "Data uploaded successfully";
            DataUploader.description :=
              ("Loaded "
               ++ NumberFormat.decimal (Z.of_nat (List.length data))
               ++ " turbine parameter sets")%string;
            DataUploader.variant := None |}
         :: DataUploader.toasts c;
       DataUploader.downloads := DataUploader.downloads c |}.
Proof.
  intros Hname Hlines data. unfold DataUploader.handleFileUpload.
  rewrite Hname. cbn [negb]. rewrite Hlines. reflexivity.
Qed.

End Template.

(** X22: the sample file cannot be loaded back.  [downloadSampleCSV]
    joins the values of a row with line feeds, so the file it offers holds
    the line of the 27 column names and then one value per line.  Given to
    [handleFileUpload] under its own name, every line after the first is
    skipped for having one field instead of 27: the upload is reported as
    a success and loads no parameter set, whatever the random draws. *)
Theorem sample_file_loads_nothing (h : DataUploader.Host)
    (g : Random.Rng) (c : DataUploader.Uploader (DataUploader.Row h)) :
  plain_numbers h ->
  let c1 := fst (DataUploader.downloadSampleCSV h c g) in
  exists text : string,
    DataUploader.downloads c1
    = ("turbine_sample_data.csv"%string, text) :: DataUploader.downloads c
    /\ let c2 :=
         DataUploader.handleFileUpload h
           (Some ("turbine_sample_data.csv"%string, Api.Fulfilled text))
           c1 in
       DataUploader.uploadedData c2 = []
       /\ DataUploader.loaded c2 = [] :: DataUploader.loaded c
       /\ DataUploader.isProcessing c2 = false
       /\ DataUploader.toasts c2
          = {| DataUploader.title := "Data uploaded successfully";
               DataUploader.description := "Loaded 0 turbine parameter sets";
               DataUploader.variant := None |}
            :: DataUploader.toasts c1.
Proof.
  intros plain. cbv zeta.
  unfold DataUploader.downloadSampleCSV, Random.bind.
  assert (Hall : Forall
                   (fun row =>
                      Forall (fun v => one_field v = true)
                        (DataUploader.values h row)
                      /\ In "aerodynamic"%string
                           (DataUploader.values h row))
                   (fst (DataUploader.generateSampleData g))).
  { exact (map_M_all _ _ DataUploader.sample _
             (fun scenario g0 => sample_values h scenario g0 plain)
             DataUploader.scenarios g). }
  assert (Hlen : List.length (fst (DataUploader.generateSampleData g))
                 = 5%nat).
  { exact (map_M_length _ _ DataUploader.sample DataUploader.scenarios g). }
  destruct (DataUploader.generateSampleData g) as [samples g1].
  cbn [fst snd Random.ret] in *.
  destruct samples as [|row0 samples]; [discriminate Hlen|].
  set (vs := List.concat (map (DataUploader.values h) (row0 :: samples))).
  assert (Hvs : Forall (fun v => one_field v = true) vs).
  { apply Forall_concat. apply Forall_map.
    apply (Forall_impl _ (fun row H => proj1 H) Hall). }
  assert (Hin : In "aerodynamic"%string vs).
  { apply in_concat. exists (DataUploader.values h row0). split.
    - left. reflexivity.
    - inversion Hall as [|? ? [_ H0] _]; subst. exact H0. }
  assert (Hrows :
            String.concat DataUploader.newline
              (map (fun row =>
                      String.concat DataUploader.newline
                        (DataUploader.values h row)) (row0 :: samples))
            = String.concat DataUploader.newline vs).
  { rewrite <- (map_map (DataUploader.values h)
                  (String.concat DataUploader.newline)).
    apply (join_join (ascii_of_nat 10)).
    apply Forall_map. apply Forall_forall. intros row _. discriminate. }
  rewrite Hrows.
  destruct vs as [|v0 vs'] eqn:Evs; [destruct Hin|].
  set (text := (String.concat "," DataUploader.keys ++ DataUploader.newline
                ++ String.concat DataUploader.newline (v0 :: vs'))%string).
  exists text. split; [reflexivity|].
  assert (Hsplit :
            JSString.split (ascii_of_nat 10) text
            = String.concat "," DataUploader.keys :: v0 :: vs').
  { unfold text.
    change (DataUploader.newline
            ++ String.concat DataUploader.newline (v0 :: vs'))%string
      with (String (ascii_of_nat 10)
              (String.concat DataUploader.newline (v0 :: vs'))).
    rewrite split_first by (vm_compute; reflexivity).
    f_equal. apply (split_join (ascii_of_nat 10)).
    apply (Forall_impl _ (fun v H => proj2 (one_field_parts v H)) Hvs). }
  assert (Hkept : exists second others,
             filter
               (fun line : string =>
                  negb (String.eqb (JSString.trim line) EmptyString))
               (v0 :: vs')
             = second :: others).
  { pose proof (filter_keeps _
                  (fun line : string =>
                     negb (String.eqb (JSString.trim line) EmptyString))
                  "aerodynamic"%string (v0 :: vs') Hin eq_refl) as Hne.
    destruct (filter _ (v0 :: vs')) as [|second others];
      [congruence|eauto]. }
  destruct Hkept as (second & others & Hkept).
  assert (Hcommas : Forall
                      (fun line => JSString.includes_char "," line = false)
                      (second :: others)).
  { rewrite <- Hkept. apply Forall_filter_of.
    apply (Forall_impl _ (fun v H => proj1 (one_field_parts v H)) Hvs). }
  rewrite (upload_of_lines h "turbine_sample_data.csv" text
             (String.concat "," DataUploader.keys) second others _ eq_refl).
  - rewrite (parse_lines_none h
               (map JSString.trim
                  (JSString.split "," (String.concat "," DataUploader.keys)))
               (second :: others) ltac:(vm_compute; discriminate) Hcommas).
    repeat split.
  - rewrite Hsplit.
    rewrite filter_head by (vm_compute; reflexivity).
    rewrite Hkept. reflexivity.
Qed.

Lemma sample_file_loads_nothing_witness :
  let c1 := fst (DataUploader.downloadSampleCSV plain_host
                   fresh_uploader rng_half) in
  exists text : string,
    DataUploader.downloads c1
    = ("turbine_sample_data.csv"%string, text)
      :: DataUploader.downloads fresh_uploader
    /\ let c2 :=
         DataUploader.handleFileUpload plain_host
           (Some ("turbine_sample_data.csv"%string, Api.Fulfilled text))
           c1 in
       DataUploader.uploadedData c2 = []
       /\ DataUploader.loaded c2 = [] :: DataUploader.loaded fresh_uploader
       /\ DataUploader.isProcessing c2 = false
       /\ DataUploader.toasts c2
          = {| DataUploader.title := "Data uploaded successfully";
               DataUploader.description := "Loaded 0 turbine parameter sets";
               DataUploader.variant := None |}
            :: DataUploader.toasts c1.
Proof.
  apply (sample_file_loads_nothing plain_host rng_half
           fresh_uploader).
  intros x. reflexivity.
Defined.
